(** * Nikon R8/R10 EA-1 remote-control replacement: IR decoder, dispatcher,
      intervalometer and learn mode of the ATtiny85 sketch

    The repository holds three revisions of one Arduino sketch:

    - sketch 1 (Apple Remote only, key codes as macros),
    - sketch 2 (learn mode, learned profile next to the Apple constants,
      garbage guard with [&&]),
    - sketch 3 (learn mode, one set of [ir...] variables, garbage guard
      with [||]).

    All three are embedded below over one machine state.  Global variables
    are record fields carrying the source names; the relay sequences and
    the two interrupt handlers are state transformers; every
    [digitalWrite], [_delay_ms] and [EEPROM.put] is appended to a trace, as
    is the entry of every relay or indicator routine.

    Target: ATtiny85 (avr-gcc), so [int] is 16 bit, [unsigned int] 16 bit,
    [unsigned long] 32 bit and [byte] 8 bit; wrap-around is written out. *)

From Stdlib Require Import ZArith List Bool Lia.
Import ListNotations.
Open Scope Z_scope.

(** ** Machine integers *)

(** [int] on AVR: 16 bit two's complement. *)
Definition int16 (z : Z) : Z := (z + 32768) mod 65536 - 32768.

(** [unsigned int] on AVR. *)
Definition uint16 (z : Z) : Z := z mod 65536.

(** [unsigned long] on AVR. *)
Definition uint32 (z : Z) : Z := z mod 4294967296.

(** [byte] (uint8_t). *)
Definition byte (z : Z) : Z := z mod 256.

(** Arduino.h:
    [#define constrain(amt,low,high) ((amt)<(low)?(low):((amt)>(high)?(high):(amt)))] *)
Definition constrain (amt low high : Z) : Z :=
  if amt <? low then low else if amt >? high then high else amt.

(** Bit numbers from the ATtiny85 register file (avr/iotnx5.h). *)
Definition TOV0 : Z := 1.
Definition OCIE1A : Z := 6.

(** ** The EEPROM record *)

(** [struct RC]: an [int] address and seven [byte] keys.  Sketch 3 calls the
    key fields PlayKey, CenterKey, MenuKey, UpKey, DownKey, LeftKey and
    RightKey; the layout is the same. *)
Record RC : Type := mkRC {
  RcCode : Z;
  PlayKey : Z;
  OneFrameKey : Z;
  IntervalKey : Z;
  FasterKey : Z;
  SlowerKey : Z;
  DoubleSpeedKey : Z;
  HalfSpeedKey : Z
}.

(** ** Observable events *)

Inductive proc : Type :=
| P_blinkLED
| P_blinkLEDtwice
| P_startRunWithMetering
| P_stopRun
| P_meterOnce
| P_singleFrame.

Inductive event : Type :=
| Call (p : proc)
| DigitalWrite (pin : Z) (level : bool)
| DelayMs (ms : Z)
| EepromPut (rc : RC).

Definition HIGH : bool := true.
Definition LOW : bool := false.

(** ** Machine state: the sketch's globals and the registers it touches *)

Record state : Type := mkState {
  pins : Z;  (* output level of every Arduino pin, bit [p] for pin [p] *)
  TIMSK : Z;  (* timer interrupt mask register *)
  OCR1C : Z;  (* Timer1 compare register C (period) *)
  OCR1A : Z;  (* Timer1 compare register A *)
  eeprom : RC;  (* the single record stored at EEPROM offset 0 *)
  trace : list event;  (* everything the sketch did to the outside, oldest first *)
  irBits : Z;  (* volatile int irBits *)
  receivedData : Z;  (* volatile unsigned long receivedData *)
  oldIntervalStep : Z;  (* byte oldIntervalStep = 31 *)
  newIntervalStep : Z;  (* byte newIntervalStep = 31 *)
  postscaler : Z;  (* int postscaler = 2 *)
  divider : Z;  (* volatile int divider = 0 *)
  lmMode : Z;  (* byte lmMode = LM_MODE_1ST_SINGLESHOT *)
  blinkFlag : bool;  (* bool blinkFlag = true *)
  aluRemote : bool;  (* bool aluRemote = false *)
  startMillis : Z;  (* unsigned long startMillis = 0 *)
  justBooted : bool;  (* volatile bool justBooted = true *)
  learnMode : bool;  (* volatile bool learnMode = false *)
  learnedIrRcCode : Z;  (* volatile unsigned int, second sketch *)
  learnedIrPlayKey : Z;
  learnedIrOneFrameKey : Z;
  learnedIrIntervalKey : Z;
  learnedIrFasterKey : Z;
  learnedIrSlowerKey : Z;
  learnedIrDoubleSpeedKey : Z;
  learnedIrHalfSpeedKey : Z;
  irRcCode : Z;  (* volatile unsigned int, third sketch *)
  irPlayKey : Z;
  irCenterKey : Z;
  irMenuKey : Z;
  irUpKey : Z;
  irDownKey : Z;
  irLeftKey : Z;
  irRightKey : Z;
  irWhitePlayKey : Z
}.

Definition set_pins (v : Z) (s : state) : state :=
  mkState v (TIMSK s) (OCR1C s) (OCR1A s) (eeprom s) (trace s) (irBits s) (receivedData
    s) (oldIntervalStep s) (newIntervalStep s) (postscaler s) (divider s) (lmMode s)
    (blinkFlag s) (aluRemote s) (startMillis s) (justBooted s) (learnMode s)
    (learnedIrRcCode s) (learnedIrPlayKey s) (learnedIrOneFrameKey s)
    (learnedIrIntervalKey s) (learnedIrFasterKey s) (learnedIrSlowerKey s)
    (learnedIrDoubleSpeedKey s) (learnedIrHalfSpeedKey s) (irRcCode s) (irPlayKey s)
    (irCenterKey s) (irMenuKey s) (irUpKey s) (irDownKey s) (irLeftKey s) (irRightKey s)
    (irWhitePlayKey s).

Definition set_TIMSK (v : Z) (s : state) : state :=
  mkState (pins s) v (OCR1C s) (OCR1A s) (eeprom s) (trace s) (irBits s) (receivedData
    s) (oldIntervalStep s) (newIntervalStep s) (postscaler s) (divider s) (lmMode s)
    (blinkFlag s) (aluRemote s) (startMillis s) (justBooted s) (learnMode s)
    (learnedIrRcCode s) (learnedIrPlayKey s) (learnedIrOneFrameKey s)
    (learnedIrIntervalKey s) (learnedIrFasterKey s) (learnedIrSlowerKey s)
    (learnedIrDoubleSpeedKey s) (learnedIrHalfSpeedKey s) (irRcCode s) (irPlayKey s)
    (irCenterKey s) (irMenuKey s) (irUpKey s) (irDownKey s) (irLeftKey s) (irRightKey s)
    (irWhitePlayKey s).

Definition set_OCR1C (v : Z) (s : state) : state :=
  mkState (pins s) (TIMSK s) v (OCR1A s) (eeprom s) (trace s) (irBits s) (receivedData
    s) (oldIntervalStep s) (newIntervalStep s) (postscaler s) (divider s) (lmMode s)
    (blinkFlag s) (aluRemote s) (startMillis s) (justBooted s) (learnMode s)
    (learnedIrRcCode s) (learnedIrPlayKey s) (learnedIrOneFrameKey s)
    (learnedIrIntervalKey s) (learnedIrFasterKey s) (learnedIrSlowerKey s)
    (learnedIrDoubleSpeedKey s) (learnedIrHalfSpeedKey s) (irRcCode s) (irPlayKey s)
    (irCenterKey s) (irMenuKey s) (irUpKey s) (irDownKey s) (irLeftKey s) (irRightKey s)
    (irWhitePlayKey s).

Definition set_OCR1A (v : Z) (s : state) : state :=
  mkState (pins s) (TIMSK s) (OCR1C s) v (eeprom s) (trace s) (irBits s) (receivedData
    s) (oldIntervalStep s) (newIntervalStep s) (postscaler s) (divider s) (lmMode s)
    (blinkFlag s) (aluRemote s) (startMillis s) (justBooted s) (learnMode s)
    (learnedIrRcCode s) (learnedIrPlayKey s) (learnedIrOneFrameKey s)
    (learnedIrIntervalKey s) (learnedIrFasterKey s) (learnedIrSlowerKey s)
    (learnedIrDoubleSpeedKey s) (learnedIrHalfSpeedKey s) (irRcCode s) (irPlayKey s)
    (irCenterKey s) (irMenuKey s) (irUpKey s) (irDownKey s) (irLeftKey s) (irRightKey s)
    (irWhitePlayKey s).

Definition set_eeprom (v : RC) (s : state) : state :=
  mkState (pins s) (TIMSK s) (OCR1C s) (OCR1A s) v (trace s) (irBits s) (receivedData s)
    (oldIntervalStep s) (newIntervalStep s) (postscaler s) (divider s) (lmMode s)
    (blinkFlag s) (aluRemote s) (startMillis s) (justBooted s) (learnMode s)
    (learnedIrRcCode s) (learnedIrPlayKey s) (learnedIrOneFrameKey s)
    (learnedIrIntervalKey s) (learnedIrFasterKey s) (learnedIrSlowerKey s)
    (learnedIrDoubleSpeedKey s) (learnedIrHalfSpeedKey s) (irRcCode s) (irPlayKey s)
    (irCenterKey s) (irMenuKey s) (irUpKey s) (irDownKey s) (irLeftKey s) (irRightKey s)
    (irWhitePlayKey s).

Definition set_trace (v : list event) (s : state) : state :=
  mkState (pins s) (TIMSK s) (OCR1C s) (OCR1A s) (eeprom s) v (irBits s) (receivedData
    s) (oldIntervalStep s) (newIntervalStep s) (postscaler s) (divider s) (lmMode s)
    (blinkFlag s) (aluRemote s) (startMillis s) (justBooted s) (learnMode s)
    (learnedIrRcCode s) (learnedIrPlayKey s) (learnedIrOneFrameKey s)
    (learnedIrIntervalKey s) (learnedIrFasterKey s) (learnedIrSlowerKey s)
    (learnedIrDoubleSpeedKey s) (learnedIrHalfSpeedKey s) (irRcCode s) (irPlayKey s)
    (irCenterKey s) (irMenuKey s) (irUpKey s) (irDownKey s) (irLeftKey s) (irRightKey s)
    (irWhitePlayKey s).

Definition set_irBits (v : Z) (s : state) : state :=
  mkState (pins s) (TIMSK s) (OCR1C s) (OCR1A s) (eeprom s) (trace s) v (receivedData s)
    (oldIntervalStep s) (newIntervalStep s) (postscaler s) (divider s) (lmMode s)
    (blinkFlag s) (aluRemote s) (startMillis s) (justBooted s) (learnMode s)
    (learnedIrRcCode s) (learnedIrPlayKey s) (learnedIrOneFrameKey s)
    (learnedIrIntervalKey s) (learnedIrFasterKey s) (learnedIrSlowerKey s)
    (learnedIrDoubleSpeedKey s) (learnedIrHalfSpeedKey s) (irRcCode s) (irPlayKey s)
    (irCenterKey s) (irMenuKey s) (irUpKey s) (irDownKey s) (irLeftKey s) (irRightKey s)
    (irWhitePlayKey s).

Definition set_receivedData (v : Z) (s : state) : state :=
  mkState (pins s) (TIMSK s) (OCR1C s) (OCR1A s) (eeprom s) (trace s) (irBits s) v
    (oldIntervalStep s) (newIntervalStep s) (postscaler s) (divider s) (lmMode s)
    (blinkFlag s) (aluRemote s) (startMillis s) (justBooted s) (learnMode s)
    (learnedIrRcCode s) (learnedIrPlayKey s) (learnedIrOneFrameKey s)
    (learnedIrIntervalKey s) (learnedIrFasterKey s) (learnedIrSlowerKey s)
    (learnedIrDoubleSpeedKey s) (learnedIrHalfSpeedKey s) (irRcCode s) (irPlayKey s)
    (irCenterKey s) (irMenuKey s) (irUpKey s) (irDownKey s) (irLeftKey s) (irRightKey s)
    (irWhitePlayKey s).

Definition set_oldIntervalStep (v : Z) (s : state) : state :=
  mkState (pins s) (TIMSK s) (OCR1C s) (OCR1A s) (eeprom s) (trace s) (irBits s)
    (receivedData s) v (newIntervalStep s) (postscaler s) (divider s) (lmMode s)
    (blinkFlag s) (aluRemote s) (startMillis s) (justBooted s) (learnMode s)
    (learnedIrRcCode s) (learnedIrPlayKey s) (learnedIrOneFrameKey s)
    (learnedIrIntervalKey s) (learnedIrFasterKey s) (learnedIrSlowerKey s)
    (learnedIrDoubleSpeedKey s) (learnedIrHalfSpeedKey s) (irRcCode s) (irPlayKey s)
    (irCenterKey s) (irMenuKey s) (irUpKey s) (irDownKey s) (irLeftKey s) (irRightKey s)
    (irWhitePlayKey s).

Definition set_newIntervalStep (v : Z) (s : state) : state :=
  mkState (pins s) (TIMSK s) (OCR1C s) (OCR1A s) (eeprom s) (trace s) (irBits s)
    (receivedData s) (oldIntervalStep s) v (postscaler s) (divider s) (lmMode s)
    (blinkFlag s) (aluRemote s) (startMillis s) (justBooted s) (learnMode s)
    (learnedIrRcCode s) (learnedIrPlayKey s) (learnedIrOneFrameKey s)
    (learnedIrIntervalKey s) (learnedIrFasterKey s) (learnedIrSlowerKey s)
    (learnedIrDoubleSpeedKey s) (learnedIrHalfSpeedKey s) (irRcCode s) (irPlayKey s)
    (irCenterKey s) (irMenuKey s) (irUpKey s) (irDownKey s) (irLeftKey s) (irRightKey s)
    (irWhitePlayKey s).

Definition set_postscaler (v : Z) (s : state) : state :=
  mkState (pins s) (TIMSK s) (OCR1C s) (OCR1A s) (eeprom s) (trace s) (irBits s)
    (receivedData s) (oldIntervalStep s) (newIntervalStep s) v (divider s) (lmMode s)
    (blinkFlag s) (aluRemote s) (startMillis s) (justBooted s) (learnMode s)
    (learnedIrRcCode s) (learnedIrPlayKey s) (learnedIrOneFrameKey s)
    (learnedIrIntervalKey s) (learnedIrFasterKey s) (learnedIrSlowerKey s)
    (learnedIrDoubleSpeedKey s) (learnedIrHalfSpeedKey s) (irRcCode s) (irPlayKey s)
    (irCenterKey s) (irMenuKey s) (irUpKey s) (irDownKey s) (irLeftKey s) (irRightKey s)
    (irWhitePlayKey s).

Definition set_divider (v : Z) (s : state) : state :=
  mkState (pins s) (TIMSK s) (OCR1C s) (OCR1A s) (eeprom s) (trace s) (irBits s)
    (receivedData s) (oldIntervalStep s) (newIntervalStep s) (postscaler s) v (lmMode s)
    (blinkFlag s) (aluRemote s) (startMillis s) (justBooted s) (learnMode s)
    (learnedIrRcCode s) (learnedIrPlayKey s) (learnedIrOneFrameKey s)
    (learnedIrIntervalKey s) (learnedIrFasterKey s) (learnedIrSlowerKey s)
    (learnedIrDoubleSpeedKey s) (learnedIrHalfSpeedKey s) (irRcCode s) (irPlayKey s)
    (irCenterKey s) (irMenuKey s) (irUpKey s) (irDownKey s) (irLeftKey s) (irRightKey s)
    (irWhitePlayKey s).

Definition set_lmMode (v : Z) (s : state) : state :=
  mkState (pins s) (TIMSK s) (OCR1C s) (OCR1A s) (eeprom s) (trace s) (irBits s)
    (receivedData s) (oldIntervalStep s) (newIntervalStep s) (postscaler s) (divider s)
    v (blinkFlag s) (aluRemote s) (startMillis s) (justBooted s) (learnMode s)
    (learnedIrRcCode s) (learnedIrPlayKey s) (learnedIrOneFrameKey s)
    (learnedIrIntervalKey s) (learnedIrFasterKey s) (learnedIrSlowerKey s)
    (learnedIrDoubleSpeedKey s) (learnedIrHalfSpeedKey s) (irRcCode s) (irPlayKey s)
    (irCenterKey s) (irMenuKey s) (irUpKey s) (irDownKey s) (irLeftKey s) (irRightKey s)
    (irWhitePlayKey s).

Definition set_blinkFlag (v : bool) (s : state) : state :=
  mkState (pins s) (TIMSK s) (OCR1C s) (OCR1A s) (eeprom s) (trace s) (irBits s)
    (receivedData s) (oldIntervalStep s) (newIntervalStep s) (postscaler s) (divider s)
    (lmMode s) v (aluRemote s) (startMillis s) (justBooted s) (learnMode s)
    (learnedIrRcCode s) (learnedIrPlayKey s) (learnedIrOneFrameKey s)
    (learnedIrIntervalKey s) (learnedIrFasterKey s) (learnedIrSlowerKey s)
    (learnedIrDoubleSpeedKey s) (learnedIrHalfSpeedKey s) (irRcCode s) (irPlayKey s)
    (irCenterKey s) (irMenuKey s) (irUpKey s) (irDownKey s) (irLeftKey s) (irRightKey s)
    (irWhitePlayKey s).

Definition set_aluRemote (v : bool) (s : state) : state :=
  mkState (pins s) (TIMSK s) (OCR1C s) (OCR1A s) (eeprom s) (trace s) (irBits s)
    (receivedData s) (oldIntervalStep s) (newIntervalStep s) (postscaler s) (divider s)
    (lmMode s) (blinkFlag s) v (startMillis s) (justBooted s) (learnMode s)
    (learnedIrRcCode s) (learnedIrPlayKey s) (learnedIrOneFrameKey s)
    (learnedIrIntervalKey s) (learnedIrFasterKey s) (learnedIrSlowerKey s)
    (learnedIrDoubleSpeedKey s) (learnedIrHalfSpeedKey s) (irRcCode s) (irPlayKey s)
    (irCenterKey s) (irMenuKey s) (irUpKey s) (irDownKey s) (irLeftKey s) (irRightKey s)
    (irWhitePlayKey s).

Definition set_startMillis (v : Z) (s : state) : state :=
  mkState (pins s) (TIMSK s) (OCR1C s) (OCR1A s) (eeprom s) (trace s) (irBits s)
    (receivedData s) (oldIntervalStep s) (newIntervalStep s) (postscaler s) (divider s)
    (lmMode s) (blinkFlag s) (aluRemote s) v (justBooted s) (learnMode s)
    (learnedIrRcCode s) (learnedIrPlayKey s) (learnedIrOneFrameKey s)
    (learnedIrIntervalKey s) (learnedIrFasterKey s) (learnedIrSlowerKey s)
    (learnedIrDoubleSpeedKey s) (learnedIrHalfSpeedKey s) (irRcCode s) (irPlayKey s)
    (irCenterKey s) (irMenuKey s) (irUpKey s) (irDownKey s) (irLeftKey s) (irRightKey s)
    (irWhitePlayKey s).

Definition set_justBooted (v : bool) (s : state) : state :=
  mkState (pins s) (TIMSK s) (OCR1C s) (OCR1A s) (eeprom s) (trace s) (irBits s)
    (receivedData s) (oldIntervalStep s) (newIntervalStep s) (postscaler s) (divider s)
    (lmMode s) (blinkFlag s) (aluRemote s) (startMillis s) v (learnMode s)
    (learnedIrRcCode s) (learnedIrPlayKey s) (learnedIrOneFrameKey s)
    (learnedIrIntervalKey s) (learnedIrFasterKey s) (learnedIrSlowerKey s)
    (learnedIrDoubleSpeedKey s) (learnedIrHalfSpeedKey s) (irRcCode s) (irPlayKey s)
    (irCenterKey s) (irMenuKey s) (irUpKey s) (irDownKey s) (irLeftKey s) (irRightKey s)
    (irWhitePlayKey s).

Definition set_learnMode (v : bool) (s : state) : state :=
  mkState (pins s) (TIMSK s) (OCR1C s) (OCR1A s) (eeprom s) (trace s) (irBits s)
    (receivedData s) (oldIntervalStep s) (newIntervalStep s) (postscaler s) (divider s)
    (lmMode s) (blinkFlag s) (aluRemote s) (startMillis s) (justBooted s) v
    (learnedIrRcCode s) (learnedIrPlayKey s) (learnedIrOneFrameKey s)
    (learnedIrIntervalKey s) (learnedIrFasterKey s) (learnedIrSlowerKey s)
    (learnedIrDoubleSpeedKey s) (learnedIrHalfSpeedKey s) (irRcCode s) (irPlayKey s)
    (irCenterKey s) (irMenuKey s) (irUpKey s) (irDownKey s) (irLeftKey s) (irRightKey s)
    (irWhitePlayKey s).

Definition set_learnedIrRcCode (v : Z) (s : state) : state :=
  mkState (pins s) (TIMSK s) (OCR1C s) (OCR1A s) (eeprom s) (trace s) (irBits s)
    (receivedData s) (oldIntervalStep s) (newIntervalStep s) (postscaler s) (divider s)
    (lmMode s) (blinkFlag s) (aluRemote s) (startMillis s) (justBooted s) (learnMode s)
    v (learnedIrPlayKey s) (learnedIrOneFrameKey s) (learnedIrIntervalKey s)
    (learnedIrFasterKey s) (learnedIrSlowerKey s) (learnedIrDoubleSpeedKey s)
    (learnedIrHalfSpeedKey s) (irRcCode s) (irPlayKey s) (irCenterKey s) (irMenuKey s)
    (irUpKey s) (irDownKey s) (irLeftKey s) (irRightKey s) (irWhitePlayKey s).

Definition set_learnedIrPlayKey (v : Z) (s : state) : state :=
  mkState (pins s) (TIMSK s) (OCR1C s) (OCR1A s) (eeprom s) (trace s) (irBits s)
    (receivedData s) (oldIntervalStep s) (newIntervalStep s) (postscaler s) (divider s)
    (lmMode s) (blinkFlag s) (aluRemote s) (startMillis s) (justBooted s) (learnMode s)
    (learnedIrRcCode s) v (learnedIrOneFrameKey s) (learnedIrIntervalKey s)
    (learnedIrFasterKey s) (learnedIrSlowerKey s) (learnedIrDoubleSpeedKey s)
    (learnedIrHalfSpeedKey s) (irRcCode s) (irPlayKey s) (irCenterKey s) (irMenuKey s)
    (irUpKey s) (irDownKey s) (irLeftKey s) (irRightKey s) (irWhitePlayKey s).

Definition set_learnedIrOneFrameKey (v : Z) (s : state) : state :=
  mkState (pins s) (TIMSK s) (OCR1C s) (OCR1A s) (eeprom s) (trace s) (irBits s)
    (receivedData s) (oldIntervalStep s) (newIntervalStep s) (postscaler s) (divider s)
    (lmMode s) (blinkFlag s) (aluRemote s) (startMillis s) (justBooted s) (learnMode s)
    (learnedIrRcCode s) (learnedIrPlayKey s) v (learnedIrIntervalKey s)
    (learnedIrFasterKey s) (learnedIrSlowerKey s) (learnedIrDoubleSpeedKey s)
    (learnedIrHalfSpeedKey s) (irRcCode s) (irPlayKey s) (irCenterKey s) (irMenuKey s)
    (irUpKey s) (irDownKey s) (irLeftKey s) (irRightKey s) (irWhitePlayKey s).

Definition set_learnedIrIntervalKey (v : Z) (s : state) : state :=
  mkState (pins s) (TIMSK s) (OCR1C s) (OCR1A s) (eeprom s) (trace s) (irBits s)
    (receivedData s) (oldIntervalStep s) (newIntervalStep s) (postscaler s) (divider s)
    (lmMode s) (blinkFlag s) (aluRemote s) (startMillis s) (justBooted s) (learnMode s)
    (learnedIrRcCode s) (learnedIrPlayKey s) (learnedIrOneFrameKey s) v
    (learnedIrFasterKey s) (learnedIrSlowerKey s) (learnedIrDoubleSpeedKey s)
    (learnedIrHalfSpeedKey s) (irRcCode s) (irPlayKey s) (irCenterKey s) (irMenuKey s)
    (irUpKey s) (irDownKey s) (irLeftKey s) (irRightKey s) (irWhitePlayKey s).

Definition set_learnedIrFasterKey (v : Z) (s : state) : state :=
  mkState (pins s) (TIMSK s) (OCR1C s) (OCR1A s) (eeprom s) (trace s) (irBits s)
    (receivedData s) (oldIntervalStep s) (newIntervalStep s) (postscaler s) (divider s)
    (lmMode s) (blinkFlag s) (aluRemote s) (startMillis s) (justBooted s) (learnMode s)
    (learnedIrRcCode s) (learnedIrPlayKey s) (learnedIrOneFrameKey s)
    (learnedIrIntervalKey s) v (learnedIrSlowerKey s) (learnedIrDoubleSpeedKey s)
    (learnedIrHalfSpeedKey s) (irRcCode s) (irPlayKey s) (irCenterKey s) (irMenuKey s)
    (irUpKey s) (irDownKey s) (irLeftKey s) (irRightKey s) (irWhitePlayKey s).

Definition set_learnedIrSlowerKey (v : Z) (s : state) : state :=
  mkState (pins s) (TIMSK s) (OCR1C s) (OCR1A s) (eeprom s) (trace s) (irBits s)
    (receivedData s) (oldIntervalStep s) (newIntervalStep s) (postscaler s) (divider s)
    (lmMode s) (blinkFlag s) (aluRemote s) (startMillis s) (justBooted s) (learnMode s)
    (learnedIrRcCode s) (learnedIrPlayKey s) (learnedIrOneFrameKey s)
    (learnedIrIntervalKey s) (learnedIrFasterKey s) v (learnedIrDoubleSpeedKey s)
    (learnedIrHalfSpeedKey s) (irRcCode s) (irPlayKey s) (irCenterKey s) (irMenuKey s)
    (irUpKey s) (irDownKey s) (irLeftKey s) (irRightKey s) (irWhitePlayKey s).

Definition set_learnedIrDoubleSpeedKey (v : Z) (s : state) : state :=
  mkState (pins s) (TIMSK s) (OCR1C s) (OCR1A s) (eeprom s) (trace s) (irBits s)
    (receivedData s) (oldIntervalStep s) (newIntervalStep s) (postscaler s) (divider s)
    (lmMode s) (blinkFlag s) (aluRemote s) (startMillis s) (justBooted s) (learnMode s)
    (learnedIrRcCode s) (learnedIrPlayKey s) (learnedIrOneFrameKey s)
    (learnedIrIntervalKey s) (learnedIrFasterKey s) (learnedIrSlowerKey s) v
    (learnedIrHalfSpeedKey s) (irRcCode s) (irPlayKey s) (irCenterKey s) (irMenuKey s)
    (irUpKey s) (irDownKey s) (irLeftKey s) (irRightKey s) (irWhitePlayKey s).

Definition set_learnedIrHalfSpeedKey (v : Z) (s : state) : state :=
  mkState (pins s) (TIMSK s) (OCR1C s) (OCR1A s) (eeprom s) (trace s) (irBits s)
    (receivedData s) (oldIntervalStep s) (newIntervalStep s) (postscaler s) (divider s)
    (lmMode s) (blinkFlag s) (aluRemote s) (startMillis s) (justBooted s) (learnMode s)
    (learnedIrRcCode s) (learnedIrPlayKey s) (learnedIrOneFrameKey s)
    (learnedIrIntervalKey s) (learnedIrFasterKey s) (learnedIrSlowerKey s)
    (learnedIrDoubleSpeedKey s) v (irRcCode s) (irPlayKey s) (irCenterKey s) (irMenuKey
    s) (irUpKey s) (irDownKey s) (irLeftKey s) (irRightKey s) (irWhitePlayKey s).

Definition set_irRcCode (v : Z) (s : state) : state :=
  mkState (pins s) (TIMSK s) (OCR1C s) (OCR1A s) (eeprom s) (trace s) (irBits s)
    (receivedData s) (oldIntervalStep s) (newIntervalStep s) (postscaler s) (divider s)
    (lmMode s) (blinkFlag s) (aluRemote s) (startMillis s) (justBooted s) (learnMode s)
    (learnedIrRcCode s) (learnedIrPlayKey s) (learnedIrOneFrameKey s)
    (learnedIrIntervalKey s) (learnedIrFasterKey s) (learnedIrSlowerKey s)
    (learnedIrDoubleSpeedKey s) (learnedIrHalfSpeedKey s) v (irPlayKey s) (irCenterKey
    s) (irMenuKey s) (irUpKey s) (irDownKey s) (irLeftKey s) (irRightKey s)
    (irWhitePlayKey s).

Definition set_irPlayKey (v : Z) (s : state) : state :=
  mkState (pins s) (TIMSK s) (OCR1C s) (OCR1A s) (eeprom s) (trace s) (irBits s)
    (receivedData s) (oldIntervalStep s) (newIntervalStep s) (postscaler s) (divider s)
    (lmMode s) (blinkFlag s) (aluRemote s) (startMillis s) (justBooted s) (learnMode s)
    (learnedIrRcCode s) (learnedIrPlayKey s) (learnedIrOneFrameKey s)
    (learnedIrIntervalKey s) (learnedIrFasterKey s) (learnedIrSlowerKey s)
    (learnedIrDoubleSpeedKey s) (learnedIrHalfSpeedKey s) (irRcCode s) v (irCenterKey s)
    (irMenuKey s) (irUpKey s) (irDownKey s) (irLeftKey s) (irRightKey s) (irWhitePlayKey
    s).

Definition set_irCenterKey (v : Z) (s : state) : state :=
  mkState (pins s) (TIMSK s) (OCR1C s) (OCR1A s) (eeprom s) (trace s) (irBits s)
    (receivedData s) (oldIntervalStep s) (newIntervalStep s) (postscaler s) (divider s)
    (lmMode s) (blinkFlag s) (aluRemote s) (startMillis s) (justBooted s) (learnMode s)
    (learnedIrRcCode s) (learnedIrPlayKey s) (learnedIrOneFrameKey s)
    (learnedIrIntervalKey s) (learnedIrFasterKey s) (learnedIrSlowerKey s)
    (learnedIrDoubleSpeedKey s) (learnedIrHalfSpeedKey s) (irRcCode s) (irPlayKey s) v
    (irMenuKey s) (irUpKey s) (irDownKey s) (irLeftKey s) (irRightKey s) (irWhitePlayKey
    s).

Definition set_irMenuKey (v : Z) (s : state) : state :=
  mkState (pins s) (TIMSK s) (OCR1C s) (OCR1A s) (eeprom s) (trace s) (irBits s)
    (receivedData s) (oldIntervalStep s) (newIntervalStep s) (postscaler s) (divider s)
    (lmMode s) (blinkFlag s) (aluRemote s) (startMillis s) (justBooted s) (learnMode s)
    (learnedIrRcCode s) (learnedIrPlayKey s) (learnedIrOneFrameKey s)
    (learnedIrIntervalKey s) (learnedIrFasterKey s) (learnedIrSlowerKey s)
    (learnedIrDoubleSpeedKey s) (learnedIrHalfSpeedKey s) (irRcCode s) (irPlayKey s)
    (irCenterKey s) v (irUpKey s) (irDownKey s) (irLeftKey s) (irRightKey s)
    (irWhitePlayKey s).

Definition set_irUpKey (v : Z) (s : state) : state :=
  mkState (pins s) (TIMSK s) (OCR1C s) (OCR1A s) (eeprom s) (trace s) (irBits s)
    (receivedData s) (oldIntervalStep s) (newIntervalStep s) (postscaler s) (divider s)
    (lmMode s) (blinkFlag s) (aluRemote s) (startMillis s) (justBooted s) (learnMode s)
    (learnedIrRcCode s) (learnedIrPlayKey s) (learnedIrOneFrameKey s)
    (learnedIrIntervalKey s) (learnedIrFasterKey s) (learnedIrSlowerKey s)
    (learnedIrDoubleSpeedKey s) (learnedIrHalfSpeedKey s) (irRcCode s) (irPlayKey s)
    (irCenterKey s) (irMenuKey s) v (irDownKey s) (irLeftKey s) (irRightKey s)
    (irWhitePlayKey s).

Definition set_irDownKey (v : Z) (s : state) : state :=
  mkState (pins s) (TIMSK s) (OCR1C s) (OCR1A s) (eeprom s) (trace s) (irBits s)
    (receivedData s) (oldIntervalStep s) (newIntervalStep s) (postscaler s) (divider s)
    (lmMode s) (blinkFlag s) (aluRemote s) (startMillis s) (justBooted s) (learnMode s)
    (learnedIrRcCode s) (learnedIrPlayKey s) (learnedIrOneFrameKey s)
    (learnedIrIntervalKey s) (learnedIrFasterKey s) (learnedIrSlowerKey s)
    (learnedIrDoubleSpeedKey s) (learnedIrHalfSpeedKey s) (irRcCode s) (irPlayKey s)
    (irCenterKey s) (irMenuKey s) (irUpKey s) v (irLeftKey s) (irRightKey s)
    (irWhitePlayKey s).

Definition set_irLeftKey (v : Z) (s : state) : state :=
  mkState (pins s) (TIMSK s) (OCR1C s) (OCR1A s) (eeprom s) (trace s) (irBits s)
    (receivedData s) (oldIntervalStep s) (newIntervalStep s) (postscaler s) (divider s)
    (lmMode s) (blinkFlag s) (aluRemote s) (startMillis s) (justBooted s) (learnMode s)
    (learnedIrRcCode s) (learnedIrPlayKey s) (learnedIrOneFrameKey s)
    (learnedIrIntervalKey s) (learnedIrFasterKey s) (learnedIrSlowerKey s)
    (learnedIrDoubleSpeedKey s) (learnedIrHalfSpeedKey s) (irRcCode s) (irPlayKey s)
    (irCenterKey s) (irMenuKey s) (irUpKey s) (irDownKey s) v (irRightKey s)
    (irWhitePlayKey s).

Definition set_irRightKey (v : Z) (s : state) : state :=
  mkState (pins s) (TIMSK s) (OCR1C s) (OCR1A s) (eeprom s) (trace s) (irBits s)
    (receivedData s) (oldIntervalStep s) (newIntervalStep s) (postscaler s) (divider s)
    (lmMode s) (blinkFlag s) (aluRemote s) (startMillis s) (justBooted s) (learnMode s)
    (learnedIrRcCode s) (learnedIrPlayKey s) (learnedIrOneFrameKey s)
    (learnedIrIntervalKey s) (learnedIrFasterKey s) (learnedIrSlowerKey s)
    (learnedIrDoubleSpeedKey s) (learnedIrHalfSpeedKey s) (irRcCode s) (irPlayKey s)
    (irCenterKey s) (irMenuKey s) (irUpKey s) (irDownKey s) (irLeftKey s) v
    (irWhitePlayKey s).

Definition set_irWhitePlayKey (v : Z) (s : state) : state :=
  mkState (pins s) (TIMSK s) (OCR1C s) (OCR1A s) (eeprom s) (trace s) (irBits s)
    (receivedData s) (oldIntervalStep s) (newIntervalStep s) (postscaler s) (divider s)
    (lmMode s) (blinkFlag s) (aluRemote s) (startMillis s) (justBooted s) (learnMode s)
    (learnedIrRcCode s) (learnedIrPlayKey s) (learnedIrOneFrameKey s)
    (learnedIrIntervalKey s) (learnedIrFasterKey s) (learnedIrSlowerKey s)
    (learnedIrDoubleSpeedKey s) (learnedIrHalfSpeedKey s) (irRcCode s) (irPlayKey s)
    (irCenterKey s) (irMenuKey s) (irUpKey s) (irDownKey s) (irLeftKey s) (irRightKey s)
    v.

(** ** Pins *)

Definition lightmeterPin : Z := 3.
Definition startPin : Z := 4.
Definition loadPin : Z := 1.
Definition holdPin : Z := 0.
Definition ledPin : Z := 1.

Definition LM_MODE_1ST_SINGLESHOT : Z := 1.
Definition LM_MODE_SUB_SINGLESHOT : Z := 2.

(** ** Hardware primitives *)

Definition emit (e : event) (st : state) : state :=
  set_trace (trace st ++ [e]) st.

Definition enter (p : proc) (st : state) : state := emit (Call p) st.

Definition digitalWrite (pin : Z) (level : bool) (st : state) : state :=
  let st := emit (DigitalWrite pin level) st in
  set_pins (if level then Z.setbit (pins st) pin else Z.clearbit (pins st) pin) st.

(** The sketches read back only pins they drive themselves. *)
Definition digitalRead (pin : Z) (st : state) : bool :=
  Z.testbit (pins st) pin.

Definition _delay_ms (ms : Z) (st : state) : state := emit (DelayMs ms) st.

(** [EEPROM.put(0, IR)] *)
Definition EEPROM_put (IR : RC) (st : state) : state :=
  set_eeprom IR (emit (EepromPut IR) st).

(** ** Relay and indicator routines shared by the three sketches *)

Definition blinkLED (st : state) : state :=
  let st := enter P_blinkLED st in
  let st := digitalWrite ledPin HIGH st in
  let st := _delay_ms 20 st in
  digitalWrite ledPin LOW st.

Definition blinkLEDtwice (st : state) : state :=
  let st := enter P_blinkLEDtwice st in
  let st := digitalWrite ledPin HIGH st in
  let st := _delay_ms 50 st in
  let st := digitalWrite ledPin LOW st in
  let st := _delay_ms 150 st in
  let st := digitalWrite ledPin HIGH st in
  let st := _delay_ms 50 st in
  digitalWrite ledPin LOW st.

Definition startRunWithMetering (st : state) : state :=
  let st := enter P_startRunWithMetering st in
  let st := digitalWrite lightmeterPin HIGH st in
  let st := digitalWrite holdPin HIGH st in
  let st := digitalWrite loadPin HIGH st in
  let st := _delay_ms 250 st in
  let st := digitalWrite loadPin LOW st in
  let st := _delay_ms 70 st in
  digitalWrite startPin HIGH st.

Definition stopRun (st : state) : state :=
  let st := enter P_stopRun st in
  let st := digitalWrite startPin LOW st in
  let st := _delay_ms 70 st in
  let st := digitalWrite holdPin LOW st in
  let st := digitalWrite lightmeterPin LOW st in
  let st := digitalWrite ledPin HIGH st in
  let st := _delay_ms 250 st in
  let st := digitalWrite ledPin LOW st in
  set_lmMode LM_MODE_1ST_SINGLESHOT st.

Definition meterOnce (st : state) : state :=
  let st := enter P_meterOnce st in
  let st := digitalWrite lightmeterPin HIGH st in
  let st := digitalWrite ledPin HIGH st in
  let st := _delay_ms 350 st in
  let st := digitalWrite ledPin LOW st in
  let st := digitalWrite lightmeterPin LOW st in
  set_lmMode LM_MODE_SUB_SINGLESHOT st.

(** [singleFrame] is the same in the three sketches up to its two last
    delays: 20 and 50 ms in sketches 1 and 3, 10 and 20 ms in sketch 2. *)
Definition singleFrame_timed (T2 T3 : Z) (st : state) : state :=
  let st := enter P_singleFrame st in
  let st := digitalWrite loadPin HIGH st in
  let st := _delay_ms 10 st in
  let st := digitalWrite loadPin LOW st in
  let st := digitalWrite startPin HIGH st in
  let st := _delay_ms T2 st in
  let st := digitalWrite startPin LOW st in
  let st := digitalWrite loadPin HIGH st in
  let st := _delay_ms T3 st in
  digitalWrite loadPin LOW st.

(** The state of the globals when the program starts, before [setup]:
    every initialiser of the three sketches, zero for the globals without
    one, all pins low, the timer interrupt disabled, and the EEPROM as the
    last session left it.  [setup] writes [OCR1C] and [OCR1A] before
    anything reads them. *)
Definition power_on (stored : RC) : state :=
  {| pins := 0; TIMSK := 0; OCR1C := 0; OCR1A := 0;
     eeprom := stored; trace := [];
     irBits := 0; receivedData := 0;
     oldIntervalStep := 31; newIntervalStep := 31;
     postscaler := 2; divider := 0;
     lmMode := LM_MODE_1ST_SINGLESHOT;
     blinkFlag := true; aluRemote := false;
     startMillis := 0; justBooted := true; learnMode := false;
     learnedIrRcCode := 0; learnedIrPlayKey := 0; learnedIrOneFrameKey := 0;
     learnedIrIntervalKey := 0; learnedIrFasterKey := 0;
     learnedIrSlowerKey := 0; learnedIrDoubleSpeedKey := 0;
     learnedIrHalfSpeedKey := 0;
     irRcCode := 0x87EE; irPlayKey := 0x2F; irCenterKey := 0x2E;
     irMenuKey := 0x01; irUpKey := 0x05; irDownKey := 0x06;
     irLeftKey := 0x04; irRightKey := 0x03; irWhitePlayKey := 0x02 |}.

(** [TIFR & 1 << TOV0]: zero exactly when counter 0 has not overflowed since
    the previous edge. *)
Definition overFlowOf (TIFR : Z) : Z := Z.land TIFR (Z.shiftl 1 TOV0).

(** ** The two interrupt handlers

    Their text is the same in the three sketches; they differ only in the
    [ReceivedCode] and [singleFrame] they call. *)

Section Interrupts.

Variable ReceivedCode : bool -> state -> state.
Variable singleFrame : state -> state.

(** [ISR(INT0_vect)], called on every falling edge of the IR input.
    [TCNT0] and [TIFR] are the values the two registers hold on entry.  The
    handler ends by restarting counter 0 and clearing its overflow flag;
    the counter belongs to the environment, which hands the next
    invocation its own [TCNT0] and [TIFR].

    [(unsigned long) 1 << irBits] is defined for [irBits] in 0..31, the only
    values with which that line is reached. *)
Definition INT0_vect (TCNT0 TIFR : Z) (st : state) : state :=
  let timeStamp := TCNT0 in
  let overFlow := overFlowOf TIFR in
  if irBits st =? 32 then
    if (timeStamp >=? 194) && (timeStamp <=? 228) && (overFlow =? 0) then
      let st := set_receivedData 0 st in
      set_irBits 0 st
    else if (timeStamp >=? 159) && (timeStamp <=? 193) && (overFlow =? 0) then
      ReceivedCode true st
    else st
  else
    if (timeStamp >? 44) || negb (overFlow =? 0) then
      set_irBits 32 st
    else
      let st :=
        if timeStamp >? 26
        then set_receivedData
               (uint32 (Z.lor (receivedData st) (Z.shiftl 1 (irBits st)))) st
        else st in
      let st := if irBits st =? 31 then ReceivedCode false st else st in
      set_irBits (int16 (irBits st + 1)) st.

(** [ISR(TIMER1_COMPA_vect)].  [%] is C's truncating remainder. *)
Definition TIMER1_COMPA_vect (st : state) : state :=
  let st :=
    if negb (newIntervalStep st =? oldIntervalStep st) then
      let st := set_OCR1C (newIntervalStep st) st in
      set_OCR1A (OCR1C st) st
    else st in
  let st := if divider st =? 0 then singleFrame st else st in
  let st := set_divider (int16 (divider st + 1)) st in
  set_divider (Z.rem (divider st) (postscaler st)) st.

End Interrupts.

(** The interval-timer interrupt enable bit is flipped in place:
    [if (TIMSK & (1 << OCIE1A)) TIMSK &= ~(1 << OCIE1A); else TIMSK |= (1 << OCIE1A);] *)
Definition toggleTimerInterrupt (st : state) : state :=
  if negb (Z.land (TIMSK st) (Z.shiftl 1 OCIE1A) =? 0)
  then set_TIMSK (Z.land (TIMSK st) (Z.lnot (Z.shiftl 1 OCIE1A))) st
  else set_TIMSK (Z.lor (TIMSK st) (Z.shiftl 1 OCIE1A)) st.

(** [receivedData & 0xFFFF], [receivedData>>16 & 0xFF] and
    [receivedData>>17 & 0x7F] ([>>] binds tighter than [&]).  The results
    fit every type they are stored in or compared at, so no conversion
    changes them. *)
Definition address (st : state) : Z := Z.land (receivedData st) 0xFFFF.
Definition command8 (st : state) : Z := Z.land (Z.shiftr (receivedData st) 16) 0xFF.
Definition command7 (st : state) : Z := Z.land (Z.shiftr (receivedData st) 17) 0x7F.

(** The bodies of the Slower, Faster, HalfSpeed and DoubleSpeed branches
    of [ReceivedCode], written alike in the three sketches.
    [oldIntervalStep + 10] and [- 10] are [int] and cannot overflow from a
    [byte]; the result of [constrain] is stored in a [byte].  [postscaler * 2]
    is an [int] product, which avr-gcc computes modulo 2^16 (in C its
    overflow is undefined); [32768] is a [long] literal, so [constrain]
    yields a [long] that is converted back to [int]; [/] truncates. *)
Definition slower (st : state) : state :=
  let st := set_oldIntervalStep (newIntervalStep st) st in
  set_newIntervalStep (byte (constrain (oldIntervalStep st + 10) 1 255)) st.

Definition faster (st : state) : state :=
  let st := set_oldIntervalStep (newIntervalStep st) st in
  if postscaler st <=? 4
  then set_newIntervalStep (byte (constrain (oldIntervalStep st - 10) 11 255)) st
  else set_newIntervalStep (byte (constrain (oldIntervalStep st - 10) 1 255)) st.

Definition halfSpeed (st : state) : state :=
  set_postscaler (int16 (constrain (int16 (postscaler st * 2)) 1 32768)) st.

Definition doubleSpeed (st : state) : state :=
  let st := set_postscaler (int16 (constrain (Z.quot (postscaler st) 2) 1 32768)) st in
  if (newIntervalStep st <? 11) && (postscaler st <=? 4)
  then set_newIntervalStep 11 st
  else st.

(** ** Sketch 1: Apple Remote only *)

Module Sketch1.

Definition RC_CODE : Z := 0x87EE.
Definition UP_KEY : Z := 0x05.
Definition DOWN_KEY : Z := 0x06.
Definition LEFT_KEY : Z := 0x04.
Definition RIGHT_KEY : Z := 0x03.
Definition MENU_KEY : Z := 0x01.
Definition ALU_CENTER_KEY : Z := 0x2E.
Definition ALU_PLAY_KEY : Z := 0x2F.
Definition WHITE_PLAY_KEY : Z := 0x02.

Definition singleFrame : state -> state := singleFrame_timed 20 50.

Definition setup (st : state) : state :=
  let st := set_irBits 32 st in
  let st := set_OCR1C (oldIntervalStep st) st in
  set_OCR1A (OCR1C st) st.

Definition ReceivedCode (Repeat : bool) (st : state) : state :=
  let st :=
    if negb (address st =? RC_CODE) then
      let st := if negb Repeat then blinkLED st else st in
      let key := command8 st in
      if negb (key =? 0xFF) && negb Repeat && negb (digitalRead lightmeterPin st)
      then startRunWithMetering st
      else if negb (key =? 0xFF) && negb Repeat && digitalRead lightmeterPin st
      then stopRun st
      else st
    else
      let key := command7 st in
      let st :=
        if ((key =? ALU_CENTER_KEY) && negb Repeat)
           || ((key =? ALU_PLAY_KEY) && negb Repeat)
        then set_aluRemote true st else st in
      if (key =? ALU_PLAY_KEY) && negb Repeat && negb (digitalRead lightmeterPin st)
      then startRunWithMetering st
      else if (key =? ALU_PLAY_KEY) && negb Repeat && digitalRead lightmeterPin st
      then stopRun st
      else if (key =? ALU_CENTER_KEY) && negb Repeat then
        let st := if lmMode st =? LM_MODE_1ST_SINGLESHOT then meterOnce st else st in
        singleFrame st
      else if (key =? MENU_KEY) && negb Repeat then toggleTimerInterrupt st
      else if (key =? DOWN_KEY) && negb Repeat then slower st
      else if (key =? UP_KEY) && negb Repeat then faster st
      else if (key =? RIGHT_KEY) && negb Repeat then halfSpeed st
      else if (key =? LEFT_KEY) && negb Repeat then doubleSpeed st
      else if (key =? WHITE_PLAY_KEY) && negb Repeat && negb (aluRemote st)
              && negb (digitalRead lightmeterPin st)
      then startRunWithMetering st
      else if (key =? WHITE_PLAY_KEY) && negb Repeat && negb (aluRemote st)
              && digitalRead lightmeterPin st
      then stopRun st
      else set_blinkFlag false st in
  let st := if blinkFlag st then blinkLED st else st in
  set_blinkFlag true st.

(** [loop()] is empty. *)
Definition loop (st : state) : state := st.

End Sketch1.

(** ** Sketch 2: learn mode, learned profile next to the Apple constants *)

Module Sketch2.

Definition appleIrRcCode : Z := 0x87EE.
Definition appleIrPlayKey : Z := 0x2F.
Definition appleIrOneFrameKey : Z := 0x2E.
Definition appleIrIntervalKey : Z := 0x01.
Definition appleIrFasterKey : Z := 0x05.
Definition appleIrSlowerKey : Z := 0x06.
Definition appleIrDoubleSpeedKey : Z := 0x04.
Definition appleIrHalfSpeedKey : Z := 0x03.
Definition appleIrWhitePlayKey : Z := 0x02.

Definition singleFrame : state -> state := singleFrame_timed 10 20.

(** [setup()]; [millis] is what [millis()] returns at its end.  The [int]
    address read from the EEPROM is stored in an [unsigned int]. *)
Definition setup (millis : Z) (st : state) : state :=
  let IR := eeprom st in
  let st := set_learnedIrRcCode (uint16 (RcCode IR)) st in
  let st := set_learnedIrPlayKey (PlayKey IR) st in
  let st := set_learnedIrOneFrameKey (OneFrameKey IR) st in
  let st := set_learnedIrIntervalKey (IntervalKey IR) st in
  let st := set_learnedIrFasterKey (FasterKey IR) st in
  let st := set_learnedIrSlowerKey (SlowerKey IR) st in
  let st := set_learnedIrDoubleSpeedKey (DoubleSpeedKey IR) st in
  let st := set_learnedIrHalfSpeedKey (HalfSpeedKey IR) st in
  let st := set_irBits 32 st in
  let st := set_OCR1C (oldIntervalStep st) st in
  let st := set_OCR1A (OCR1C st) st in
  let st := digitalWrite ledPin HIGH st in
  set_startMillis millis st.

(** The [RC IR = { ... }] initialiser: the [unsigned int] variables narrowed
    to the record's [int] and [byte] fields. *)
Definition learnedProfile (st : state) : RC :=
  {| RcCode := int16 (learnedIrRcCode st);
     PlayKey := byte (learnedIrPlayKey st);
     OneFrameKey := byte (learnedIrOneFrameKey st);
     IntervalKey := byte (learnedIrIntervalKey st);
     FasterKey := byte (learnedIrFasterKey st);
     SlowerKey := byte (learnedIrSlowerKey st);
     DoubleSpeedKey := byte (learnedIrDoubleSpeedKey st);
     HalfSpeedKey := byte (learnedIrHalfSpeedKey st) |}.

(** [((receivedData>>16 & 0xFF) != 0xFF) && ((receivedData>>16 & 0xFF) != 0x00)] *)
Definition notGarbage (st : state) : bool :=
  negb (command8 st =? 0xFF) && negb (command8 st =? 0x00).

Definition ReceivedCode (Repeat : bool) (st : state) : state :=
  if notGarbage st then
    if justBooted st && negb (learnMode st) then
      let st := set_learnedIrRcCode (address st) st in
      let st := set_learnedIrPlayKey 0xFFFF st in
      let st := set_learnedIrOneFrameKey 0xFFFF st in
      let st := set_learnedIrIntervalKey 0xFFFF st in
      let st := set_learnedIrFasterKey 0xFFFF st in
      let st := set_learnedIrSlowerKey 0xFFFF st in
      let st := set_learnedIrDoubleSpeedKey 0xFFFF st in
      let st := set_learnedIrHalfSpeedKey 0xFFFF st in
      let st := blinkLEDtwice st in
      set_learnMode true st
    else if learnMode st then
      if (address st =? learnedIrRcCode st) && negb Repeat then
        let st := blinkLEDtwice st in
        let key := command8 st in
        if learnedIrPlayKey st =? 0xFFFF then set_learnedIrPlayKey key st
        else if learnedIrOneFrameKey st =? 0xFFFF then set_learnedIrOneFrameKey key st
        else if learnedIrIntervalKey st =? 0xFFFF then set_learnedIrIntervalKey key st
        else if learnedIrFasterKey st =? 0xFFFF then set_learnedIrFasterKey key st
        else if learnedIrSlowerKey st =? 0xFFFF then set_learnedIrSlowerKey key st
        else if learnedIrDoubleSpeedKey st =? 0xFFFF
        then set_learnedIrDoubleSpeedKey key st
        else if learnedIrHalfSpeedKey st =? 0xFFFF then
          let st := set_learnedIrHalfSpeedKey key st in
          let st := EEPROM_put (learnedProfile st) st in
          let st := blinkLEDtwice st in
          let st := blinkLEDtwice st in
          let st := blinkLEDtwice st in
          let st := blinkLEDtwice st in
          let st := blinkLEDtwice st in
          set_learnMode false st
        else st
      else st
    else if negb (justBooted st) && negb (learnMode st) then
      let st :=
        if negb (address st =? learnedIrRcCode st)
           && negb (address st =? appleIrRcCode) then
          let key := command8 st in
          if negb (key =? 0xFF) && negb Repeat && negb (digitalRead lightmeterPin st)
          then
            let st := blinkLED st in
            startRunWithMetering st
          else if negb (key =? 0xFF) && negb Repeat && digitalRead lightmeterPin st
          then
            let st := blinkLED st in
            stopRun st
          else st
        else
          let key :=
            if address st =? appleIrRcCode then command7 st else command8 st in
          let st :=
            if ((key =? appleIrOneFrameKey) && negb Repeat
                && (address st =? appleIrRcCode))
               || ((key =? appleIrPlayKey) && negb Repeat
                   && (address st =? appleIrRcCode))
            then set_aluRemote true st else st in
          if ((key =? appleIrPlayKey) || (key =? learnedIrPlayKey st))
             && negb Repeat && negb (digitalRead lightmeterPin st)
          then startRunWithMetering st
          else if ((key =? appleIrPlayKey) || (key =? learnedIrPlayKey st))
                  && negb Repeat && digitalRead lightmeterPin st
          then stopRun st
          else if ((key =? appleIrOneFrameKey) || (key =? learnedIrOneFrameKey st))
                  && negb Repeat then
            let st :=
              if lmMode st =? LM_MODE_1ST_SINGLESHOT then meterOnce st else st in
            singleFrame st
          else if ((key =? appleIrIntervalKey) || (key =? learnedIrIntervalKey st))
                  && negb Repeat
          then toggleTimerInterrupt st
          else if ((key =? appleIrSlowerKey) || (key =? learnedIrSlowerKey st))
                  && negb Repeat
          then slower st
          else if ((key =? appleIrFasterKey) || (key =? learnedIrFasterKey st))
                  && negb Repeat
          then faster st
          else if ((key =? appleIrHalfSpeedKey) || (key =? learnedIrHalfSpeedKey st))
                  && negb Repeat
          then halfSpeed st
          else if ((key =? appleIrDoubleSpeedKey)
                   || (key =? learnedIrDoubleSpeedKey st))
                  && negb Repeat
          then doubleSpeed st
          else if (key =? appleIrWhitePlayKey) && negb Repeat && negb (aluRemote st)
                  && negb (digitalRead lightmeterPin st)
          then startRunWithMetering st
          else if (key =? appleIrWhitePlayKey) && negb Repeat && negb (aluRemote st)
                  && digitalRead lightmeterPin st
          then stopRun st
          else set_blinkFlag false st in
      let st := if blinkFlag st then blinkLED st else st in
      set_blinkFlag true st
    else st
  else st.

(** [loop()]; [millis] is what [millis()] returns in this pass. *)
Definition loop (millis : Z) (st : state) : state :=
  if justBooted st then
    if uint32 (startMillis st + 250) <? millis then
      let st := set_justBooted false st in
      if negb (learnMode st) then digitalWrite ledPin LOW st else st
    else st
  else st.

End Sketch2.

(** ** Sketch 3: learn mode over one set of key variables *)

Module Sketch3.

Definition singleFrame : state -> state := singleFrame_timed 20 50.

Definition setup (millis : Z) (st : state) : state :=
  let IR := eeprom st in
  let st := set_irRcCode (uint16 (RcCode IR)) st in
  let st := set_irPlayKey (PlayKey IR) st in
  let st := set_irCenterKey (OneFrameKey IR) st in
  let st := set_irMenuKey (IntervalKey IR) st in
  let st := set_irUpKey (FasterKey IR) st in
  let st := set_irDownKey (SlowerKey IR) st in
  let st := set_irLeftKey (DoubleSpeedKey IR) st in
  let st := set_irRightKey (HalfSpeedKey IR) st in
  let st := set_irBits 32 st in
  let st := set_OCR1C (oldIntervalStep st) st in
  let st := set_OCR1A (OCR1C st) st in
  set_startMillis millis st.

(** The [RC IR = { irRcCode, irPlayKey, irCenterKey, irMenuKey, irUpKey,
    irDownKey, irLeftKey, irRightKey }] initialiser, in the order of the
    record's fields. *)
Definition learnedProfile (st : state) : RC :=
  {| RcCode := int16 (irRcCode st);
     PlayKey := byte (irPlayKey st);
     OneFrameKey := byte (irCenterKey st);
     IntervalKey := byte (irMenuKey st);
     FasterKey := byte (irUpKey st);
     SlowerKey := byte (irDownKey st);
     DoubleSpeedKey := byte (irLeftKey st);
     HalfSpeedKey := byte (irRightKey st) |}.

(** [((receivedData>>16 & 0xFF) != 0xFF) || ((receivedData>>16 & 0xFF) != 0x00)] *)
Definition notGarbage (st : state) : bool :=
  negb (command8 st =? 0xFF) || negb (command8 st =? 0x00).

Definition ReceivedCode (Repeat : bool) (st : state) : state :=
  if notGarbage st then
    if justBooted st && negb (learnMode st) then
      let st := set_irRcCode (address st) st in
      let st := set_irPlayKey 0xFFFF st in
      let st := set_irCenterKey 0xFFFF st in
      let st := set_irMenuKey 0xFFFF st in
      let st := set_irUpKey 0xFFFF st in
      let st := set_irDownKey 0xFFFF st in
      let st := set_irLeftKey 0xFFFF st in
      let st := set_irRightKey 0xFFFF st in
      let st := blinkLEDtwice st in
      set_learnMode true st
    else if learnMode st then
      if address st =? irRcCode st then
        let st := blinkLEDtwice st in
        let key := command8 st in
        if irPlayKey st =? 0xFFFF then set_irPlayKey key st
        else if irCenterKey st =? 0xFFFF then set_irCenterKey key st
        else if irMenuKey st =? 0xFFFF then set_irMenuKey key st
        else if irUpKey st =? 0xFFFF then set_irUpKey key st
        else if irDownKey st =? 0xFFFF then set_irDownKey key st
        else if irLeftKey st =? 0xFFFF then set_irLeftKey key st
        else if irRightKey st =? 0xFFFF then
          let st := set_irRightKey key st in
          let st := EEPROM_put (learnedProfile st) st in
          let st := blinkLEDtwice st in
          let st := blinkLEDtwice st in
          let st := blinkLEDtwice st in
          let st := blinkLEDtwice st in
          set_learnMode false st
        else st
      else st
    else if negb (justBooted st) && negb (learnMode st) then
      let st :=
        if negb (address st =? irRcCode st) then
          let st := if negb Repeat then blinkLED st else st in
          let key := command8 st in
          if negb (key =? 0xFF) && negb Repeat && negb (digitalRead lightmeterPin st)
          then startRunWithMetering st
          else if negb (key =? 0xFF) && negb Repeat && digitalRead lightmeterPin st
          then stopRun st
          else st
        else
          let key := if address st =? 0x87EE then command7 st else command8 st in
          let st :=
            if ((key =? irCenterKey st) && negb Repeat && (irRcCode st =? 0x87EE))
               || ((key =? irPlayKey st) && negb Repeat && (irRcCode st =? 0x87EE))
            then set_aluRemote true st else st in
          if (key =? irPlayKey st) && negb Repeat
             && negb (digitalRead lightmeterPin st)
          then startRunWithMetering st
          else if (key =? irPlayKey st) && negb Repeat
                  && digitalRead lightmeterPin st
          then stopRun st
          else if (key =? irCenterKey st) && negb Repeat then
            let st :=
              if lmMode st =? LM_MODE_1ST_SINGLESHOT then meterOnce st else st in
            singleFrame st
          else if (key =? irMenuKey st) && negb Repeat then toggleTimerInterrupt st
          else if (key =? irDownKey st) && negb Repeat then slower st
          else if (key =? irUpKey st) && negb Repeat then faster st
          else if (key =? irRightKey st) && negb Repeat then halfSpeed st
          else if (key =? irLeftKey st) && negb Repeat then doubleSpeed st
          else if (key =? irWhitePlayKey st) && negb Repeat && negb (aluRemote st)
                  && negb (digitalRead lightmeterPin st)
          then startRunWithMetering st
          else if (key =? irWhitePlayKey st) && negb Repeat && negb (aluRemote st)
                  && digitalRead lightmeterPin st
          then stopRun st
          else set_blinkFlag false st in
      let st := if blinkFlag st then blinkLED st else st in
      set_blinkFlag true st
    else st
  else st.

Definition loop (millis : Z) (st : state) : state :=
  if justBooted st then
    if uint32 (startMillis st + 100) <? millis then
      let st := set_justBooted false st in
      if negb (learnMode st) then blinkLEDtwice st else st
    else st
  else st.

End Sketch3.

(** ** The three sketches side by side *)

Inductive sketch : Type := S1 | S2 | S3.

Definition ReceivedCode (s : sketch) : bool -> state -> state :=
  match s with
  | S1 => Sketch1.ReceivedCode
  | S2 => Sketch2.ReceivedCode
  | S3 => Sketch3.ReceivedCode
  end.

Definition singleFrame (s : sketch) : state -> state :=
  match s with
  | S1 => Sketch1.singleFrame
  | S2 => Sketch2.singleFrame
  | S3 => Sketch3.singleFrame
  end.

Definition irEdge (s : sketch) : Z -> Z -> state -> state :=
  INT0_vect (ReceivedCode s).

Definition timerTick (s : sketch) : state -> state :=
  TIMER1_COMPA_vect (singleFrame s).

(** ** The environment: what can happen to a running sketch *)

Inductive input : Type :=
| Edge (TCNT0 TIFR : Z)   (* a falling edge on the IR input *)
| Tick                    (* a Timer1 compare match *)
| Poll (millis : Z).      (* one pass of [loop()] *)

(** A compare match runs its handler only while [OCIE1A] is set in [TIMSK]. *)
Definition step (s : sketch) (i : input) (st : state) : state :=
  match i with
  | Edge TCNT0 TIFR => irEdge s TCNT0 TIFR st
  | Tick => if Z.testbit (TIMSK st) OCIE1A then timerTick s st else st
  | Poll millis =>
      match s with
      | S1 => Sketch1.loop st
      | S2 => Sketch2.loop millis st
      | S3 => Sketch3.loop millis st
      end
  end.

Definition run (s : sketch) (ins : list input) (st : state) : state :=
  fold_left (fun st i => step s i st) ins st.

(** The state in which [setup()] leaves a freshly powered sketch. *)
Definition boot (s : sketch) (stored : RC) (millis : Z) : state :=
  match s with
  | S1 => Sketch1.setup (power_on stored)
  | S2 => Sketch2.setup millis (power_on stored)
  | S3 => Sketch3.setup millis (power_on stored)
  end.

(** The events a transition added to the trace. *)
Definition new_events (st st' : state) : list event :=
  skipn (length (trace st)) (trace st').

(** The records written to the EEPROM, in order. *)
Fixpoint puts (t : list event) : list RC :=
  match t with
  | [] => []
  | EepromPut rc :: t => rc :: puts t
  | _ :: t => puts t
  end.

(** The edges of one complete NEC frame as the receiver delivers it: a
    leader gap, then 32 data gaps, least significant bit first, a long gap
    for a 1; and the single gap of a repeat code. *)
Definition frame_edges (data : Z) : list input :=
  Edge 211 0
  :: map (fun i => Edge (if Z.testbit data (Z.of_nat i) then 35 else 17) 0)
         (seq 0 32).

Definition repeat_edge : input := Edge 176 0.

(** ** Views used to state the properties *)

(** A learn slot is unfilled while it holds [0xFFFF]. *)
Definition UNFILLED : Z := 0xFFFF.

(** Put [key] into the first unfilled slot of a list of slots. *)
Fixpoint fill_first (key : Z) (slots : list Z) : list Z :=
  match slots with
  | [] => []
  | x :: rest => if x =? UNFILLED then key :: rest else x :: fill_first key rest
  end.

(** Position of the first unfilled slot. *)
Fixpoint first_unfilled (slots : list Z) : option nat :=
  match slots with
  | [] => None
  | x :: rest =>
      if x =? UNFILLED then Some 0%nat
      else option_map S (first_unfilled rest)
  end.

(** The seven learn slots of sketches 2 and 3 in the order Play,
    SingleFrame, IntervalToggle, Faster, Slower, DoubleSpeed, HalfSpeed. *)
Definition slots2 (st : state) : list Z :=
  [learnedIrPlayKey st; learnedIrOneFrameKey st; learnedIrIntervalKey st;
   learnedIrFasterKey st; learnedIrSlowerKey st; learnedIrDoubleSpeedKey st;
   learnedIrHalfSpeedKey st].

Definition slots3 (st : state) : list Z :=
  [irPlayKey st; irCenterKey st; irMenuKey st; irUpKey st; irDownKey st;
   irLeftKey st; irRightKey st].

(** What a transition writes to the EEPROM. *)
Definition persisted (st st' : state) : list RC := puts (new_events st st').

(** The interval invariant: a postscaler of at most 4 goes with a staged
    step of at least 11. *)
Definition interval_floor (st : state) : Prop :=
  postscaler st <= 4 -> 11 <= newIntervalStep st.

(** [n] compare matches in a row with the timer interrupt enabled. *)
Definition ticks (s : sketch) (n : nat) (st : state) : state :=
  Nat.iter n (timerTick s) st.

(** A frame of the Apple family carrying the white remote's Play key. *)
Definition whitePlayFrame (st : state) : Prop :=
  address st = 0x87EE /\ command7 st = 0x02.

(** A transition ran [startRunWithMetering] or [stopRun]. *)
Definition toggled_run (st st' : state) : Prop :=
  In (Call P_startRunWithMetering) (new_events st st')
  \/ In (Call P_stopRun) (new_events st st').

(** An erased EEPROM: every byte [0xFF]. *)
Definition erased : RC := mkRC (-1) 255 255 255 255 255 255 255.

(** The decoder holds only the bits it has received so far. *)
Definition decoder_ok (st : state) : Prop :=
  (irBits st = 32 /\ 0 <= receivedData st < 2 ^ 32)
  \/ (0 <= irBits st <= 31 /\ 0 <= receivedData st < 2 ^ irBits st).

(** The end of [ReceivedCode] in normal operation:
    [if (blinkFlag) blinkLED(); blinkFlag = true;] *)
Definition confirm (st : state) : state :=
  set_blinkFlag true (if blinkFlag st then blinkLED st else st).

(** One frame handled during a learn session, for a sketch given by its
    dispatcher [rc], its garbage guard, the captured address, its seven
    slots and the record it persists.  A non-repeat frame from the captured
    address that passes the guard fills the first unfilled slot with its
    command byte; the EEPROM is written, and the session ended, exactly
    when that slot is the seventh.  A frame from another address changes
    nothing. *)
Definition learn_step_spec
    (rc : bool -> state -> state) (guard : state -> bool)
    (captured : state -> Z) (slots : state -> list Z)
    (profile : state -> RC) (st : state) : Prop :=
  let st' := rc false st in
  (address st = captured st -> guard st = true ->
     slots st' = fill_first (command8 st) (slots st)
     /\ captured st' = captured st
     /\ (first_unfilled (slots st) = Some 6%nat ->
         persisted st st' = [profile st']
         /\ eeprom st' = profile st' /\ learnMode st' = false)
     /\ (first_unfilled (slots st) <> Some 6%nat ->
         persisted st st' = []
         /\ eeprom st' = eeprom st /\ learnMode st' = true))
  /\ (address st <> captured st -> forall Repeat, rc Repeat st = st).

(** A frame of the Apple Remote: address [0x87EE], the key in bits 17..23. *)
Definition appleFrame (key : Z) : Z := Z.lor (Z.shiftl key 17) 0x87EE.

(** The range of the scheduler variables together with the interval
    invariant. *)
Definition interval_ok (st : state) : Prop :=
  1 <= postscaler st <= 16384
  /\ 0 <= newIntervalStep st <= 255
  /\ interval_floor st.


(** ** Views used by the further properties *)

(** The value a list of data gaps encodes when the first gap carries bit
    [i]: a gap longer than 26 ticks is a 1. *)
Fixpoint gaps_value (i : Z) (gaps : list Z) : Z :=
  match gaps with
  | [] => 0
  | g :: rest =>
      Z.lor (if 26 <? g then Z.shiftl 1 i else 0) (gaps_value (i + 1) rest)
  end.

(** The edges of a frame with the given leader gap and data gaps, every
    edge arriving with the same value of [TIFR]. *)
Definition edges_of (TIFR leader : Z) (gaps : list Z) : list input :=
  Edge leader TIFR :: map (fun g => Edge g TIFR) gaps.

(** The events that enter one of the four relay routines. *)
Definition relay_call (e : event) : bool :=
  match e with
  | Call P_startRunWithMetering | Call P_stopRun
  | Call P_meterOnce | Call P_singleFrame => true
  | _ => false
  end.

(** A transition entered no relay routine. *)
Definition no_relay_call (st st' : state) : Prop :=
  forallb (fun e => negb (relay_call e)) (new_events st st') = true.

(** A transition left the intervalometer alone. *)
Definition same_schedule (st st' : state) : Prop :=
  postscaler st' = postscaler st
  /\ newIntervalStep st' = newIntervalStep st
  /\ oldIntervalStep st' = oldIntervalStep st
  /\ divider st' = divider st
  /\ TIMSK st' = TIMSK st
  /\ OCR1C st' = OCR1C st.

(** Normal operation of sketches 2 and 3: past the boot window, no learn
    session. *)
Definition normal_operation (st : state) : Prop :=
  justBooted st = false /\ learnMode st = false.

(** A transition left the key profiles and the EEPROM alone. *)
Definition same_profile (st st' : state) : Prop :=
  learnedIrRcCode st' = learnedIrRcCode st
  /\ slots2 st' = slots2 st
  /\ irRcCode st' = irRcCode st
  /\ slots3 st' = slots3 st
  /\ eeprom st' = eeprom st
  /\ puts (trace st') = puts (trace st).

(** The four relay lines, as [digitalRead] sees them: lightmeter, hold,
    load, start. *)
Definition relays (st : state) : bool * bool * bool * bool :=
  (digitalRead lightmeterPin st, digitalRead holdPin st,
   digitalRead loadPin st, digitalRead startPin st).

(** The range of the scheduler variables with a step of at least 1. *)
Definition schedule_ok (st : state) : Prop :=
  1 <= postscaler st <= 16384
  /\ 1 <= newIntervalStep st <= 255
  /\ interval_floor st.


(** * Proofs *)

(** ** Tactics *)

Ltac case_ifs :=
  repeat (cbn [negb andb orb];
          match goal with
          | |- context [if ?c then _ else _] => destruct c eqn:?
          end).

Ltac open_dispatch :=
  cbv [ReceivedCode Sketch1.ReceivedCode Sketch2.ReceivedCode
       Sketch3.ReceivedCode toggleTimerInterrupt faster slower halfSpeed
       doubleSpeed];
  cbv zeta.

(** Decide the integer tests of a goal by case analysis and [lia]. *)
Ltac ztests :=
  rewrite ?Z.geb_leb, ?Z.gtb_ltb;
  repeat match goal with
         | |- context [?a <=? ?b] => destruct (Z.leb_spec a b); try lia
         | |- context [?a <? ?b] => destruct (Z.ltb_spec a b); try lia
         | |- context [?a =? ?b] => destruct (Z.eqb_spec a b); try lia
         end;
  cbn [andb orb negb].

(** ** What [ReceivedCode] leaves alone *)

Lemma ReceivedCode_irBits s r st : irBits (ReceivedCode s r st) = irBits st.
Proof. destruct s; open_dispatch; case_ifs; reflexivity. Qed.

Lemma ReceivedCode_receivedData s r st :
  receivedData (ReceivedCode s r st) = receivedData st.
Proof. destruct s; open_dispatch; case_ifs; reflexivity. Qed.

Lemma ReceivedCode_OCR1C s r st : OCR1C (ReceivedCode s r st) = OCR1C st.
Proof. destruct s; open_dispatch; case_ifs; reflexivity. Qed.

Lemma ReceivedCode_OCR1A s r st : OCR1A (ReceivedCode s r st) = OCR1A st.
Proof. destruct s; open_dispatch; case_ifs; reflexivity. Qed.

(** ** The IR edge handler *)

Lemma notGarbage3_true st : Sketch3.notGarbage st = true.
Proof.
  unfold Sketch3.notGarbage.
  destruct (Z.eqb_spec (command8 st) 0xFF) as [E | E]; [rewrite E |]; reflexivity.
Qed.

(** C4.  The garbage guard of sketch 3, [(key != 0xFF) || (key != 0x00)],
    holds for every frame: whatever [receivedData] is, the guard lets the
    frame through. *)
Theorem guard_of_sketch3_never_rejects :
  forall st : state, Sketch3.notGarbage st = true.
Proof.
  exact notGarbage3_true.
Qed.

Lemma irEdge_awaiting (s : sketch) (TCNT0 TIFR : Z) (st : state) :
  irBits st = 32 ->
  let st' := irEdge s TCNT0 TIFR st in
  (194 <= TCNT0 <= 228 -> overFlowOf TIFR = 0 ->
     st' = set_irBits 0 (set_receivedData 0 st)
     /\ receivedData st' = 0 /\ irBits st' = 0)
  /\ (159 <= TCNT0 <= 193 -> overFlowOf TIFR = 0 ->
        st' = ReceivedCode s true st
        /\ irBits st' = 32 /\ receivedData st' = receivedData st)
  /\ (TCNT0 < 159 \/ 228 < TCNT0 \/ overFlowOf TIFR <> 0 -> st' = st).
Proof.
  intros H st'. subst st'. unfold irEdge, INT0_vect. cbv zeta. rewrite H.
  change (32 =? 32) with true. cbv iota.
  split; [| split].
  - intros Ht Ho. rewrite Ho. ztests. repeat split.
  - intros Ht Ho. rewrite Ho. ztests.
    rewrite ReceivedCode_irBits, ReceivedCode_receivedData. auto.
  - intros Hc. ztests; reflexivity.
Qed.

(** C2.  An edge while the decoder waits for a leader ([irBits = 32]): a gap
    of 194..228 ticks without overflow clears the buffer and starts bit 0;
    a gap of 159..193 ticks without overflow calls [ReceivedCode] with
    [Repeat = true] on the buffer as it is and leaves [irBits] and the
    buffer alone; any other gap, or an overflow, changes nothing at all. *)
Theorem edge_while_awaiting_leader (s : sketch) (TCNT0 TIFR : Z) (st : state) :
  irBits st = 32 ->
  let st' := irEdge s TCNT0 TIFR st in
  (194 <= TCNT0 <= 228 -> overFlowOf TIFR = 0 ->
     st' = set_irBits 0 (set_receivedData 0 st)
     /\ receivedData st' = 0 /\ irBits st' = 0)
  /\ (159 <= TCNT0 <= 193 -> overFlowOf TIFR = 0 ->
        st' = ReceivedCode s true st
        /\ irBits st' = 32 /\ receivedData st' = receivedData st)
  /\ (TCNT0 < 159 \/ 228 < TCNT0 \/ overFlowOf TIFR <> 0 -> st' = st).
Proof.
  intros H st'. subst st'. unfold irEdge, INT0_vect. cbv zeta. rewrite H.
  change (32 =? 32) with true. cbv iota.
  split; [| split].
  - intros Ht Ho. rewrite Ho. ztests. repeat split.
  - intros Ht Ho. rewrite Ho. ztests.
    rewrite ReceivedCode_irBits, ReceivedCode_receivedData. auto.
  - intros Hc. ztests; reflexivity.
Qed.

Lemma int16_small z : -32768 <= z < 32768 -> int16 z = z.
Proof. intros H. unfold int16. rewrite Z.mod_small; lia. Qed.

Lemma uint32_small z : 0 <= z < 2 ^ 32 -> uint32 z = z.
Proof. intros H. unfold uint32. apply Z.mod_small. exact H. Qed.

Lemma testbit_uint32 z i : 0 <= i < 32 -> Z.testbit (uint32 z) i = Z.testbit z i.
Proof.
  intros H. unfold uint32. change 4294967296 with (2 ^ 32).
  apply Z.mod_pow2_bits_low. lia.
Qed.

Lemma testbit_below z i : 0 <= z < 2 ^ i -> Z.testbit z i = false.
Proof.
  intros H. destruct (Z.eq_dec z 0) as [-> | Hz]; [apply Z.bits_0 |].
  apply Z.bits_above_log2; [lia |]. apply Z.log2_lt_pow2; lia.
Qed.

Lemma lor_below a b n :
  0 <= n -> 0 <= a < 2 ^ n -> 0 <= b < 2 ^ n -> 0 <= Z.lor a b < 2 ^ n.
Proof.
  intros Hn Ha Hb.
  assert (H0 : 0 <= Z.lor a b) by (apply Z.lor_nonneg; lia).
  split; [exact H0 |].
  destruct (Z.eq_dec (Z.lor a b) 0) as [E | E].
  - rewrite E. apply Z.pow_pos_nonneg; lia.
  - apply Z.log2_lt_pow2; [lia |].
    rewrite Z.log2_lor by lia.
    destruct (Z.eq_dec a 0) as [-> | Ha0]; destruct (Z.eq_dec b 0) as [-> | Hb0];
      try (exfalso; apply E; reflexivity);
      rewrite ?Z.log2_nonpos by lia.
    + rewrite Z.max_r by apply Z.log2_nonneg. apply Z.log2_lt_pow2; lia.
    + rewrite Z.max_l by apply Z.log2_nonneg. apply Z.log2_lt_pow2; lia.
    + apply Z.max_lub_lt; apply Z.log2_lt_pow2; lia.
Qed.

Lemma irEdge_receiving (s : sketch) (TCNT0 TIFR : Z) (st : state) :
  0 <= irBits st <= 31 ->
  let st' := irEdge s TCNT0 TIFR st in
  (44 < TCNT0 \/ overFlowOf TIFR <> 0 -> st' = set_irBits 32 st)
  /\ (TCNT0 <= 44 -> overFlowOf TIFR = 0 ->
        let st1 :=
          if 26 <? TCNT0
          then set_receivedData
                 (uint32 (Z.lor (receivedData st) (Z.shiftl 1 (irBits st)))) st
          else st in
        st' = set_irBits (irBits st + 1)
                (if irBits st =? 31 then ReceivedCode s false st1 else st1)
        /\ irBits st' = irBits st + 1
        /\ (irBits st = 31 -> irBits st' = 32)
        /\ (0 <= receivedData st < 2 ^ irBits st ->
            Z.testbit (receivedData st') (irBits st) = (26 <? TCNT0))).
Proof.
  intros H st'. subst st'. unfold irEdge, INT0_vect. cbv zeta.
  destruct (Z.eqb_spec (irBits st) 32) as [E | _]; [lia |].
  split.
  - intros Hc. ztests; reflexivity.
  - intros Ht Ho. rewrite Ho, !Z.gtb_ltb.
    destruct (Z.ltb_spec 44 TCNT0) as [? | _]; [lia |].
    change (false || negb (0 =? 0)) with false. cbv iota.
    set (data := uint32 (Z.lor (receivedData st) (Z.shiftl 1 (irBits st)))).
    set (st1 := if 26 <? TCNT0 then set_receivedData data st else st).
    assert (Hi1 : irBits st1 = irBits st)
      by (subst st1; destruct (26 <? TCNT0); reflexivity).
    assert (Hd1 : receivedData st1
                  = if 26 <? TCNT0 then data else receivedData st)
      by (subst st1; destruct (26 <? TCNT0); reflexivity).
    rewrite Hi1.
    set (st2 := if irBits st =? 31 then ReceivedCode s false st1 else st1).
    assert (Hi2 : irBits st2 = irBits st)
      by (subst st2; destruct (irBits st =? 31);
          rewrite ?ReceivedCode_irBits; exact Hi1).
    assert (Hd2 : receivedData st2 = receivedData st1)
      by (subst st2; destruct (irBits st =? 31);
          rewrite ?ReceivedCode_receivedData; reflexivity).
    rewrite Hi2, int16_small by lia.
    split; [reflexivity |].
    split; [reflexivity |].
    split; [intros E31; cbn; lia |].
    intros Hrd. cbn [receivedData set_irBits]. rewrite Hd2, Hd1.
    destruct (26 <? TCNT0).
    + subst data. rewrite testbit_uint32 by lia.
      rewrite Z.lor_spec, Z.shiftl_spec by lia.
      rewrite Z.sub_diag. apply orb_true_r.
    + apply testbit_below. exact Hrd.
Qed.

(** C3.  An edge while the decoder receives bit [irBits] (0..31): a gap of
    more than 44 ticks, or an overflow, sets [irBits] back to 32 and does
    nothing else; otherwise bit [irBits] of the buffer is 1 exactly when the
    gap exceeds 26 ticks (the bit is still 0 when it is not set: the buffer
    holds only the bits below [irBits]), [ReceivedCode] is called with
    [Repeat = false] exactly when [irBits] is 31, and [irBits] goes up by
    one, so it is 32 again after bit 31. *)
Theorem edge_while_receiving_bits (s : sketch) (TCNT0 TIFR : Z) (st : state) :
  0 <= irBits st <= 31 ->
  let st' := irEdge s TCNT0 TIFR st in
  (44 < TCNT0 \/ overFlowOf TIFR <> 0 -> st' = set_irBits 32 st)
  /\ (TCNT0 <= 44 -> overFlowOf TIFR = 0 ->
        let st1 :=
          if 26 <? TCNT0
          then set_receivedData
                 (uint32 (Z.lor (receivedData st) (Z.shiftl 1 (irBits st)))) st
          else st in
        st' = set_irBits (irBits st + 1)
                (if irBits st =? 31 then ReceivedCode s false st1 else st1)
        /\ irBits st' = irBits st + 1
        /\ (irBits st = 31 -> irBits st' = 32)
        /\ (0 <= receivedData st < 2 ^ irBits st ->
            Z.testbit (receivedData st') (irBits st) = (26 <? TCNT0))).
Proof.
  intros H st'. subst st'. unfold irEdge, INT0_vect. cbv zeta.
  destruct (Z.eqb_spec (irBits st) 32) as [E | _]; [lia |].
  split.
  - intros Hc. ztests; reflexivity.
  - intros Ht Ho. rewrite Ho, !Z.gtb_ltb.
    destruct (Z.ltb_spec 44 TCNT0) as [? | _]; [lia |].
    change (false || negb (0 =? 0)) with false. cbv iota.
    set (data := uint32 (Z.lor (receivedData st) (Z.shiftl 1 (irBits st)))).
    set (st1 := if 26 <? TCNT0 then set_receivedData data st else st).
    assert (Hi1 : irBits st1 = irBits st)
      by (subst st1; destruct (26 <? TCNT0); reflexivity).
    assert (Hd1 : receivedData st1
                  = if 26 <? TCNT0 then data else receivedData st)
      by (subst st1; destruct (26 <? TCNT0); reflexivity).
    rewrite Hi1.
    set (st2 := if irBits st =? 31 then ReceivedCode s false st1 else st1).
    assert (Hi2 : irBits st2 = irBits st)
      by (subst st2; destruct (irBits st =? 31);
          rewrite ?ReceivedCode_irBits; exact Hi1).
    assert (Hd2 : receivedData st2 = receivedData st1)
      by (subst st2; destruct (irBits st =? 31);
          rewrite ?ReceivedCode_receivedData; reflexivity).
    rewrite Hi2, int16_small by lia.
    split; [reflexivity |].
    split; [reflexivity |].
    split; [intros E31; cbn; lia |].
    intros Hrd. cbn [receivedData set_irBits]. rewrite Hd2, Hd1.
    destruct (26 <? TCNT0).
    + subst data. rewrite testbit_uint32 by lia.
      rewrite Z.lor_spec, Z.shiftl_spec by lia.
      rewrite Z.sub_diag. apply orb_true_r.
    + apply testbit_below. exact Hrd.
Qed.

(** The buffer never holds a bit the decoder has not received yet. *)
Lemma decoder_ok_boot s stored millis : decoder_ok (boot s stored millis).
Proof. left. destruct s; split; cbn; lia. Qed.

Lemma decoder_ok_irEdge s TCNT0 TIFR st :
  decoder_ok st -> decoder_ok (irEdge s TCNT0 TIFR st).
Proof.
  intros [[H32 Hrd] | [Hi Hrd]].
  - destruct (irEdge_awaiting s TCNT0 TIFR st H32) as (Ha & Hb & Hc).
    destruct (Z_le_gt_dec 159 TCNT0) as [Hlo | Hlo];
      [destruct (Z_le_gt_dec TCNT0 228) as [Hhi | Hhi];
       [destruct (Z.eq_dec (overFlowOf TIFR) 0) as [Ho | Ho] | ] | ].
    + destruct (Z_le_gt_dec 194 TCNT0) as [Hm | Hm].
      * destruct Ha as (_ & Hd & Hn); [lia | exact Ho |].
        right. rewrite Hd, Hn. cbn. lia.
      * destruct Hb as (_ & Hn & Hd); [lia | exact Ho |].
        left. rewrite Hd, Hn. auto.
    + rewrite Hc by auto. left; auto.
    + rewrite Hc by lia. left; auto.
    + rewrite Hc by lia. left; auto.
  - destruct (irEdge_receiving s TCNT0 TIFR st Hi) as (Ha & Hb).
    destruct (Z_le_gt_dec TCNT0 44) as [Ht | Ht];
      [destruct (Z.eq_dec (overFlowOf TIFR) 0) as [Ho | Ho] | ].
    + destruct (Hb Ht Ho) as (Heq & Hn & _ & _).
      assert (Hpow : 2 ^ (irBits st + 1) = 2 * 2 ^ irBits st)
        by (change (irBits st + 1) with (Z.succ (irBits st));
            apply Z.pow_succ_r; lia).
      assert (Hp32 : 2 ^ (irBits st + 1) <= 2 ^ 32)
        by (apply Z.pow_le_mono_r; lia).
      assert (Hdata : 0 <= receivedData (irEdge s TCNT0 TIFR st)
                      < 2 ^ (irBits st + 1)).
      { rewrite Heq. cbn [receivedData set_irBits].
        assert (Hone : 0 <= Z.shiftl 1 (irBits st) < 2 ^ (irBits st + 1)).
        { rewrite Z.shiftl_1_l. lia. }
        assert (Hlor : 0 <= Z.lor (receivedData st) (Z.shiftl 1 (irBits st))
                       < 2 ^ (irBits st + 1))
          by (apply lor_below; lia).
        destruct (irBits st =? 31); rewrite ?ReceivedCode_receivedData;
          destruct (26 <? TCNT0); cbn [receivedData set_receivedData];
          rewrite ?uint32_small by lia; lia. }
      destruct (Z.eq_dec (irBits st) 31) as [E | E].
      * left. rewrite Hn. rewrite E in *. split; [reflexivity | lia].
      * right. rewrite Hn. split; [lia | exact Hdata].
    + rewrite Ha by auto. left. cbn. split; [reflexivity |].
      assert (2 ^ irBits st <= 2 ^ 32) by (apply Z.pow_le_mono_r; lia). lia.
    + rewrite Ha by lia. left. cbn. split; [reflexivity |].
      assert (2 ^ irBits st <= 2 ^ 32) by (apply Z.pow_le_mono_r; lia). lia.
Qed.

Lemma timerTick_decoder s st :
  irBits (timerTick s st) = irBits st
  /\ receivedData (timerTick s st) = receivedData st.
Proof.
  unfold timerTick, TIMER1_COMPA_vect. cbv zeta.
  destruct s; case_ifs; split; reflexivity.
Qed.

Lemma poll_decoder s millis st :
  irBits (step s (Poll millis) st) = irBits st
  /\ receivedData (step s (Poll millis) st) = receivedData st.
Proof.
  destruct s; cbn [step]; unfold Sketch1.loop, Sketch2.loop, Sketch3.loop;
    cbv zeta; case_ifs; split; reflexivity.
Qed.

Lemma decoder_ok_step s i st : decoder_ok st -> decoder_ok (step s i st).
Proof.
  intros H. destruct i as [TCNT0 TIFR | | millis].
  - apply decoder_ok_irEdge. exact H.
  - cbn [step]. destruct (Z.testbit (TIMSK st) OCIE1A); [| exact H].
    unfold decoder_ok. destruct (timerTick_decoder s st) as [-> ->]. exact H.
  - unfold decoder_ok. destruct (poll_decoder s millis st) as [-> ->]. exact H.
Qed.

Lemma decoder_ok_run s ins :
  forall st, decoder_ok st -> decoder_ok (run s ins st).
Proof.
  induction ins as [| i ins IH]; intros st H; [exact H |].
  cbn. apply IH. apply decoder_ok_step. exact H.
Qed.

(** C10.  A repeat gap (159..193 ticks, no overflow) met while waiting for a
    leader calls [ReceivedCode] with [Repeat = true] whether or not a frame
    was ever completed: right after [setup] the buffer it is called on is
    0; after an abandoned frame it is the partial buffer, which abandoning
    leaves as it is. *)
Theorem repeat_gap_dispatches_whatever_is_buffered (s : sketch) :
  (forall stored millis TCNT0 TIFR,
      159 <= TCNT0 <= 193 -> overFlowOf TIFR = 0 ->
      let st := boot s stored millis in
      receivedData st = 0
      /\ irEdge s TCNT0 TIFR st = ReceivedCode s true st)
  /\ (forall st t1 f1 t2 f2,
         0 <= irBits st <= 31 ->
         44 < t1 \/ overFlowOf f1 <> 0 ->
         159 <= t2 <= 193 -> overFlowOf f2 = 0 ->
         let st1 := irEdge s t1 f1 st in
         receivedData st1 = receivedData st
         /\ irEdge s t2 f2 st1 = ReceivedCode s true st1).
Proof.
  split.
  - intros stored millis TCNT0 TIFR Ht Ho st.
    assert (H32 : irBits st = 32) by (destruct s; reflexivity).
    split; [destruct s; reflexivity |].
    destruct (irEdge_awaiting s TCNT0 TIFR st H32) as (_ & Hb & _).
    apply Hb; assumption.
  - intros st t1 f1 t2 f2 Hi Hbad Ht Ho st1.
    destruct (irEdge_receiving s t1 f1 st Hi) as (Ha & _).
    assert (E : st1 = set_irBits 32 st) by (apply Ha; exact Hbad).
    split; [rewrite E; reflexivity |].
    assert (H32 : irBits st1 = 32) by (rewrite E; reflexivity).
    destruct (irEdge_awaiting s t2 f2 st1 H32) as (_ & Hb & _).
    apply Hb; assumption.
Qed.

(** ** Traces *)

Lemma new_events_app st st' l : trace st' = trace st ++ l -> new_events st st' = l.
Proof.
  intros H. unfold new_events. rewrite H.
  rewrite skipn_app, skipn_all, Nat.sub_diag. reflexivity.
Qed.

Lemma new_events_none st st' : trace st' = trace st -> new_events st st' = [].
Proof. intros H. apply new_events_app. rewrite H, app_nil_r. reflexivity. Qed.

(** Bring [trace (f st)] into the form [trace st ++ events]. *)
Ltac trace_norm :=
  cbn; rewrite <- ?app_assoc; cbn [app].

Lemma trace_singleFrame s st :
  exists T2 T3,
    trace (singleFrame s st)
    = trace st ++ [Call P_singleFrame; DigitalWrite loadPin HIGH; DelayMs 10;
                   DigitalWrite loadPin LOW; DigitalWrite startPin HIGH;
                   DelayMs T2; DigitalWrite startPin LOW;
                   DigitalWrite loadPin HIGH; DelayMs T3;
                   DigitalWrite loadPin LOW].
Proof.
  destruct s; [exists 20, 50 | exists 10, 20 | exists 20, 50];
    trace_norm; reflexivity.
Qed.

(** ** The interval timer *)

Lemma timerTick_postscaler s st : postscaler (timerTick s st) = postscaler st.
Proof.
  unfold timerTick, TIMER1_COMPA_vect. cbv zeta. destruct s; case_ifs; reflexivity.
Qed.

Lemma timerTick_divider s st :
  divider (timerTick s st) = Z.rem (int16 (divider st + 1)) (postscaler st).
Proof.
  unfold timerTick, TIMER1_COMPA_vect. cbv zeta. destruct s; case_ifs; reflexivity.
Qed.

Lemma timerTick_eq s st :
  timerTick s st
  = set_divider (Z.rem (int16 (divider st + 1)) (postscaler st))
      (if divider st =? 0
       then singleFrame s
              (if newIntervalStep st =? oldIntervalStep st then st
               else set_OCR1A (newIntervalStep st)
                      (set_OCR1C (newIntervalStep st) st))
       else if newIntervalStep st =? oldIntervalStep st then st
            else set_OCR1A (newIntervalStep st)
                   (set_OCR1C (newIntervalStep st) st)).
Proof.
  unfold timerTick, TIMER1_COMPA_vect. cbv zeta.
  destruct (newIntervalStep st =? oldIntervalStep st); cbn [negb];
    cbn [divider set_OCR1A set_OCR1C];
    destruct (divider st =? 0); destruct s; reflexivity.
Qed.

Lemma timerTick_fires s st :
  In (Call P_singleFrame) (new_events st (timerTick s st)) <-> divider st = 0.
Proof.
  rewrite timerTick_eq.
  destruct (Z.eqb_spec (divider st) 0) as [E | E].
  - split; [auto | intros _].
    destruct (newIntervalStep st =? oldIntervalStep st).
    + destruct (trace_singleFrame s st) as (T2 & T3 & H).
      erewrite new_events_app by (cbn [trace set_divider]; exact H).
      left; reflexivity.
    + destruct (trace_singleFrame s
                  (set_OCR1A (newIntervalStep st)
                     (set_OCR1C (newIntervalStep st) st))) as (T2 & T3 & H).
      erewrite new_events_app by (cbn [trace set_divider]; exact H).
      left; reflexivity.
  - split; [| intros; contradiction].
    rewrite new_events_none; [intros [] |].
    destruct (newIntervalStep st =? oldIntervalStep st); reflexivity.
Qed.

Lemma ticks_divider s st :
  0 < postscaler st < 32768 -> divider st = 0 ->
  forall n : nat,
    postscaler (ticks s n st) = postscaler st
    /\ divider (ticks s n st) = Z.of_nat n mod postscaler st.
Proof.
  intros Hp Hd n. induction n as [| n [IHp IHd]].
  - change (ticks s 0 st) with st. change (Z.of_nat 0) with 0.
    rewrite Hd, Z.mod_0_l by lia. auto.
  - change (ticks s (S n) st) with (timerTick s (ticks s n st)).
    rewrite timerTick_postscaler, timerTick_divider, IHp, IHd.
    split; [reflexivity |].
    assert (Hm : 0 <= Z.of_nat n mod postscaler st < postscaler st)
      by (apply Z.mod_pos_bound; lia).
    rewrite int16_small by lia.
    rewrite Z.rem_mod_nonneg by lia.
    rewrite Z.add_mod_idemp_l by lia.
    rewrite Nat2Z.inj_succ. reflexivity.
Qed.

(** C6.  One run of the timer compare handler: a staged step
    ([newIntervalStep] differing from [oldIntervalStep]) is copied to
    [OCR1C] and [OCR1A]; [singleFrame] runs exactly when [divider] is 0;
    [divider] becomes [(divider + 1) % postscaler].  Once [setup] has
    initialised it, [OCR1C] is written by this handler only: neither
    [ReceivedCode] nor the edge handler nor [loop] changes it.  With an unchanged
    postscaler [p] and [divider] starting at 0, interrupt number [n]
    (counted from 0) runs [singleFrame] exactly when [p] divides [n]. *)
Theorem timer_compare_handler (s : sketch) (st : state) :
  let st' := timerTick s st in
  let committed :=
    if newIntervalStep st =? oldIntervalStep st then st
    else set_OCR1A (newIntervalStep st) (set_OCR1C (newIntervalStep st) st) in
  st' = set_divider (Z.rem (int16 (divider st + 1)) (postscaler st))
          (if divider st =? 0 then singleFrame s committed else committed)
  /\ OCR1C st' = (if newIntervalStep st =? oldIntervalStep st
                  then OCR1C st else newIntervalStep st)
  /\ (In (Call P_singleFrame) (new_events st st') <-> divider st = 0)
  /\ (forall r TCNT0 TIFR millis,
         OCR1C (ReceivedCode s r st) = OCR1C st
         /\ OCR1C (irEdge s TCNT0 TIFR st) = OCR1C st
         /\ OCR1C (step s (Poll millis) st) = OCR1C st)
  /\ (0 < postscaler st < 32768 -> divider st = 0 ->
      forall n : nat,
        divider (ticks s n st) = Z.of_nat n mod postscaler st
        /\ (In (Call P_singleFrame)
               (new_events (ticks s n st) (ticks s (S n) st))
            <-> Z.of_nat n mod postscaler st = 0)).
Proof.
  cbv zeta. split; [| split; [| split; [| split]]].
  - apply timerTick_eq.
  - rewrite timerTick_eq.
    destruct (newIntervalStep st =? oldIntervalStep st);
      destruct (divider st =? 0); destruct s; reflexivity.
  - apply timerTick_fires.
  - intros r TCNT0 TIFR millis. split; [apply ReceivedCode_OCR1C | split].
    + unfold irEdge, INT0_vect. cbv zeta.
      case_ifs; cbn [OCR1C set_irBits set_receivedData];
        rewrite ?ReceivedCode_OCR1C; reflexivity.
    + destruct s; cbn [step]; unfold Sketch1.loop, Sketch2.loop, Sketch3.loop;
        cbv zeta; case_ifs; reflexivity.
  - intros Hp Hd n. destruct (ticks_divider s st Hp Hd n) as [_ Hn].
    split; [exact Hn |].
    change (ticks s (S n) st) with (timerTick s (ticks s n st)).
    rewrite timerTick_fires, Hn. reflexivity.
Qed.

(** ** The dispatcher: Play *)

Ltac keys1 :=
  cbn [Z.eqb Pos.eqb negb andb orb Sketch1.RC_CODE Sketch1.ALU_PLAY_KEY
       Sketch1.ALU_CENTER_KEY Sketch1.MENU_KEY Sketch1.UP_KEY Sketch1.DOWN_KEY
       Sketch1.LEFT_KEY Sketch1.RIGHT_KEY Sketch1.WHITE_PLAY_KEY].

(** C5.  Sketch 1, a frame of the Apple Remote carrying the Play key.  Not a
    repeat and lightmeter line low: [startRunWithMetering] runs (then the
    confirmation blink), and its steps are lightmeter on, hold on, load on,
    250 ms, load off, 70 ms, start on.  Not a repeat and lightmeter line
    high: [stopRun] runs, whose steps are start off, 70 ms, hold off,
    lightmeter off and the 250 ms indicator pulse, and which sets [lmMode]
    back to the first-single-shot mode.  A repeat: nothing runs. *)
Theorem play_key_toggles_run (st : state) :
  address st = Sketch1.RC_CODE ->
  command7 st = Sketch1.ALU_PLAY_KEY ->
  (digitalRead lightmeterPin st = false ->
     Sketch1.ReceivedCode false st
     = confirm (startRunWithMetering (set_aluRemote true st)))
  /\ (digitalRead lightmeterPin st = true ->
        Sketch1.ReceivedCode false st
        = confirm (stopRun (set_aluRemote true st))
        /\ lmMode (Sketch1.ReceivedCode false st) = LM_MODE_1ST_SINGLESHOT)
  /\ (Sketch1.ReceivedCode true st = set_blinkFlag true st
      /\ new_events st (Sketch1.ReceivedCode true st) = [])
  /\ (forall st0,
         trace (startRunWithMetering st0)
         = trace st0 ++ [Call P_startRunWithMetering;
                         DigitalWrite lightmeterPin HIGH;
                         DigitalWrite holdPin HIGH;
                         DigitalWrite loadPin HIGH; DelayMs 250;
                         DigitalWrite loadPin LOW; DelayMs 70;
                         DigitalWrite startPin HIGH])
  /\ (forall st0,
         trace (stopRun st0)
         = trace st0 ++ [Call P_stopRun;
                         DigitalWrite startPin LOW; DelayMs 70;
                         DigitalWrite holdPin LOW;
                         DigitalWrite lightmeterPin LOW;
                         DigitalWrite ledPin HIGH; DelayMs 250;
                         DigitalWrite ledPin LOW]
         /\ lmMode (stopRun st0) = LM_MODE_1ST_SINGLESHOT).
Proof.
  intros Ha Hk.
  assert (Hlow : digitalRead lightmeterPin st = false ->
                 Sketch1.ReceivedCode false st
                 = confirm (startRunWithMetering (set_aluRemote true st))).
  { intros Hl. unfold Sketch1.ReceivedCode. cbv zeta. rewrite Ha, Hk. keys1.
    change (digitalRead lightmeterPin (set_aluRemote true st))
      with (digitalRead lightmeterPin st).
    rewrite Hl. reflexivity. }
  assert (Hhigh : digitalRead lightmeterPin st = true ->
                  Sketch1.ReceivedCode false st
                  = confirm (stopRun (set_aluRemote true st))).
  { intros Hl. unfold Sketch1.ReceivedCode. cbv zeta. rewrite Ha, Hk. keys1.
    change (digitalRead lightmeterPin (set_aluRemote true st))
      with (digitalRead lightmeterPin st).
    rewrite Hl. reflexivity. }
  assert (Hrep : Sketch1.ReceivedCode true st = set_blinkFlag true st).
  { unfold Sketch1.ReceivedCode. cbv zeta. rewrite Ha, Hk. keys1. reflexivity. }
  split; [exact Hlow | split; [| split; [| split]]].
  - intros Hl. split; [exact (Hhigh Hl) |].
    rewrite (Hhigh Hl). unfold confirm.
    destruct (blinkFlag (stopRun (set_aluRemote true st))); reflexivity.
  - split; [exact Hrep |]. rewrite Hrep. apply new_events_none. reflexivity.
  - intros st0. trace_norm. reflexivity.
  - intros st0. split; [trace_norm |]; reflexivity.
Qed.

(** The same in normal operation of sketch 2: the frame comes from the
    Apple or the learned address and its key is the Apple or the learned
    Play key. *)
Lemma play_key_toggles_run_sketch2 st :
  Sketch2.notGarbage st = true -> justBooted st = false -> learnMode st = false ->
  address st = Sketch2.appleIrRcCode \/ address st = learnedIrRcCode st ->
  let key :=
    if address st =? Sketch2.appleIrRcCode then command7 st else command8 st in
  key = Sketch2.appleIrPlayKey \/ key = learnedIrPlayKey st ->
  let st0 :=
    if ((key =? Sketch2.appleIrOneFrameKey) || (key =? Sketch2.appleIrPlayKey))
       && (address st =? Sketch2.appleIrRcCode)
    then set_aluRemote true st else st in
  (digitalRead lightmeterPin st = false ->
     Sketch2.ReceivedCode false st = confirm (startRunWithMetering st0))
  /\ (digitalRead lightmeterPin st = true ->
        Sketch2.ReceivedCode false st = confirm (stopRun st0))
  /\ Sketch2.ReceivedCode true st = set_blinkFlag true st.
Proof.
  intros Hg Hj Hl Ha key Hk st0.
  assert (Hknown : negb (address st =? learnedIrRcCode st)
                   && negb (address st =? Sketch2.appleIrRcCode) = false).
  { destruct Ha as [Ha | Ha]; rewrite Ha, Z.eqb_refl;
      [apply andb_false_r | reflexivity]. }
  assert (Hplay : (key =? Sketch2.appleIrPlayKey) || (key =? learnedIrPlayKey st)
                  = true).
  { destruct Hk as [Hk | Hk]; rewrite Hk, Z.eqb_refl;
      [reflexivity | apply orb_true_r]. }
  unfold Sketch2.ReceivedCode. cbv zeta.
  rewrite Hg, Hj, Hl, Hknown. cbn [negb andb]. cbv iota.
  fold key. subst st0.
  destruct (address st =? Sketch2.appleIrRcCode);
    destruct (key =? Sketch2.appleIrOneFrameKey);
    destruct (key =? Sketch2.appleIrPlayKey); cbn [negb andb orb]; cbv iota;
    change (learnedIrPlayKey (set_aluRemote true st)) with (learnedIrPlayKey st);
    change (digitalRead lightmeterPin (set_aluRemote true st))
      with (digitalRead lightmeterPin st);
    cbn [orb] in Hplay; try rewrite Hplay; cbn [andb orb];
    (split; [intros Hlm; rewrite Hlm; reflexivity
            | split; [intros Hlm; rewrite Hlm; reflexivity
                     | rewrite ?andb_false_r; reflexivity]]).
Qed.

(** And of sketch 3: the frame comes from the stored address and carries
    the stored Play key. *)
Lemma play_key_toggles_run_sketch3 st :
  justBooted st = false -> learnMode st = false ->
  address st = irRcCode st ->
  let key := if address st =? 0x87EE then command7 st else command8 st in
  key = irPlayKey st ->
  let st0 := if irRcCode st =? 0x87EE then set_aluRemote true st else st in
  (digitalRead lightmeterPin st = false ->
     Sketch3.ReceivedCode false st = confirm (startRunWithMetering st0))
  /\ (digitalRead lightmeterPin st = true ->
        Sketch3.ReceivedCode false st = confirm (stopRun st0))
  /\ Sketch3.ReceivedCode true st = set_blinkFlag true st.
Proof.
  intros Hj Hl Ha key Hk st0.
  unfold Sketch3.ReceivedCode. cbv zeta.
  rewrite notGarbage3_true, Hj, Hl. cbn [negb andb]. cbv iota.
  assert (Hknown : (address st =? irRcCode st) = true)
    by (rewrite Ha; apply Z.eqb_refl).
  fold key. rewrite Hknown. cbn [negb]. cbv iota.
  rewrite Hk, Z.eqb_refl. subst st0.
  destruct (irRcCode st =? 0x87EE); cbn [negb andb orb];
    rewrite ?andb_true_r, ?andb_false_r, ?orb_true_r, ?orb_false_r; cbv iota;
    change (irPlayKey (set_aluRemote true st)) with (irPlayKey st);
    change (digitalRead lightmeterPin (set_aluRemote true st))
      with (digitalRead lightmeterPin st);
    rewrite ?Z.eqb_refl; cbn [andb orb];
    (split; [intros Hlm; rewrite Hlm; cbn [negb andb]; reflexivity
            | split; [intros Hlm; rewrite Hlm; cbn [negb andb]; reflexivity
                     | rewrite ?andb_false_r; reflexivity]]).
Qed.

(** ** Learn mode *)

(** [fill_first] fills the slots from first to last: on seven unfilled
    slots, seven keys land in the order in which they arrive. *)
Lemma fill_first_in_order k1 k2 k3 k4 k5 k6 k7 :
  Forall (fun k => k <> UNFILLED) [k1; k2; k3; k4; k5; k6; k7] ->
  let F := UNFILLED in
  fill_first k7 (fill_first k6 (fill_first k5 (fill_first k4
    (fill_first k3 (fill_first k2 (fill_first k1 [F; F; F; F; F; F; F]))))))
  = [k1; k2; k3; k4; k5; k6; k7].
Proof.
  intros H F. subst F.
  repeat match goal with
         | H : Forall _ (_ :: _) |- _ => inversion H; subst; clear H
         end.
  repeat match goal with
         | H : ?k <> UNFILLED |- _ => apply Z.eqb_neq in H
         end.
  repeat (cbn [fill_first];
          rewrite ?Z.eqb_refl;
          repeat match goal with
                 | H : (?k =? UNFILLED) = false |- _ => rewrite H
                 end).
  reflexivity.
Qed.

(** A command byte is never the unfilled mark. *)
Lemma command8_filled st : command8 st <> UNFILLED.
Proof.
  unfold command8, UNFILLED.
  assert (H : 0 <= Z.land (Z.shiftr (receivedData st) 16) 0xFF < 256).
  { change 0xFF with (Z.ones 8). rewrite Z.land_ones by lia.
    apply Z.mod_pos_bound. reflexivity. }
  lia.
Qed.

Lemma learn_step_sketch2 st :
  learnMode st = true ->
  learn_step_spec Sketch2.ReceivedCode Sketch2.notGarbage learnedIrRcCode
    slots2 Sketch2.learnedProfile st.
Proof.
  intros Hl. unfold learn_step_spec. cbv zeta. split.
  - intros Ha Hg. unfold Sketch2.ReceivedCode. cbv zeta.
    rewrite Hg, Hl, andb_false_r.
    change (learnedIrRcCode (blinkLEDtwice st)) with (learnedIrRcCode st).
    rewrite Ha, Z.eqb_refl. cbn [negb andb].
    change (command8 (blinkLEDtwice st)) with (command8 st).
    cbn [slots2 fill_first first_unfilled option_map]. unfold UNFILLED.
    change (learnedIrPlayKey (blinkLEDtwice st)) with (learnedIrPlayKey st).
    change (learnedIrOneFrameKey (blinkLEDtwice st))
      with (learnedIrOneFrameKey st).
    change (learnedIrIntervalKey (blinkLEDtwice st))
      with (learnedIrIntervalKey st).
    change (learnedIrFasterKey (blinkLEDtwice st)) with (learnedIrFasterKey st).
    change (learnedIrSlowerKey (blinkLEDtwice st)) with (learnedIrSlowerKey st).
    change (learnedIrDoubleSpeedKey (blinkLEDtwice st))
      with (learnedIrDoubleSpeedKey st).
    change (learnedIrHalfSpeedKey (blinkLEDtwice st))
      with (learnedIrHalfSpeedKey st).
    destruct (learnedIrPlayKey st =? 65535);
      [| destruct (learnedIrOneFrameKey st =? 65535);
         [| destruct (learnedIrIntervalKey st =? 65535);
            [| destruct (learnedIrFasterKey st =? 65535);
               [| destruct (learnedIrSlowerKey st =? 65535);
                  [| destruct (learnedIrDoubleSpeedKey st =? 65535);
                     [| destruct (learnedIrHalfSpeedKey st =? 65535)]]]]]];
      cbn [option_map];
      (split; [reflexivity | split; [reflexivity | split]]);
      try (intros H; discriminate H);
      try (intros H; exfalso; apply H; reflexivity);
      intros _;
      (split;
       [unfold persisted;
        erewrite new_events_app by (trace_norm; reflexivity); reflexivity
       | split; [reflexivity | first [exact Hl | reflexivity]]]).
  - intros Ha Repeat. unfold Sketch2.ReceivedCode. cbv zeta.
    rewrite Hl, andb_false_r. apply Z.eqb_neq in Ha. rewrite Ha.
    destruct (Sketch2.notGarbage st); reflexivity.
Qed.

Lemma learn_step_sketch3 st :
  learnMode st = true ->
  learn_step_spec Sketch3.ReceivedCode Sketch3.notGarbage irRcCode
    slots3 Sketch3.learnedProfile st.
Proof.
  intros Hl. unfold learn_step_spec. cbv zeta. split.
  - intros Ha Hg. unfold Sketch3.ReceivedCode. cbv zeta.
    rewrite Hg, Hl, andb_false_r.
    rewrite Ha, Z.eqb_refl.
    change (command8 (blinkLEDtwice st)) with (command8 st).
    cbn [slots3 fill_first first_unfilled option_map]. unfold UNFILLED.
    change (irPlayKey (blinkLEDtwice st)) with (irPlayKey st).
    change (irCenterKey (blinkLEDtwice st)) with (irCenterKey st).
    change (irMenuKey (blinkLEDtwice st)) with (irMenuKey st).
    change (irUpKey (blinkLEDtwice st)) with (irUpKey st).
    change (irDownKey (blinkLEDtwice st)) with (irDownKey st).
    change (irLeftKey (blinkLEDtwice st)) with (irLeftKey st).
    change (irRightKey (blinkLEDtwice st)) with (irRightKey st).
    destruct (irPlayKey st =? 65535);
      [| destruct (irCenterKey st =? 65535);
         [| destruct (irMenuKey st =? 65535);
            [| destruct (irUpKey st =? 65535);
               [| destruct (irDownKey st =? 65535);
                  [| destruct (irLeftKey st =? 65535);
                     [| destruct (irRightKey st =? 65535)]]]]]];
      cbn [option_map];
      (split; [reflexivity | split; [reflexivity | split]]);
      try (intros H; discriminate H);
      try (intros H; exfalso; apply H; reflexivity);
      intros _;
      (split;
       [unfold persisted;
        erewrite new_events_app by (trace_norm; reflexivity); reflexivity
       | split; [reflexivity | first [exact Hl | reflexivity]]]).
  - intros Ha Repeat. unfold Sketch3.ReceivedCode. cbv zeta.
    rewrite Hl, andb_false_r. apply Z.eqb_neq in Ha. rewrite Ha.
    destruct (Sketch3.notGarbage st); reflexivity.
Qed.

Lemma notGarbage2_iff st :
  Sketch2.notGarbage st = true <-> command8 st <> 0xFF /\ command8 st <> 0x00.
Proof.
  unfold Sketch2.notGarbage.
  rewrite andb_true_iff, !negb_true_iff, !Z.eqb_neq. reflexivity.
Qed.

(** C1, amended.  While [learnMode] is true, in sketch 2 and in sketch 3: a
    non-repeat frame from the captured address that passes the sketch's
    garbage guard writes its command byte into the first unfilled slot, in
    the order Play, SingleFrame, IntervalToggle, Faster, Slower,
    DoubleSpeed, HalfSpeed; the EEPROM is written (with the completed
    profile) and [learnMode] cleared exactly when that slot is the seventh;
    a frame from another address changes nothing.  The guard of sketch 2
    passes the frames whose command byte is neither [0xFF] nor [0x00] and
    a frame it stops changes nothing; the guard of sketch 3 passes every
    frame. *)
Theorem learn_session_step (st : state) :
  learnMode st = true ->
  learn_step_spec Sketch2.ReceivedCode Sketch2.notGarbage learnedIrRcCode
    slots2 Sketch2.learnedProfile st
  /\ learn_step_spec Sketch3.ReceivedCode Sketch3.notGarbage irRcCode
       slots3 Sketch3.learnedProfile st
  /\ (Sketch2.notGarbage st = true
      <-> command8 st <> 0xFF /\ command8 st <> 0x00)
  /\ (Sketch2.notGarbage st = false ->
      forall Repeat, Sketch2.ReceivedCode Repeat st = st)
  /\ Sketch3.notGarbage st = true.
Proof.
  intros Hl. split; [apply learn_step_sketch2; exact Hl |].
  split; [apply learn_step_sketch3; exact Hl |].
  split; [apply notGarbage2_iff |].
  split; [| apply notGarbage3_true].
  intros Hg Repeat. unfold Sketch2.ReceivedCode. rewrite Hg. reflexivity.
Qed.

(** ** The aluminium-remote latch *)

Lemma ReceivedCode_aluRemote s r st :
  aluRemote st = true -> aluRemote (ReceivedCode s r st) = true.
Proof.
  intros H. destruct s; open_dispatch; case_ifs;
    first [exact H | reflexivity].
Qed.

Lemma step_aluRemote s i st :
  aluRemote st = true -> aluRemote (step s i st) = true.
Proof.
  intros H. destruct i as [TCNT0 TIFR | | millis]; cbn [step].
  - unfold irEdge, INT0_vect. cbv zeta.
    case_ifs; cbn [aluRemote set_irBits set_receivedData];
      try apply ReceivedCode_aluRemote; exact H.
  - rewrite timerTick_eq. case_ifs; destruct s; exact H.
  - destruct s; unfold Sketch1.loop, Sketch2.loop, Sketch3.loop; cbv zeta;
      case_ifs; exact H.
Qed.

Lemma run_aluRemote s ins :
  forall st, aluRemote st = true -> aluRemote (run s ins st) = true.
Proof.
  induction ins as [| i ins IH]; intros st H; [exact H |].
  cbn. apply IH. apply step_aluRemote. exact H.
Qed.

Ltac keys2 :=
  cbn [Z.eqb Pos.eqb negb andb orb Sketch2.appleIrRcCode Sketch2.appleIrPlayKey
       Sketch2.appleIrOneFrameKey Sketch2.appleIrIntervalKey
       Sketch2.appleIrFasterKey Sketch2.appleIrSlowerKey
       Sketch2.appleIrDoubleSpeedKey Sketch2.appleIrHalfSpeedKey
       Sketch2.appleIrWhitePlayKey].

Lemma latch_set_sketch1 st :
  address st = 0x87EE -> command7 st = 0x2E \/ command7 st = 0x2F ->
  aluRemote (Sketch1.ReceivedCode false st) = true.
Proof.
  intros Ha Hk.
  unfold Sketch1.ReceivedCode. cbv zeta.
  rewrite Ha.
  destruct Hk as [Hk | Hk]; rewrite Hk; keys1;
    cbv [toggleTimerInterrupt faster slower halfSpeed doubleSpeed]; cbv zeta;
    case_ifs; reflexivity.
Qed.

Lemma latch_set_sketch2 st :
  address st = 0x87EE -> command7 st = 0x2E \/ command7 st = 0x2F ->
  Sketch2.notGarbage st = true -> justBooted st = false -> learnMode st = false ->
  aluRemote (Sketch2.ReceivedCode false st) = true.
Proof.
  intros Ha Hk Hg Hj Hl. unfold Sketch2.ReceivedCode. cbv zeta.
  rewrite Hg, Hj, Hl, Ha.
  destruct Hk as [Hk | Hk]; rewrite Hk; keys2;
    rewrite ?andb_false_r; cbv iota;
    cbv [toggleTimerInterrupt faster slower halfSpeed doubleSpeed]; cbv zeta;
    case_ifs; reflexivity.
Qed.

Lemma not_toggled_none st st' : trace st' = trace st -> ~ toggled_run st st'.
Proof.
  intros H. unfold toggled_run. rewrite (new_events_none _ _ H).
  intros [[] | []].
Qed.

(** Close a goal [~ toggled_run st st'] when [st'] is an explicit
    composition of routines none of which is [startRunWithMetering] or
    [stopRun]. *)
Ltac no_toggle :=
  unfold toggled_run;
  erewrite new_events_app by (trace_norm; reflexivity);
  cbn [In]; intuition discriminate.

Lemma white_play_ignored_sketch1 st Repeat :
  aluRemote st = true -> whitePlayFrame st ->
  ~ toggled_run st (Sketch1.ReceivedCode Repeat st).
Proof.
  intros Hlatch [Ha Hk]. apply not_toggled_none.
  unfold Sketch1.ReceivedCode. cbv zeta. rewrite Ha, Hk. keys1.
  rewrite Hlatch. destruct Repeat; reflexivity.
Qed.

Lemma white_play_ignored_sketch2 st Repeat :
  aluRemote st = true -> whitePlayFrame st ->
  learnedIrPlayKey st <> 0x02 ->
  ~ toggled_run st (Sketch2.ReceivedCode Repeat st).
Proof.
  intros Hlatch [Ha Hk] Hp. apply Z.neq_sym, Z.eqb_neq in Hp.
  unfold Sketch2.ReceivedCode. cbv zeta.
  destruct (Sketch2.notGarbage st); [| apply not_toggled_none; reflexivity].
  destruct (justBooted st && negb (learnMode st)); [no_toggle |].
  destruct (learnMode st).
  { cbv [toggleTimerInterrupt faster slower halfSpeed doubleSpeed]; cbv zeta.
    case_ifs; first [apply not_toggled_none; reflexivity | no_toggle]. }
  destruct (negb (justBooted st) && negb false);
    [| apply not_toggled_none; reflexivity].
  rewrite Ha, Hk.
  change (34798 =? Sketch2.appleIrRcCode) with true.
  cbn [andb orb negb]. rewrite andb_false_r. cbv iota.
  change (2 =? Sketch2.appleIrOneFrameKey) with false.
  change (2 =? Sketch2.appleIrPlayKey) with false.
  cbn [andb orb negb]. rewrite Hp, Hlatch. keys2.
  destruct Repeat; cbn [negb andb orb]; rewrite ?andb_false_r; cbv iota;
    cbv [toggleTimerInterrupt faster slower halfSpeed doubleSpeed]; cbv zeta;
    case_ifs; first [apply not_toggled_none; reflexivity | no_toggle].
Qed.

(** C9, amended.  A non-repeat Play or Center key of the Apple family,
    dispatched in normal operation, sets [aluRemote]; nothing that happens
    afterwards (edges, timer interrupts, passes of [loop]) clears it; with
    the latch set, a frame of the Apple family carrying the white remote's
    Play key runs neither [startRunWithMetering] nor [stopRun] in sketch 1,
    and in sketch 2 as long as the learned Play key is not that same code
    [0x02]. *)
Theorem alu_latch_is_one_way (st : state) :
  (address st = 0x87EE -> command7 st = 0x2E \/ command7 st = 0x2F ->
     aluRemote (Sketch1.ReceivedCode false st) = true
     /\ (Sketch2.notGarbage st = true -> justBooted st = false ->
         learnMode st = false ->
         aluRemote (Sketch2.ReceivedCode false st) = true))
  /\ (aluRemote st = true ->
      forall s ins, aluRemote (run s ins st) = true)
  /\ (aluRemote st = true -> whitePlayFrame st ->
      forall Repeat,
        ~ toggled_run st (Sketch1.ReceivedCode Repeat st)
        /\ (learnedIrPlayKey st <> 0x02 ->
            ~ toggled_run st (Sketch2.ReceivedCode Repeat st))).
Proof.
  split; [| split].
  - intros Ha Hk. split; [apply latch_set_sketch1; assumption |].
    intros Hg Hj Hl. apply latch_set_sketch2; assumption.
  - intros H s ins. apply run_aluRemote. exact H.
  - intros Hlatch Hw Repeat. split.
    + apply white_play_ignored_sketch1; assumption.
    + intros Hp. apply white_play_ignored_sketch2; assumption.
Qed.

(** ** Step and postscaler arithmetic *)

Lemma constrain_spec a lo hi :
  lo <= hi -> constrain a lo hi = Z.max lo (Z.min hi a).
Proof.
  intros H. unfold constrain. rewrite Z.gtb_ltb.
  destruct (Z.ltb_spec a lo); [lia |].
  destruct (Z.ltb_spec hi a); lia.
Qed.

Lemma byte_small z : 0 <= z < 256 -> byte z = z.
Proof. intros H. apply Z.mod_small. exact H. Qed.

Lemma slower_keeps_floor st : interval_ok st -> interval_ok (slower st).
Proof.
  intros (Hp & Hs & Hf). unfold interval_ok, interval_floor in *.
  unfold slower. cbv zeta.
  cbn [postscaler newIntervalStep oldIntervalStep set_oldIntervalStep
       set_newIntervalStep].
  rewrite constrain_spec by lia. rewrite byte_small by lia. lia.
Qed.

Lemma faster_keeps_floor st : interval_ok st -> interval_ok (faster st).
Proof.
  intros (Hp & Hs & Hf). unfold interval_ok, interval_floor in *.
  unfold faster. cbv zeta.
  cbn [postscaler newIntervalStep oldIntervalStep set_oldIntervalStep].
  destruct (Z.leb_spec (postscaler st) 4);
    cbn [postscaler newIntervalStep set_newIntervalStep set_oldIntervalStep];
    rewrite constrain_spec by lia; rewrite byte_small by lia; lia.
Qed.

Lemma doubleSpeed_postscaler st :
  1 <= postscaler st <= 32767 ->
  postscaler (doubleSpeed st) = Z.max 1 (postscaler st / 2).
Proof.
  intros Hp. unfold doubleSpeed. cbv zeta.
  assert (Hq : Z.quot (postscaler st) 2 = postscaler st / 2)
    by (apply Z.quot_div_nonneg; lia).
  assert (Hd : 0 <= postscaler st / 2 <= 16383)
    by (Z.div_mod_to_equations; lia).
  assert (E : int16 (constrain (Z.quot (postscaler st) 2) 1 32768)
              = Z.max 1 (postscaler st / 2)).
  { rewrite Hq. unfold constrain. rewrite Z.gtb_ltb.
    destruct (Z.ltb_spec (postscaler st / 2) 1);
      [| destruct (Z.ltb_spec 32768 (postscaler st / 2))];
      rewrite int16_small by lia; lia. }
  match goal with
  | |- postscaler (if ?c then _ else _) = _ => destruct c
  end; cbn; exact E.
Qed.

Lemma doubleSpeed_keeps_floor st : interval_ok st -> interval_ok (doubleSpeed st).
Proof.
  intros (Hp & Hs & Hf).
  assert (Hps := doubleSpeed_postscaler st ltac:(lia)).
  assert (Hd : 0 <= postscaler st / 2 <= 8192)
    by (Z.div_mod_to_equations; lia).
  unfold interval_ok, interval_floor. rewrite Hps.
  split; [lia |].
  unfold doubleSpeed in *. cbv zeta in *.
  cbn [newIntervalStep postscaler set_postscaler] in *.
  destruct (Z.ltb_spec (newIntervalStep st) 11);
    destruct (Z.leb_spec
                (int16 (constrain (Z.quot (postscaler st) 2) 1 32768)) 4);
    cbn in *; split; try lia.
Qed.

Lemma halfSpeed_postscaler st :
  1 <= postscaler st <= 8192 ->
  postscaler (halfSpeed st) = Z.min 32768 (postscaler st * 2).
Proof.
  intros Hp. unfold halfSpeed, constrain. cbn.
  rewrite (int16_small (postscaler st * 2)) by lia.
  rewrite Z.gtb_ltb.
  destruct (Z.ltb_spec (postscaler st * 2) 1); [lia |].
  destruct (Z.ltb_spec 32768 (postscaler st * 2)); [lia |].
  rewrite int16_small by lia. lia.
Qed.

Lemma halfSpeed_keeps_floor st :
  interval_ok st -> postscaler st <= 8192 -> interval_ok (halfSpeed st).
Proof.
  intros (Hp & Hs & Hf) H8.
  assert (Hps := halfSpeed_postscaler st ltac:(lia)).
  unfold interval_ok, interval_floor in *. rewrite Hps.
  change (newIntervalStep (halfSpeed st)) with (newIntervalStep st).
  repeat split; try lia.
Qed.

Lemma interval_ok_ext st st' :
  postscaler st' = postscaler st ->
  newIntervalStep st' = newIntervalStep st ->
  interval_ok st -> interval_ok st'.
Proof.
  unfold interval_ok, interval_floor. intros -> ->. auto.
Qed.

(** Below the top of the postscaler range every frame keeps the interval
    invariant, in every sketch. *)
Lemma ReceivedCode_keeps_floor s r st :
  interval_ok st -> postscaler st <= 8192 -> interval_ok (ReceivedCode s r st).
Proof.
  intros H H8.
  destruct s;
    cbv [ReceivedCode Sketch1.ReceivedCode Sketch2.ReceivedCode
         Sketch3.ReceivedCode toggleTimerInterrupt]; cbv zeta; case_ifs;
    first
      [ apply (interval_ok_ext st); [reflexivity | reflexivity | exact H]
      | apply (interval_ok_ext (slower st));
        [reflexivity | reflexivity | apply slower_keeps_floor; exact H]
      | apply (interval_ok_ext (faster st));
        [reflexivity | reflexivity | apply faster_keeps_floor; exact H]
      | apply (interval_ok_ext (doubleSpeed st));
        [reflexivity | reflexivity | apply doubleSpeed_keeps_floor; exact H]
      | apply (interval_ok_ext (halfSpeed st));
        [reflexivity | reflexivity
        | apply halfSpeed_keeps_floor; [exact H | exact H8]]
      | apply (interval_ok_ext (faster (set_aluRemote true st)));
        [reflexivity | reflexivity | apply faster_keeps_floor; exact H]
      | apply (interval_ok_ext (doubleSpeed (set_aluRemote true st)));
        [reflexivity | reflexivity | apply doubleSpeed_keeps_floor; exact H] ].
Qed.

(** The product [postscaler * 2] leaves the range of [int] at 16384;
    [constrain] then sees [-32768] and answers with its lower bound. *)
Lemma halfSpeed_wraps st : postscaler st = 16384 -> postscaler (halfSpeed st) = 1.
Proof. intros H. unfold halfSpeed. cbn. rewrite H. reflexivity. Qed.

(** Whatever the product is, the result is stored in an [int]: it is never
    32768. *)
Lemma halfSpeed_fits_int st : -32768 <= postscaler (halfSpeed st) < 32768.
Proof.
  unfold halfSpeed. cbn [postscaler set_postscaler]. unfold int16.
  pose proof (Z.mod_pos_bound
                (constrain
                   ((postscaler st * 2 + 32768) mod 65536 - 32768) 1 32768
                 + 32768) 65536 eq_refl).
  lia.
Qed.



(** ** The properties at concrete inputs *)

(** The decoder waiting for a leader right after [setup] of sketch 1: a
    211-tick gap starts a frame, a 176-tick gap dispatches a repeat, a
    100-tick gap is ignored. *)
Lemma edge_while_awaiting_leader_at_boot :
  let st := boot S1 erased 0 in
  irBits st = 32
  /\ irEdge S1 211 0 st = set_irBits 0 (set_receivedData 0 st)
  /\ irEdge S1 176 0 st = ReceivedCode S1 true st
  /\ irEdge S1 100 0 st = st.
Proof.
  cbv zeta. split; [reflexivity |].
  split; [| split].
  - destruct (edge_while_awaiting_leader S1 211 0 (boot S1 erased 0) eq_refl)
      as (H & _ & _).
    apply H; [lia | reflexivity].
  - destruct (edge_while_awaiting_leader S1 176 0 (boot S1 erased 0) eq_refl)
      as (_ & H & _).
    apply H; [lia | reflexivity].
  - destruct (edge_while_awaiting_leader S1 100 0 (boot S1 erased 0) eq_refl)
      as (_ & _ & H).
    apply H. left. lia.
Defined.

(** The decoder of sketch 1 after a leader: a 35-tick gap stores a 1 in
    bit 0, a 17-tick gap leaves it 0, a 50-tick gap abandons the frame. *)
Lemma edge_while_receiving_bit_0 :
  let st := run S1 [Edge 211 0] (boot S1 erased 0) in
  0 <= irBits st <= 31
  /\ Z.testbit (receivedData (irEdge S1 35 0 st)) 0 = true
  /\ Z.testbit (receivedData (irEdge S1 17 0 st)) 0 = false
  /\ irBits (irEdge S1 35 0 st) = 1
  /\ irEdge S1 50 0 st = set_irBits 32 st.
Proof.
  cbv zeta.
  set (st := run S1 [Edge 211 0] (boot S1 erased 0)).
  assert (Hi : 0 <= irBits st <= 31) by (vm_compute; split; discriminate).
  assert (Hd : 0 <= receivedData st < 2 ^ irBits st)
    by (vm_compute; split; [discriminate | reflexivity]).
  split; [exact Hi |].
  split; [| split; [| split]].
  - destruct (edge_while_receiving_bits S1 35 0 st Hi) as (_ & H).
    destruct H as (_ & _ & _ & H); [lia | reflexivity |].
    exact (H Hd).
  - destruct (edge_while_receiving_bits S1 17 0 st Hi) as (_ & H).
    destruct H as (_ & _ & _ & H); [lia | reflexivity |].
    exact (H Hd).
  - destruct (edge_while_receiving_bits S1 35 0 st Hi) as (_ & H).
    destruct H as (_ & H & _); [lia | reflexivity |].
    exact H.
  - destruct (edge_while_receiving_bits S1 50 0 st Hi) as (H & _).
    apply H. left. lia.
Defined.

(** A repeat gap right after [setup] of sketch 3, and after a frame that
    was abandoned with three bits received. *)
Lemma repeat_gap_before_any_frame :
  let st0 := boot S3 erased 0 in
  let st := run S3 [Edge 211 0; Edge 35 0; Edge 17 0; Edge 35 0] st0 in
  irEdge S3 176 0 st0 = ReceivedCode S3 true st0
  /\ receivedData st0 = 0
  /\ receivedData (irEdge S3 50 0 st) = 5
  /\ irEdge S3 176 0 (irEdge S3 50 0 st)
     = ReceivedCode S3 true (irEdge S3 50 0 st).
Proof.
  cbv zeta.
  destruct (repeat_gap_dispatches_whatever_is_buffered S3) as [Hboot Hpart].
  split; [| split; [| split]].
  - apply (Hboot erased 0 176 0); [lia | reflexivity].
  - apply (Hboot erased 0 176 0); [lia | reflexivity].
  - reflexivity.
  - apply (Hpart (run S3 [Edge 211 0; Edge 35 0; Edge 17 0; Edge 35 0]
                    (boot S3 erased 0)) 50 0 176 0).
    + vm_compute. split; discriminate.
    + left. lia.
    + lia.
    + reflexivity.
Defined.

(** Sketch 1 at power-up (postscaler 2, divider 0): after three timer
    interrupts [divider] is 1, and the third interrupt ran [singleFrame]. *)
Lemma timer_compare_handler_at_boot :
  let st := boot S1 erased 0 in
  0 < postscaler st < 32768
  /\ divider st = 0
  /\ divider (ticks S1 3 st) = 1
  /\ In (Call P_singleFrame) (new_events (ticks S1 2 st) (ticks S1 3 st)).
Proof.
  cbv zeta.
  assert (Hp : 0 < postscaler (boot S1 erased 0) < 32768)
    by (split; reflexivity).
  assert (Hd : divider (boot S1 erased 0) = 0) by reflexivity.
  split; [exact Hp |]. split; [exact Hd |].
  destruct (timer_compare_handler S1 (boot S1 erased 0))
    as (_ & _ & _ & _ & H).
  split.
  - destruct (H Hp Hd 3%nat) as [E _]. rewrite E. vm_compute. reflexivity.
  - destruct (H Hp Hd 2%nat) as [_ E]. apply E. vm_compute. reflexivity.
Defined.

(** Sketch 1 at power-up receives the Play key: the run starts. *)
Lemma play_key_at_boot :
  let st := set_receivedData (appleFrame 0x2F) (boot S1 erased 0) in
  address st = Sketch1.RC_CODE
  /\ command7 st = Sketch1.ALU_PLAY_KEY
  /\ digitalRead lightmeterPin st = false
  /\ Sketch1.ReceivedCode false st
     = confirm (startRunWithMetering (set_aluRemote true st))
  /\ Sketch1.ReceivedCode true st = set_blinkFlag true st.
Proof.
  cbv zeta.
  destruct (play_key_toggles_run
              (set_receivedData (appleFrame 0x2F) (boot S1 erased 0))
              eq_refl eq_refl) as (Hlow & _ & (Hrep & _) & _).
  split; [reflexivity |]. split; [reflexivity |]. split; [reflexivity |].
  split; [apply Hlow; reflexivity | exact Hrep].
Defined.

(** Sketch 2 in a learn session: the first key from the captured address
    goes into the Play slot and nothing is written to the EEPROM. *)
Lemma learn_session_first_key :
  let st := run S2 (frame_edges 0x00121234 ++ removelast (frame_edges 0x00341234))
              (boot S2 erased 0) in
  learnMode st = true
  /\ slots2 (Sketch2.ReceivedCode false st)
     = [0x34; 0xFFFF; 0xFFFF; 0xFFFF; 0xFFFF; 0xFFFF; 0xFFFF]
  /\ persisted st (Sketch2.ReceivedCode false st) = [].
Proof.
  cbv zeta.
  set (st := run S2 (frame_edges 0x00121234 ++ removelast (frame_edges 0x00341234))
               (boot S2 erased 0)).
  assert (Hl : learnMode st = true) by (vm_compute; reflexivity).
  assert (Ha : address st = learnedIrRcCode st) by (vm_compute; reflexivity).
  assert (Hg : Sketch2.notGarbage st = true) by (vm_compute; reflexivity).
  split; [exact Hl |].
  destruct (learn_session_step st Hl) as ((Hfill & _) & _).
  destruct (Hfill Ha Hg) as (Hs & _ & _ & Hn).
  split.
  - rewrite Hs. vm_compute. reflexivity.
  - apply Hn. vm_compute. discriminate.
Defined.

(** A whole learn session of sketch 2 on an erased EEPROM: a first frame
    from address [0x1234] in the boot window opens it, seven keys fill the
    slots; the EEPROM is untouched after six of them and holds the profile
    after the seventh, written once. *)
Lemma learn_session_complete :
  let frame k := Z.lor (Z.shiftl k 16) 0x1234 in
  let st6 :=
    run S2 (frame_edges (frame 0x20)
              ++ concat (map (fun k => frame_edges (frame k))
                           [0x10; 0x11; 0x12; 0x13; 0x14; 0x15]))
      (boot S2 erased 0) in
  let st7 := run S2 (frame_edges (frame 0x16)) st6 in
  (learnMode st6 = true /\ eeprom st6 = erased /\ puts (trace st6) = [])
  /\ learnMode st7 = false
  /\ eeprom st7 = mkRC 0x1234 0x10 0x11 0x12 0x13 0x14 0x15 0x16
  /\ puts (trace st7) = [mkRC 0x1234 0x10 0x11 0x12 0x13 0x14 0x15 0x16].
Proof.
  cbv zeta.
  split; [split; [| split]; vm_compute; reflexivity |].
  split; [| split]; vm_compute; reflexivity.
Qed.

(** After a power cycle on that profile, the learned Play key from the
    learned address starts a run. *)
Lemma learned_play_key_after_power_cycle :
  let profile := mkRC 0x1234 0x10 0x11 0x12 0x13 0x14 0x15 0x16 in
  let st :=
    run S2 (Poll 300 :: removelast (frame_edges (Z.lor (Z.shiftl 0x10 16) 0x1234)))
      (boot S2 profile 0) in
  Sketch2.ReceivedCode false st = confirm (startRunWithMetering st).
Proof. cbv zeta. vm_compute. reflexivity. Qed.

(** C1 as stated fails in sketch 2: in a learn session, a non-repeat frame
    from the captured address whose command byte is [0xFF] is stopped by
    the garbage guard; no slot is filled. *)
Lemma garbage_key_is_not_learned :
  let st := run S2 (frame_edges 0x00121234 ++ removelast (frame_edges 0x00FF1234))
              (boot S2 erased 0) in
  learnMode st = true
  /\ address st = learnedIrRcCode st
  /\ command8 st = 0xFF
  /\ slots2 st = [0xFFFF; 0xFFFF; 0xFFFF; 0xFFFF; 0xFFFF; 0xFFFF; 0xFFFF]
  /\ Sketch2.ReceivedCode false st = st
  /\ slots2 (Sketch2.ReceivedCode false st)
     <> fill_first (command8 st) (slots2 st).
Proof.
  cbv zeta.
  split; [vm_compute; reflexivity |].
  split; [vm_compute; reflexivity |].
  split; [vm_compute; reflexivity |].
  split; [vm_compute; reflexivity |].
  split; [vm_compute; reflexivity |].
  vm_compute. discriminate.
Qed.

(** Sketch 2 after the Center key of the aluminium remote, the learned Play
    key being [0x10]: the latch is set and the white Play key is ignored. *)
Lemma alu_latch_after_center_key :
  let profile := mkRC 0x1234 0x10 0x11 0x12 0x13 0x14 0x15 0x16 in
  let st0 := run S2 (Poll 300 :: removelast (frame_edges (appleFrame 0x2E)))
               (boot S2 profile 0) in
  let st := run S2 (Edge 17 0 :: removelast (frame_edges (appleFrame 0x02))) st0 in
  address st0 = 0x87EE /\ command7 st0 = 0x2E
  /\ aluRemote (Sketch2.ReceivedCode false st0) = true
  /\ aluRemote st = true /\ whitePlayFrame st
  /\ ~ toggled_run st (Sketch2.ReceivedCode false st).
Proof.
  cbv zeta.
  set (profile := mkRC 0x1234 0x10 0x11 0x12 0x13 0x14 0x15 0x16).
  set (st0 := run S2 (Poll 300 :: removelast (frame_edges (appleFrame 0x2E)))
                (boot S2 profile 0)).
  set (st := run S2 (Edge 17 0 :: removelast (frame_edges (appleFrame 0x02))) st0).
  assert (Ha : address st0 = 0x87EE) by (vm_compute; reflexivity).
  assert (Hk : command7 st0 = 0x2E) by (vm_compute; reflexivity).
  assert (Hlatch : aluRemote st = true) by (vm_compute; reflexivity).
  assert (Hw : whitePlayFrame st) by (split; vm_compute; reflexivity).
  split; [exact Ha |]. split; [exact Hk |].
  split.
  - destruct (alu_latch_is_one_way st0) as (Hset & _ & _).
    destruct (Hset Ha (or_introl Hk)) as (_ & H2).
    apply H2; vm_compute; reflexivity.
  - split; [exact Hlatch |]. split; [exact Hw |].
    destruct (alu_latch_is_one_way st) as (_ & _ & Hign).
    destruct (Hign Hlatch Hw false) as (_ & H2).
    apply H2. vm_compute. discriminate.
Defined.

(** C9 as stated fails in sketch 2: with a learned Play key of [0x02], the
    Center key of the aluminium remote sets the latch, and the white Play
    key that follows still starts a run. *)
Lemma white_play_honoured_through_learned_key :
  let profile := mkRC 0x1234 0x02 0x11 0x12 0x13 0x14 0x15 0x16 in
  let st := run S2 (Poll 300 :: frame_edges (appleFrame 0x2E)
                      ++ removelast (frame_edges (appleFrame 0x02)))
              (boot S2 profile 0) in
  aluRemote st = true
  /\ whitePlayFrame st
  /\ toggled_run st (Sketch2.ReceivedCode false st).
Proof.
  cbv zeta. split; [vm_compute; reflexivity |].
  split; [split; vm_compute; reflexivity |].
  left. vm_compute. left. reflexivity.
Qed.


(** * Further properties of the sketches *)

(** ** Decoding a whole frame *)

Lemma run_app s a b st : run s (a ++ b) st = run s b (run s a st).
Proof. unfold run. apply fold_left_app. Qed.

Lemma gaps_value_app gaps1 :
  forall i gaps2,
    gaps_value i (gaps1 ++ gaps2)
    = Z.lor (gaps_value i gaps1)
        (gaps_value (i + Z.of_nat (length gaps1)) gaps2).
Proof.
  induction gaps1 as [| g rest IH]; intros i gaps2.
  - cbn [app gaps_value length]. rewrite Z.add_0_r. reflexivity.
  - cbn [app gaps_value length]. rewrite IH, Z.lor_assoc.
    replace (i + 1 + Z.of_nat (length rest))
      with (i + Z.of_nat (S (length rest))) by lia.
    reflexivity.
Qed.

Lemma shiftl_1_below i n : 0 <= i < n -> 0 <= Z.shiftl 1 i < 2 ^ n.
Proof.
  intros H. rewrite Z.shiftl_1_l. split; [apply Z.pow_nonneg; lia |].
  apply Z.pow_lt_mono_r; lia.
Qed.

Lemma gaps_value_below gaps :
  forall i, 0 <= i ->
    0 <= gaps_value i gaps < 2 ^ (i + Z.of_nat (length gaps)).
Proof.
  induction gaps as [| g rest IH]; intros i Hi.
  - cbn [gaps_value length]. split; [lia | apply Z.pow_pos_nonneg; lia].
  - cbn [gaps_value length].
    replace (i + Z.of_nat (S (length rest)))
      with (i + 1 + Z.of_nat (length rest)) by lia.
    apply lor_below; [lia | | apply IH; lia].
    destruct (26 <? g); [apply shiftl_1_below; lia |].
    split; [lia | apply Z.pow_pos_nonneg; lia].
Qed.

(** The data gaps that do not complete the frame: each one stores its bit
    and moves [irBits] on. *)
Lemma data_edges s f :
  overFlowOf f = 0 ->
  forall gaps st,
    0 <= irBits st ->
    irBits st + Z.of_nat (length gaps) <= 31 ->
    0 <= receivedData st < 2 ^ irBits st ->
    Forall (fun g => g <= 44) gaps ->
    run s (map (fun g => Edge g f) gaps) st
    = set_irBits (irBits st + Z.of_nat (length gaps))
        (set_receivedData
           (Z.lor (receivedData st) (gaps_value (irBits st) gaps)) st).
Proof.
  intros Hf gaps. induction gaps as [| g rest IH]; intros st Hi Hlen Hrd Hg.
  - cbn [map run fold_left gaps_value length].
    rewrite Z.add_0_r, Z.lor_0_r. destruct st; reflexivity.
  - cbn [length] in Hlen. inversion Hg as [| ? ? Hg1 Hgr]; subst.
    cbn [map]. change (run s (Edge g f :: map (fun g0 => Edge g0 f) rest) st)
      with (run s (map (fun g0 => Edge g0 f) rest) (irEdge s g f st)).
    destruct (irEdge_receiving s g f st ltac:(lia)) as (_ & Hbit).
    destruct (Hbit Hg1 Hf) as (Heq & _). clear Hbit.
    destruct (Z.eqb_spec (irBits st) 31) as [E | _]; [lia |].
    assert (Hpow : 2 ^ (irBits st + 1) = 2 * 2 ^ irBits st)
      by (change (irBits st + 1) with (Z.succ (irBits st));
          apply Z.pow_succ_r; lia).
    assert (Hp32 : 2 ^ (irBits st + 1) <= 2 ^ 32)
      by (apply Z.pow_le_mono_r; lia).
    assert (Hone : 0 <= Z.shiftl 1 (irBits st) < 2 ^ (irBits st + 1))
      by (apply shiftl_1_below; lia).
    assert (Hlor : 0 <= Z.lor (receivedData st) (Z.shiftl 1 (irBits st))
                   < 2 ^ (irBits st + 1))
      by (apply lor_below; lia).
    rewrite Heq. rewrite IH.
    + cbn [irBits receivedData set_irBits gaps_value length].
      replace (irBits st + 1 + Z.of_nat (length rest))
        with (irBits st + Z.of_nat (S (length rest))) by lia.
      destruct (26 <? g).
      * cbn [receivedData set_receivedData].
        rewrite uint32_small by lia. rewrite <- Z.lor_assoc. reflexivity.
      * rewrite Z.lor_0_l. reflexivity.
    + cbn [irBits set_irBits]. lia.
    + cbn [irBits set_irBits]. lia.
    + cbn [irBits receivedData set_irBits].
      destruct (26 <? g); cbn [receivedData set_receivedData];
        rewrite ?uint32_small by lia; lia.
    + exact Hgr.
Qed.

(** X1.  A complete frame is decoded to the value its gaps encode: from
    the state awaiting a leader, a leader gap of 194..228 ticks followed by
    32 data gaps of at most 44 ticks, none with an overflow, calls
    [ReceivedCode] once, with [Repeat = false] and [receivedData] holding a
    1 in bit [i] exactly when gap [i] is longer than 26 ticks; the decoder
    then awaits a leader again. *)
Theorem frame_is_decoded (s : sketch) (f leader : Z) (gaps : list Z) (st : state) :
  overFlowOf f = 0 ->
  irBits st = 32 ->
  194 <= leader <= 228 ->
  length gaps = 32%nat ->
  Forall (fun g => g <= 44) gaps ->
  run s (edges_of f leader gaps) st
  = set_irBits 32
      (ReceivedCode s false
         (set_irBits 31 (set_receivedData (gaps_value 0 gaps) st))).
Proof.
  intros Hf H32 Hl Hlen Hg.
  assert (Hsplit : gaps = firstn 31 gaps ++ skipn 31 gaps)
    by (symmetry; apply firstn_skipn).
  assert (Hlen1 : length (firstn 31 gaps) = 31%nat)
    by (rewrite length_firstn, Hlen; reflexivity).
  assert (Hlen2 : length (skipn 31 gaps) = 1%nat)
    by (rewrite length_skipn, Hlen; reflexivity).
  destruct (skipn 31 gaps) as [| g [| ? ?]] eqn:Hlast; try discriminate.
  set (head := firstn 31 gaps) in *.
  assert (Hgh : Forall (fun g => g <= 44) head /\ g <= 44).
  { rewrite Hsplit in Hg. apply Forall_app in Hg. destruct Hg as [Hh Ht].
    split; [exact Hh | inversion Ht; assumption]. }
  destruct Hgh as [Hgh Hgl].
  rewrite Hsplit. unfold edges_of. rewrite map_app.
  change (Edge leader f :: map (fun g0 => Edge g0 f) head
            ++ map (fun g0 => Edge g0 f) [g])
    with ([Edge leader f] ++ map (fun g0 => Edge g0 f) head
            ++ map (fun g0 => Edge g0 f) [g]).
  rewrite !run_app.
  change (run s [Edge leader f] st) with (irEdge s leader f st).
  destruct (irEdge_awaiting s leader f st H32) as (Hlead & _).
  destruct (Hlead Hl Hf) as (Heq & _). rewrite Heq. clear Hlead Heq.
  rewrite (data_edges s f Hf head).
  - cbn [irBits receivedData set_irBits set_receivedData].
    rewrite Hlen1, Z.lor_0_l.
    change (0 + Z.of_nat 31) with 31.
    cbn [map]. 
    match goal with
    | |- run s [Edge g f] ?X = _ =>
        change (run s [Edge g f] X) with (irEdge s g f X); set (st31 := X)
    end.
    assert (Hi : 0 <= irBits st31 <= 31) by (subst st31; cbn; lia).
    destruct (irEdge_receiving s g f st31 Hi) as (_ & Hbit).
    destruct (Hbit Hgl Hf) as (Hfin & _). rewrite Hfin. clear Hbit Hfin.
    subst st31. cbn [irBits receivedData set_irBits set_receivedData].
    change (31 =? 31) with true. cbv iota. change (31 + 1) with 32.
    rewrite gaps_value_app, Hlen1. change (0 + Z.of_nat 31) with 31.
    cbn [gaps_value]. rewrite Z.lor_0_r.
    pose proof (gaps_value_below head 0 ltac:(lia)) as Hb.
    rewrite Hlen1 in Hb. change (0 + Z.of_nat 31) with 31 in Hb.
    destruct (26 <? g).
    + rewrite uint32_small.
      * reflexivity.
      * apply lor_below; [lia | | apply shiftl_1_below; lia].
        assert (2 ^ 31 <= 2 ^ 32) by (apply Z.pow_le_mono_r; lia). lia.
    + rewrite Z.lor_0_r. reflexivity.
  - cbn. lia.
  - cbn [irBits set_irBits]. rewrite Hlen1. lia.
  - cbn. split; [lia | reflexivity].
  - exact Hgh.
Qed.

(** X2.  Whatever arrives after [setup] (edges with any timing, timer
    interrupts, passes of [loop]), [irBits] stays within 0..32 and the
    buffer holds no bit at or above [irBits]: the shift [1 << irBits] is
    always defined and [receivedData] never leaves 32 bits. *)
Theorem decoder_stays_in_range (s : sketch) (stored : RC) (millis : Z)
    (ins : list input) :
  let st := run s ins (boot s stored millis) in
  0 <= irBits st <= 32
  /\ 0 <= receivedData st < 2 ^ 32
  /\ (irBits st < 32 -> 0 <= receivedData st < 2 ^ irBits st).
Proof.
  cbv zeta.
  pose proof (decoder_ok_run s ins _ (decoder_ok_boot s stored millis)) as H.
  destruct H as [[H32 Hrd] | [Hi Hrd]].
  - rewrite H32. split; [lia |]. split; [exact Hrd | lia].
  - split; [lia |]. split; [| intros _; exact Hrd].
    assert (2 ^ irBits (run s ins (boot s stored millis)) <= 2 ^ 32)
      by (apply Z.pow_le_mono_r; lia).
    lia.
Qed.

(** ** What a frame never does *)

(** Close a goal [no_relay_call st st'] when [st'] is an explicit
    composition of routines. *)
Ltac quiet :=
  unfold no_relay_call;
  first [ rewrite new_events_none by reflexivity; reflexivity
        | erewrite new_events_app by (trace_norm; reflexivity); reflexivity ].

(** Reduce the level of a pin after an explicit composition of routines to
    its level before. *)
Ltac pin_levels :=
  unfold digitalRead; cbn -[Z.testbit Z.setbit Z.clearbit];
  unfold ledPin, loadPin, holdPin, startPin, lightmeterPin;
  repeat first [rewrite Z.clearbit_eqb | rewrite Z.setbit_eqb by lia];
  cbn [Z.eqb Pos.eqb negb andb orb];
  repeat first [ rewrite andb_true_r | rewrite andb_false_r
               | rewrite orb_true_r | rewrite orb_false_r
               | progress cbn [negb andb orb] ];
  try reflexivity.

(** X3.  A repeat frame is never a camera command, in any sketch and any
    state: it enters none of the four relay routines, leaves the
    lightmeter, hold and start lines, the postscaler, both interval steps,
    the divider, the timer interrupt mask, the latch and the metering mode
    as they are.  (It may blink, and in a learn session of sketch 3 it is
    learned like any other frame.) *)
Theorem repeat_frame_is_no_command (s : sketch) (st : state) :
  let st' := ReceivedCode s true st in
  no_relay_call st st'
  /\ same_schedule st st'
  /\ aluRemote st' = aluRemote st
  /\ lmMode st' = lmMode st
  /\ digitalRead lightmeterPin st' = digitalRead lightmeterPin st
  /\ digitalRead holdPin st' = digitalRead holdPin st
  /\ digitalRead startPin st' = digitalRead startPin st.
Proof.
  cbv zeta.
  destruct s; open_dispatch; cbn [negb andb orb];
    rewrite ?andb_false_r; cbn [andb orb]; cbv iota;
    case_ifs; (split; [quiet |]); (split; [repeat split |]);
    repeat split; pin_levels.
Qed.

Lemma quiet_while_learning_2 Repeat st :
  justBooted st = true \/ learnMode st = true ->
  let st' := Sketch2.ReceivedCode Repeat st in
  no_relay_call st st' /\ same_schedule st st'
  /\ aluRemote st' = aluRemote st /\ lmMode st' = lmMode st.
Proof.
  intros H. cbv zeta. unfold Sketch2.ReceivedCode. cbv zeta.
  destruct (Sketch2.notGarbage st);
    [| split; [quiet | repeat split]].
  destruct (justBooted st) eqn:Hj; destruct (learnMode st) eqn:Hl;
    cbn [negb andb]; cbv iota;
    try (destruct H; discriminate);
    case_ifs; (split; [quiet | repeat split]).
Qed.

Lemma quiet_while_learning_3 Repeat st :
  justBooted st = true \/ learnMode st = true ->
  let st' := Sketch3.ReceivedCode Repeat st in
  no_relay_call st st' /\ same_schedule st st'
  /\ aluRemote st' = aluRemote st /\ lmMode st' = lmMode st.
Proof.
  intros H. cbv zeta. unfold Sketch3.ReceivedCode. cbv zeta.
  rewrite notGarbage3_true.
  destruct (justBooted st) eqn:Hj; destruct (learnMode st) eqn:Hl;
    cbn [negb andb]; cbv iota;
    try (destruct H; discriminate);
    case_ifs; (split; [quiet | repeat split]).
Qed.

(** X4.  In the boot window and during a learn session of sketches 2 and
    3, no frame is a camera command: whatever it carries, repeat or not,
    [ReceivedCode] enters no relay routine and leaves the intervalometer,
    the latch and the metering mode alone. *)
Theorem no_camera_action_while_learning (Repeat : bool) (st : state) :
  justBooted st = true \/ learnMode st = true ->
  (let st' := Sketch2.ReceivedCode Repeat st in
   no_relay_call st st' /\ same_schedule st st'
   /\ aluRemote st' = aluRemote st /\ lmMode st' = lmMode st)
  /\ (let st' := Sketch3.ReceivedCode Repeat st in
      no_relay_call st st' /\ same_schedule st st'
      /\ aluRemote st' = aluRemote st /\ lmMode st' = lmMode st).
Proof.
  intros H. split.
  - apply quiet_while_learning_2. exact H.
  - apply quiet_while_learning_3. exact H.
Qed.

(** ** Normal operation never touches the profile *)

Lemma puts_app a b : puts (a ++ b) = puts a ++ puts b.
Proof.
  induction a as [| e a IH]; [reflexivity |].
  destruct e; cbn [app puts]; rewrite IH; reflexivity.
Qed.

Lemma puts_quiet st st' l :
  trace st' = trace st ++ l -> puts l = [] ->
  puts (trace st') = puts (trace st).
Proof. intros -> H. rewrite puts_app, H. apply app_nil_r. Qed.

(** Close a goal [same_profile st st'] when [st'] is an explicit
    composition of routines without [EEPROM_put]. *)
Ltac profile_kept :=
  unfold same_profile;
  repeat (split; [reflexivity |]);
  first [ reflexivity
        | eapply puts_quiet; [trace_norm; reflexivity | reflexivity] ].

Lemma ReceivedCode_normal s r st :
  normal_operation st ->
  normal_operation (ReceivedCode s r st)
  /\ same_profile st (ReceivedCode s r st).
Proof.
  intros [Hj Hl]. unfold normal_operation.
  destruct s; open_dispatch; rewrite ?Hj, ?Hl; cbn [negb andb]; cbv iota;
    case_ifs; (split; [split; assumption | profile_kept]).
Qed.

Lemma step_normal s i st :
  normal_operation st ->
  normal_operation (step s i st) /\ same_profile st (step s i st).
Proof.
  intros H. destruct i as [TCNT0 TIFR | | millis]; cbn [step].
  - unfold irEdge, INT0_vect. cbv zeta.
    case_ifs;
      first [ split; [exact H | profile_kept]
            | match goal with
              | |- context [ReceivedCode s ?r ?x] =>
                  exact (ReceivedCode_normal s r x H)
              end ].
  - destruct (Z.testbit (TIMSK st) OCIE1A);
      [| split; [exact H | profile_kept]].
    rewrite timerTick_eq.
    destruct s; case_ifs; (split; [exact H | profile_kept]).
  - destruct H as [Hj Hl]. unfold normal_operation.
    destruct s; unfold Sketch1.loop, Sketch2.loop, Sketch3.loop;
      rewrite ?Hj; cbv iota;
      (split; [split; [reflexivity | assumption] | profile_kept]).
Qed.

Lemma same_profile_trans st1 st2 st3 :
  same_profile st1 st2 -> same_profile st2 st3 -> same_profile st1 st3.
Proof.
  unfold same_profile.
  intros (A1 & A2 & A3 & A4 & A5 & A6) (B1 & B2 & B3 & B4 & B5 & B6).
  repeat split; congruence.
Qed.

Lemma run_normal s ins :
  forall st, normal_operation st ->
    normal_operation (run s ins st) /\ same_profile st (run s ins st).
Proof.
  induction ins as [| i ins IH]; intros st H.
  - split; [exact H | unfold same_profile; repeat split; reflexivity].
  - destruct (step_normal s i st H) as [Hn Hp].
    destruct (IH _ Hn) as [Hn' Hp'].
    split; [exact Hn' |].
    exact (same_profile_trans _ _ _ Hp Hp').
Qed.

(** X5.  Learning is only possible in the boot window: once a sketch is
    past the boot window with no learn session open, nothing that arrives
    (edges, timer interrupts, passes of [loop]) opens one, changes the
    learned address or a learned key, or writes the EEPROM. *)
Theorem profile_is_frozen_in_normal_operation (s : sketch) (ins : list input)
    (st : state) :
  normal_operation st ->
  normal_operation (run s ins st) /\ same_profile st (run s ins st).
Proof. apply run_normal. Qed.

(** ** The confirmation flag *)

Lemma ReceivedCode_blinkFlag s r st :
  blinkFlag st = true -> blinkFlag (ReceivedCode s r st) = true.
Proof.
  intros H. destruct s; open_dispatch; case_ifs;
    first [exact H | reflexivity].
Qed.

Lemma step_blinkFlag s i st :
  blinkFlag st = true -> blinkFlag (step s i st) = true.
Proof.
  intros H. destruct i as [TCNT0 TIFR | | millis]; cbn [step].
  - unfold irEdge, INT0_vect. cbv zeta.
    case_ifs; cbn [blinkFlag set_irBits set_receivedData];
      try apply ReceivedCode_blinkFlag; exact H.
  - rewrite timerTick_eq. case_ifs; destruct s; exact H.
  - destruct s; unfold Sketch1.loop, Sketch2.loop, Sketch3.loop; cbv zeta;
      case_ifs; exact H.
Qed.

(** X9.  [blinkFlag] is true whenever a handler is entered: the branch
    that clears it (an unmapped key of a known remote) sets it again before
    [ReceivedCode] returns.  So the flag suppresses the confirmation blink
    for that one frame only. *)
Theorem blinkFlag_is_set_between_frames (s : sketch) (stored : RC) (millis : Z)
    (ins : list input) :
  blinkFlag (run s ins (boot s stored millis)) = true.
Proof.
  assert (H : forall st, blinkFlag st = true -> blinkFlag (run s ins st) = true).
  { induction ins as [| i ins IH]; intros st Hst; [exact Hst |].
    cbn. apply IH. apply step_blinkFlag. exact Hst. }
  apply H. destruct s; reflexivity.
Qed.

(** ** The EEPROM record across a power cycle *)

Lemma uint16_int16 z : 0 <= z < 65536 -> uint16 (int16 z) = z.
Proof.
  intros H. unfold uint16, int16.
  destruct (Z_lt_ge_dec z 32768) as [Hlo | Hhi].
  - rewrite (Z.mod_small (z + 32768)) by lia.
    replace (z + 32768 - 32768) with z by lia. apply Z.mod_small. lia.
  - replace (z + 32768) with (z - 32768 + 1 * 65536) by lia.
    rewrite Z.mod_add by lia. rewrite (Z.mod_small (z - 32768)) by lia.
    replace (z - 32768 - 32768) with (z + (-1) * 65536) by lia.
    rewrite Z.mod_add by lia. apply Z.mod_small. lia.
Qed.

Lemma map_byte_small l :
  Forall (fun k => 0 <= k < 256) l -> map byte l = l.
Proof.
  induction 1 as [| k l Hk _ IH]; [reflexivity |].
  cbn [map]. rewrite IH, byte_small by exact Hk. reflexivity.
Qed.

(** X6.  The record written at the end of a learn session survives a power
    cycle: [setup] of sketch 2 (of sketch 3), run on the record built from
    an address of 16 bits and seven keys of 8 bits, restores that address
    and those keys, although the address passes through a signed [int]
    field. *)
Theorem profile_survives_power_cycle (millis : Z) (st : state) :
  (0 <= learnedIrRcCode st < 65536 ->
   Forall (fun k => 0 <= k < 256) (slots2 st) ->
   let st' := Sketch2.setup millis (power_on (Sketch2.learnedProfile st)) in
   learnedIrRcCode st' = learnedIrRcCode st /\ slots2 st' = slots2 st)
  /\ (0 <= irRcCode st < 65536 ->
      Forall (fun k => 0 <= k < 256) (slots3 st) ->
      let st' := Sketch3.setup millis (power_on (Sketch3.learnedProfile st)) in
      irRcCode st' = irRcCode st /\ slots3 st' = slots3 st).
Proof.
  split; intros Ha Hk; cbv zeta.
  - split.
    + change (learnedIrRcCode
                (Sketch2.setup millis (power_on (Sketch2.learnedProfile st))))
        with (uint16 (int16 (learnedIrRcCode st))).
      apply uint16_int16. exact Ha.
    + change (slots2
                (Sketch2.setup millis (power_on (Sketch2.learnedProfile st))))
        with (map byte (slots2 st)).
      apply map_byte_small. exact Hk.
  - split.
    + change (irRcCode
                (Sketch3.setup millis (power_on (Sketch3.learnedProfile st))))
        with (uint16 (int16 (irRcCode st))).
      apply uint16_int16. exact Ha.
    + change (slots3
                (Sketch3.setup millis (power_on (Sketch3.learnedProfile st))))
        with (map byte (slots3 st)).
      apply map_byte_small. exact Hk.
Qed.

(** ** The interval key *)

Lemma land_bit a n :
  0 <= n ->
  Z.land a (Z.shiftl 1 n) = if Z.testbit a n then Z.shiftl 1 n else 0.
Proof.
  intros Hn. apply Z.bits_inj'. intros i Hi.
  rewrite Z.land_spec, Z.shiftl_spec by exact Hi.
  destruct (Z.eq_dec i n) as [-> | Hne].
  - rewrite Z.sub_diag. change (Z.testbit 1 0) with true. rewrite andb_true_r.
    destruct (Z.testbit a n).
    + rewrite Z.shiftl_spec, Z.sub_diag by exact Hn. reflexivity.
    + rewrite Z.bits_0. reflexivity.
  - assert (Hz : Z.testbit 1 (i - n) = false).
    { destruct (Z_lt_ge_dec i n) as [Hlt | Hge].
      - apply Z.testbit_neg_r. lia.
      - apply (testbit_below 1 (i - n)). split; [lia |].
        apply (Z.pow_gt_1 2 (i - n)); lia. }
    rewrite Hz, andb_false_r.
    destruct (Z.testbit a n).
    + rewrite Z.shiftl_spec, Hz by exact Hi. reflexivity.
    + rewrite Z.bits_0. reflexivity.
Qed.

Lemma shiftl_1_nonzero n : 0 <= n -> Z.shiftl 1 n <> 0.
Proof.
  intros Hn. rewrite Z.shiftl_1_l.
  pose proof (Z.pow_pos_nonneg 2 n ltac:(lia) Hn). lia.
Qed.

(** The bits of [TIMSK] after the interval key's toggle. *)
Lemma toggle_bits st i :
  0 <= i ->
  Z.testbit (TIMSK (toggleTimerInterrupt st)) i
  = xorb (Z.testbit (TIMSK st) i) (i =? OCIE1A).
Proof.
  intros Hi. unfold toggleTimerInterrupt.
  assert (H6 : 0 <= OCIE1A) by (unfold OCIE1A; lia).
  rewrite (land_bit (TIMSK st) OCIE1A H6).
  destruct (Z.testbit (TIMSK st) OCIE1A) eqn:Hb.
  - destruct (Z.eqb_spec (Z.shiftl 1 OCIE1A) 0) as [E | _];
      [exfalso; exact (shiftl_1_nonzero _ H6 E) |].
    cbn [negb TIMSK set_TIMSK].
    rewrite Z.land_spec, Z.lnot_spec, Z.shiftl_spec by exact Hi.
    destruct (Z.eqb_spec i OCIE1A) as [-> | Hne].
    + rewrite Z.sub_diag, Hb. reflexivity.
    + assert (Hz : Z.testbit 1 (i - OCIE1A) = false).
      { destruct (Z_lt_ge_dec i OCIE1A) as [Hlt | Hge].
        - apply Z.testbit_neg_r. lia.
        - apply (testbit_below 1 (i - OCIE1A)). split; [lia |].
          apply (Z.pow_gt_1 2 (i - OCIE1A)); lia. }
      rewrite Hz. cbn [negb]. rewrite andb_true_r, xorb_false_r. reflexivity.
  - change (0 =? 0) with true. cbn [negb TIMSK set_TIMSK].
    rewrite Z.lor_spec, Z.shiftl_spec by exact Hi.
    destruct (Z.eqb_spec i OCIE1A) as [-> | Hne].
    + rewrite Z.sub_diag, Hb. reflexivity.
    + assert (Hz : Z.testbit 1 (i - OCIE1A) = false).
      { destruct (Z_lt_ge_dec i OCIE1A) as [Hlt | Hge].
        - apply Z.testbit_neg_r. lia.
        - apply (testbit_below 1 (i - OCIE1A)). split; [lia |].
          apply (Z.pow_gt_1 2 (i - OCIE1A)); lia. }
      rewrite Hz, orb_false_r, xorb_false_r. reflexivity.
Qed.

Lemma toggle_twice st :
  TIMSK (toggleTimerInterrupt (toggleTimerInterrupt st)) = TIMSK st.
Proof.
  apply Z.bits_inj'. intros i Hi. rewrite !toggle_bits by exact Hi.
  destruct (Z.testbit (TIMSK st) i); destruct (i =? OCIE1A); reflexivity.
Qed.

Lemma menu_key_sketch1 st :
  address st = Sketch1.RC_CODE -> command7 st = Sketch1.MENU_KEY ->
  Sketch1.ReceivedCode false st = confirm (toggleTimerInterrupt st).
Proof.
  intros Ha Hk. unfold Sketch1.ReceivedCode. cbv zeta. rewrite Ha, Hk. keys1.
  reflexivity.
Qed.

Lemma toggle_frame st :
  address (toggleTimerInterrupt st) = address st
  /\ command7 (toggleTimerInterrupt st) = command7 st
  /\ divider (toggleTimerInterrupt st) = divider st
  /\ postscaler (toggleTimerInterrupt st) = postscaler st
  /\ newIntervalStep (toggleTimerInterrupt st) = newIntervalStep st
  /\ OCR1C (toggleTimerInterrupt st) = OCR1C st
  /\ trace (toggleTimerInterrupt st) = trace st
  /\ blinkFlag (toggleTimerInterrupt st) = blinkFlag st.
Proof.
  unfold toggleTimerInterrupt.
  destruct (negb (Z.land (TIMSK st) (Z.shiftl 1 OCIE1A) =? 0));
    repeat split.
Qed.

(** X7.  Sketch 1, a non-repeat Menu key of the Apple Remote: it flips bit
    [OCIE1A] of [TIMSK] and no other bit, so a compare match that ran the
    handler before no longer does and conversely; divider, postscaler, step
    and [OCR1C] keep their values (the interval resumes where it paused),
    no relay routine runs, and a second Menu key restores [TIMSK]. *)
Theorem menu_key_pauses_and_resumes (st : state) :
  address st = Sketch1.RC_CODE ->
  command7 st = Sketch1.MENU_KEY ->
  let st' := Sketch1.ReceivedCode false st in
  (forall i, 0 <= i ->
     Z.testbit (TIMSK st') i = xorb (Z.testbit (TIMSK st) i) (i =? OCIE1A))
  /\ divider st' = divider st
  /\ postscaler st' = postscaler st
  /\ newIntervalStep st' = newIntervalStep st
  /\ OCR1C st' = OCR1C st
  /\ no_relay_call st st'
  /\ TIMSK (Sketch1.ReceivedCode false st') = TIMSK st.
Proof.
  intros Ha Hk. cbv zeta.
  rewrite (menu_key_sketch1 st Ha Hk).
  destruct (toggle_frame st) as (Fa & Fk & Fd & Fp & Fn & Fo & Ft & Fb).
  assert (Hc : forall x, TIMSK (confirm x) = TIMSK x
                         /\ address (confirm x) = address x
                         /\ command7 (confirm x) = command7 x).
  { intros x. unfold confirm. destruct (blinkFlag x); repeat split. }
  split; [| split; [| split; [| split; [| split; [| split]]]]].
  - intros i Hi. destruct (Hc (toggleTimerInterrupt st)) as (-> & _).
    apply toggle_bits. exact Hi.
  - unfold confirm. destruct (blinkFlag (toggleTimerInterrupt st)); exact Fd.
  - unfold confirm. destruct (blinkFlag (toggleTimerInterrupt st)); exact Fp.
  - unfold confirm. destruct (blinkFlag (toggleTimerInterrupt st)); exact Fn.
  - unfold confirm. destruct (blinkFlag (toggleTimerInterrupt st)); exact Fo.
  - unfold no_relay_call, confirm.
    destruct (blinkFlag (toggleTimerInterrupt st)).
    + erewrite new_events_app
        by (trace_norm; rewrite Ft; rewrite <- ?app_assoc; reflexivity).
      reflexivity.
    + rewrite new_events_none by (cbn [trace set_blinkFlag]; exact Ft).
      reflexivity.
  - destruct (Hc (toggleTimerInterrupt st)) as (Ht & Ha' & Hk').
    rewrite menu_key_sketch1 by congruence.
    destruct (Hc (toggleTimerInterrupt (confirm (toggleTimerInterrupt st))))
      as (-> & _).
    apply Z.bits_inj'. intros i Hi. rewrite toggle_bits by exact Hi.
    rewrite Ht, toggle_bits by exact Hi.
    destruct (Z.testbit (TIMSK st) i); destruct (i =? OCIE1A); reflexivity.
Qed.

(** ** The latch, exactly *)

(** X8.  Sketch 1: after any frame the latch is set exactly when it was
    set before or the frame is a non-repeat Center or Play key of the
    aluminium Apple Remote.  No key of the white remote, no repeat and no
    other remote sets it. *)
Theorem latch_is_set_by_the_alu_keys_only (Repeat : bool) (st : state) :
  aluRemote (Sketch1.ReceivedCode Repeat st)
  = aluRemote st
    || (negb Repeat && (address st =? Sketch1.RC_CODE)
        && ((command7 st =? Sketch1.ALU_CENTER_KEY)
            || (command7 st =? Sketch1.ALU_PLAY_KEY))).
Proof.
  unfold Sketch1.ReceivedCode. cbv zeta.
  cbv [toggleTimerInterrupt faster slower halfSpeed doubleSpeed]. cbv zeta.
  destruct (address st =? Sketch1.RC_CODE);
    destruct (command7 st =? Sketch1.ALU_CENTER_KEY);
    destruct (command7 st =? Sketch1.ALU_PLAY_KEY);
    destruct Repeat; cbn [negb andb orb]; cbv iota;
    case_ifs; cbn [aluRemote]; rewrite ?orb_false_r, ?orb_true_r; reflexivity.
Qed.

(** ** Relay lines *)

Lemma relays_eq (a a' b b' c c' d d' : bool) :
  a = a' -> b = b' -> c = c' -> d = d' -> (a, b, c, d) = (a', b', c', d').
Proof. intros -> -> -> ->. reflexivity. Qed.

Lemma relays_inv st a b c d :
  relays st = (a, b, c, d) ->
  digitalRead lightmeterPin st = a /\ digitalRead holdPin st = b
  /\ digitalRead loadPin st = c /\ digitalRead startPin st = d.
Proof. unfold relays. intros H. inversion H. auto. Qed.

Lemma relays_startRun st : relays (startRunWithMetering st) = (true, true, false, true).
Proof. unfold relays. apply relays_eq; pin_levels. Qed.

Lemma relays_stopRun st : relays (stopRun st) = (false, false, false, false).
Proof. unfold relays. apply relays_eq; pin_levels. Qed.

Lemma relays_meterOnce st :
  relays (meterOnce st)
  = (false, digitalRead holdPin st, false, digitalRead startPin st).
Proof. unfold relays. apply relays_eq; pin_levels. Qed.

Lemma relays_singleFrame s st :
  relays (singleFrame s st)
  = (digitalRead lightmeterPin st, digitalRead holdPin st, false, false).
Proof. destruct s; unfold relays; apply relays_eq; pin_levels. Qed.

Lemma relays_confirm st :
  relays (confirm st)
  = (digitalRead lightmeterPin st, digitalRead holdPin st,
     if blinkFlag st then false else digitalRead loadPin st,
     digitalRead startPin st).
Proof.
  unfold relays, confirm. destruct (blinkFlag st); apply relays_eq; pin_levels.
Qed.

(** X11.  Where each routine leaves the four relay lines (lightmeter,
    hold, load, start), whatever their levels were: [startRunWithMetering]
    on, on, off, on; [stopRun] all off; [meterOnce] lightmeter and load
    off, hold and start untouched; [singleFrame] load and start off,
    lightmeter and hold untouched. *)
Theorem relay_lines_after_each_routine (st : state) :
  relays (startRunWithMetering st) = (true, true, false, true)
  /\ relays (stopRun st) = (false, false, false, false)
  /\ relays (meterOnce st)
     = (false, digitalRead holdPin st, false, digitalRead startPin st)
  /\ (forall s,
         relays (singleFrame s st)
         = (digitalRead lightmeterPin st, digitalRead holdPin st, false, false)).
Proof.
  split; [apply relays_startRun |].
  split; [apply relays_stopRun |].
  split; [apply relays_meterOnce | intros s; apply relays_singleFrame].
Qed.

Lemma play_key_sketch1 st :
  address st = Sketch1.RC_CODE -> command7 st = Sketch1.ALU_PLAY_KEY ->
  Sketch1.ReceivedCode false st
  = confirm ((if digitalRead lightmeterPin st then stopRun
              else startRunWithMetering) (set_aluRemote true st)).
Proof.
  intros Ha Hk. unfold Sketch1.ReceivedCode. cbv zeta. rewrite Ha, Hk. keys1.
  change (digitalRead lightmeterPin (set_aluRemote true st))
    with (digitalRead lightmeterPin st).
  destruct (digitalRead lightmeterPin st); reflexivity.
Qed.

Lemma confirm_frame st :
  address (confirm st) = address st /\ command7 (confirm st) = command7 st
  /\ command8 (confirm st) = command8 st.
Proof. unfold confirm. destruct (blinkFlag st); repeat split. Qed.

(** X12.  Sketch 1, the Play key pressed twice: whatever the lightmeter
    line was, the two presses run one [startRunWithMetering] and one
    [stopRun]; started from a stopped camera (lightmeter low) they end with
    all four relay lines off. *)
Theorem play_twice_starts_and_stops (st : state) :
  address st = Sketch1.RC_CODE ->
  command7 st = Sketch1.ALU_PLAY_KEY ->
  let st1 := Sketch1.ReceivedCode false st in
  let st2 := Sketch1.ReceivedCode false st1 in
  digitalRead lightmeterPin st1 = negb (digitalRead lightmeterPin st)
  /\ digitalRead lightmeterPin st2 = digitalRead lightmeterPin st
  /\ (digitalRead lightmeterPin st = false ->
      relays st1 = (true, true, false, true)
      /\ relays st2 = (false, false, false, false)).
Proof.
  intros Ha Hk. cbv zeta.
  rewrite (play_key_sketch1 st Ha Hk).
  set (st1 := confirm ((if digitalRead lightmeterPin st then stopRun
                        else startRunWithMetering) (set_aluRemote true st))).
  assert (Ha1 : address st1 = Sketch1.RC_CODE).
  { subst st1. destruct (confirm_frame
      ((if digitalRead lightmeterPin st then stopRun else startRunWithMetering)
         (set_aluRemote true st))) as (-> & _).
    destruct (digitalRead lightmeterPin st); exact Ha. }
  assert (Hk1 : command7 st1 = Sketch1.ALU_PLAY_KEY).
  { subst st1. destruct (confirm_frame
      ((if digitalRead lightmeterPin st then stopRun else startRunWithMetering)
         (set_aluRemote true st))) as (_ & -> & _).
    destruct (digitalRead lightmeterPin st); exact Hk. }
  assert (Hr1 : relays st1
                = if digitalRead lightmeterPin st
                  then (false, false, false, false)
                  else (true, true, false, true)).
  { subst st1. rewrite relays_confirm.
    destruct (digitalRead lightmeterPin st).
    - destruct (relays_inv _ _ _ _ _ (relays_stopRun (set_aluRemote true st)))
        as (-> & -> & -> & ->).
      destruct (blinkFlag _); reflexivity.
    - destruct (relays_inv _ _ _ _ _ (relays_startRun (set_aluRemote true st)))
        as (-> & -> & -> & ->).
      destruct (blinkFlag _); reflexivity. }
  assert (Hl1 : digitalRead lightmeterPin st1
                = negb (digitalRead lightmeterPin st)).
  { destruct (digitalRead lightmeterPin st);
      destruct (relays_inv _ _ _ _ _ Hr1) as (-> & _); reflexivity. }
  rewrite (play_key_sketch1 st1 Ha1 Hk1).
  assert (Hr2 : relays (confirm ((if digitalRead lightmeterPin st1 then stopRun
                                  else startRunWithMetering)
                                   (set_aluRemote true st1)))
                = if digitalRead lightmeterPin st1
                  then (false, false, false, false)
                  else (true, true, false, true)).
  { rewrite relays_confirm.
    destruct (digitalRead lightmeterPin st1).
    - destruct (relays_inv _ _ _ _ _ (relays_stopRun (set_aluRemote true st1)))
        as (-> & -> & -> & ->).
      destruct (blinkFlag _); reflexivity.
    - destruct (relays_inv _ _ _ _ _ (relays_startRun (set_aluRemote true st1)))
        as (-> & -> & -> & ->).
      destruct (blinkFlag _); reflexivity. }
  split; [exact Hl1 |].
  split.
  - rewrite Hl1 in Hr2 |- *.
    destruct (digitalRead lightmeterPin st); cbn [negb] in Hr2 |- *;
      destruct (relays_inv _ _ _ _ _ Hr2) as (-> & _); reflexivity.
  - intros Hlow. rewrite Hlow in Hr1. split; [exact Hr1 |].
    rewrite Hr2, Hl1, Hlow. reflexivity.
Qed.

(** ** The single-frame key *)

Lemma center_key_sketch1 st :
  address st = Sketch1.RC_CODE -> command7 st = Sketch1.ALU_CENTER_KEY ->
  Sketch1.ReceivedCode false st
  = confirm (Sketch1.singleFrame
               (if lmMode st =? LM_MODE_1ST_SINGLESHOT
                then meterOnce (set_aluRemote true st)
                else set_aluRemote true st)).
Proof.
  intros Ha Hk. unfold Sketch1.ReceivedCode. cbv zeta. rewrite Ha, Hk. keys1.
  change (lmMode (set_aluRemote true st)) with (lmMode st).
  reflexivity.
Qed.

(** X10.  Sketch 1, a non-repeat Center key: [singleFrame] runs, preceded
    by [meterOnce] exactly when [lmMode] is the first-single-shot mode;
    afterwards [lmMode] is not that mode, so a second Center key does not
    meter again; the key leaves load and start off and hold untouched, and
    lightmeter off if it metered. *)
Theorem center_key_meters_once (st : state) :
  address st = Sketch1.RC_CODE ->
  command7 st = Sketch1.ALU_CENTER_KEY ->
  let st' := Sketch1.ReceivedCode false st in
  In (Call P_singleFrame) (new_events st st')
  /\ (In (Call P_meterOnce) (new_events st st')
      <-> lmMode st = LM_MODE_1ST_SINGLESHOT)
  /\ lmMode st' <> LM_MODE_1ST_SINGLESHOT
  /\ ~ In (Call P_meterOnce) (new_events st' (Sketch1.ReceivedCode false st'))
  /\ relays st'
     = ((if lmMode st =? LM_MODE_1ST_SINGLESHOT then false
         else digitalRead lightmeterPin st),
        digitalRead holdPin st, false, false).
Proof.
  intros Ha Hk. cbv zeta.
  assert (Hev : forall x,
             address x = Sketch1.RC_CODE ->
             command7 x = Sketch1.ALU_CENTER_KEY ->
             new_events x (Sketch1.ReceivedCode false x)
             = (if lmMode x =? LM_MODE_1ST_SINGLESHOT
                then [Call P_meterOnce; DigitalWrite lightmeterPin HIGH;
                      DigitalWrite ledPin HIGH; DelayMs 350;
                      DigitalWrite ledPin LOW; DigitalWrite lightmeterPin LOW]
                else [])
               ++ [Call P_singleFrame; DigitalWrite loadPin HIGH; DelayMs 10;
                   DigitalWrite loadPin LOW; DigitalWrite startPin HIGH;
                   DelayMs 20; DigitalWrite startPin LOW;
                   DigitalWrite loadPin HIGH; DelayMs 50;
                   DigitalWrite loadPin LOW]
               ++ (if blinkFlag x
                   then [Call P_blinkLED; DigitalWrite ledPin HIGH;
                         DelayMs 20; DigitalWrite ledPin LOW]
                   else [])).
  { intros x Hax Hkx. rewrite (center_key_sketch1 x Hax Hkx). unfold confirm.
    destruct (lmMode x =? LM_MODE_1ST_SINGLESHOT);
      match goal with
      | |- context [if blinkFlag ?y then _ else _] =>
          change (blinkFlag y) with (blinkFlag x)
      end;
      destruct (blinkFlag x);
      apply new_events_app; trace_norm; reflexivity. }
  assert (Hmode : lmMode (Sketch1.ReceivedCode false st)
                  = if lmMode st =? LM_MODE_1ST_SINGLESHOT
                    then LM_MODE_SUB_SINGLESHOT else lmMode st).
  { rewrite (center_key_sketch1 st Ha Hk). unfold confirm.
    destruct (lmMode st =? LM_MODE_1ST_SINGLESHOT);
      match goal with
      | |- context [if blinkFlag ?y then _ else _] => destruct (blinkFlag y)
      end; reflexivity. }
  assert (Hne : lmMode (Sketch1.ReceivedCode false st) <> LM_MODE_1ST_SINGLESHOT).
  { rewrite Hmode.
    destruct (Z.eqb_spec (lmMode st) LM_MODE_1ST_SINGLESHOT);
      [discriminate | assumption]. }
  split; [| split; [| split; [exact Hne | split]]].
  - rewrite (Hev st Ha Hk). apply in_or_app. right. left. reflexivity.
  - rewrite (Hev st Ha Hk).
    destruct (Z.eqb_spec (lmMode st) LM_MODE_1ST_SINGLESHOT) as [E | E].
    + split; [intros _; exact E | intros _; left; reflexivity].
    + split; [| intros; contradiction].
      cbn [app]. destruct (blinkFlag st); cbn [In app];
        intuition discriminate.
  - assert (Ha' : address (Sketch1.ReceivedCode false st) = Sketch1.RC_CODE)
      by (rewrite (center_key_sketch1 st Ha Hk);
          destruct (confirm_frame
                      (Sketch1.singleFrame
                         (if lmMode st =? LM_MODE_1ST_SINGLESHOT
                          then meterOnce (set_aluRemote true st)
                          else set_aluRemote true st))) as (-> & _);
          destruct (lmMode st =? LM_MODE_1ST_SINGLESHOT); exact Ha).
    assert (Hk' : command7 (Sketch1.ReceivedCode false st)
                  = Sketch1.ALU_CENTER_KEY)
      by (rewrite (center_key_sketch1 st Ha Hk);
          destruct (confirm_frame
                      (Sketch1.singleFrame
                         (if lmMode st =? LM_MODE_1ST_SINGLESHOT
                          then meterOnce (set_aluRemote true st)
                          else set_aluRemote true st))) as (_ & -> & _);
          destruct (lmMode st =? LM_MODE_1ST_SINGLESHOT); exact Hk).
    rewrite (Hev _ Ha' Hk').
    apply Z.eqb_neq in Hne. rewrite Hne. cbn [app].
    destruct (blinkFlag (Sketch1.ReceivedCode false st)); cbn [In app];
      intuition discriminate.
  - rewrite (center_key_sketch1 st Ha Hk). rewrite relays_confirm.
    pose proof (relays_singleFrame S1
                  (if lmMode st =? LM_MODE_1ST_SINGLESHOT
                   then meterOnce (set_aluRemote true st)
                   else set_aluRemote true st)) as H.
    change (singleFrame S1) with Sketch1.singleFrame in H.
    destruct (relays_inv _ _ _ _ _ H) as (-> & -> & -> & ->).
    destruct (lmMode st =? LM_MODE_1ST_SINGLESHOT).
    + destruct (relays_inv _ _ _ _ _ (relays_meterOnce (set_aluRemote true st)))
        as (-> & -> & _ & _).
      destruct (blinkFlag _); reflexivity.
    + destruct (blinkFlag _); reflexivity.
Qed.

(** ** The intervalometer settings *)

Lemma ReceivedCode_step_positive s r st :
  1 <= newIntervalStep st <= 255 ->
  1 <= newIntervalStep (ReceivedCode s r st).
Proof.
  intros H.
  destruct s; open_dispatch; case_ifs;
    cbn -[Z.add Z.sub Z.mul Z.quot byte constrain int16];
    rewrite ?constrain_spec by lia; rewrite ?byte_small by lia; lia.
Qed.

(** X13.  In every sketch, a frame received while the postscaler is at
    most 8192 keeps the intervalometer settings in range: postscaler within
    1..16384, step within 1..255, and a step of at least 11 whenever the
    postscaler is at most 4. *)
Theorem settings_stay_in_range (s : sketch) (Repeat : bool) (st : state) :
  schedule_ok st ->
  postscaler st <= 8192 ->
  schedule_ok (ReceivedCode s Repeat st).
Proof.
  intros (Hp & Hs & Hf) H8.
  assert (Hok : interval_ok st) by (repeat split; [lia .. | exact Hf]).
  destruct (ReceivedCode_keeps_floor s Repeat st Hok H8) as (Hp' & Hs' & Hf').
  pose proof (ReceivedCode_step_positive s Repeat st Hs) as H1.
  repeat split; [lia .. | exact Hf'].
Qed.

(** X16.  HalfSpeed and DoubleSpeed undo each other below the top of the
    range: from a postscaler of 1..8192, HalfSpeed then DoubleSpeed gives
    the postscaler back; from an even postscaler of 2..16384, so does
    DoubleSpeed then HalfSpeed.  Neither order touches the divider. *)
Theorem half_and_double_speed_cancel (st : state) :
  (1 <= postscaler st <= 8192 ->
   postscaler (doubleSpeed (halfSpeed st)) = postscaler st)
  /\ (2 <= postscaler st <= 16384 -> Z.even (postscaler st) = true ->
      postscaler (halfSpeed (doubleSpeed st)) = postscaler st)
  /\ divider (doubleSpeed (halfSpeed st)) = divider st
  /\ divider (halfSpeed (doubleSpeed st)) = divider st.
Proof.
  split; [| split; [| split]].
  - intros Hp. pose proof (halfSpeed_postscaler st Hp) as Hh.
    rewrite doubleSpeed_postscaler by lia. rewrite Hh.
    rewrite Z.min_r by lia. rewrite Z.div_mul by lia. lia.
  - intros Hp He. pose proof (doubleSpeed_postscaler st ltac:(lia)) as Hd.
    apply Z.even_spec in He. destruct He as [k Hk].
    assert (Hq : postscaler st / 2 = k)
      by (rewrite Hk, Z.mul_comm; apply Z.div_mul; lia).
    rewrite Hq in Hd. rewrite Z.max_r in Hd by lia.
    rewrite halfSpeed_postscaler by lia. rewrite Hd. lia.
  - unfold doubleSpeed, halfSpeed. cbv zeta.
    match goal with
    | |- divider (if ?c then _ else _) = _ => destruct c
    end; reflexivity.
  - unfold halfSpeed. cbn [divider set_postscaler].
    unfold doubleSpeed. cbv zeta.
    match goal with
    | |- divider (if ?c then _ else _) = _ => destruct c
    end; reflexivity.
Qed.

(** X14.  What the next timer interrupt makes of a Slower or Faster press.
    The handler compares the new step with [oldIntervalStep], which the
    press has just set to the step before it: a press that changes the step
    is committed to [OCR1C]; a press at the clamp, which leaves the step as
    it is, makes the interrupt keep [OCR1C] as it finds it. *)
Theorem step_press_then_timer (s : sketch) (st : state) :
  0 <= newIntervalStep st <= 255 ->
  (let st1 := slower st in
   newIntervalStep st1 = Z.min 255 (newIntervalStep st + 10)
   /\ OCR1C (timerTick s st1)
      = if newIntervalStep st <? 255 then newIntervalStep st1 else OCR1C st)
  /\ (let st1 := faster st in
      let floor := if postscaler st <=? 4 then 11 else 1 in
      newIntervalStep st1 = Z.max floor (newIntervalStep st - 10)
      /\ OCR1C (timerTick s st1)
         = if newIntervalStep st1 =? newIntervalStep st
           then OCR1C st else newIntervalStep st1).
Proof.
  intros H. cbv zeta. split.
  - assert (E : newIntervalStep (slower st) = Z.min 255 (newIntervalStep st + 10)).
    { unfold slower. cbv zeta.
      cbn [newIntervalStep oldIntervalStep set_oldIntervalStep
           set_newIntervalStep].
      rewrite constrain_spec by lia. rewrite byte_small by lia. lia. }
    split; [exact E |].
    assert (Ho : OCR1C (timerTick s (slower st))
                 = if newIntervalStep (slower st) =? oldIntervalStep (slower st)
                   then OCR1C (slower st) else newIntervalStep (slower st)).
    { rewrite timerTick_eq.
      destruct (newIntervalStep (slower st) =? oldIntervalStep (slower st));
        destruct (divider (slower st) =? 0); destruct s; reflexivity. }
    rewrite Ho.
    change (oldIntervalStep (slower st)) with (newIntervalStep st).
    change (OCR1C (slower st)) with (OCR1C st).
    rewrite E.
    destruct (Z.ltb_spec (newIntervalStep st) 255);
      destruct (Z.eqb_spec (Z.min 255 (newIntervalStep st + 10))
                  (newIntervalStep st)); try lia; reflexivity.
  - assert (E : newIntervalStep (faster st)
                = Z.max (if postscaler st <=? 4 then 11 else 1)
                    (newIntervalStep st - 10)).
    { unfold faster. cbv zeta.
      cbn [postscaler newIntervalStep oldIntervalStep set_oldIntervalStep].
      destruct (postscaler st <=? 4);
        cbn [newIntervalStep set_newIntervalStep];
        rewrite constrain_spec by lia; rewrite byte_small by lia; lia. }
    split; [exact E |].
    assert (Ho : OCR1C (timerTick s (faster st))
                 = if newIntervalStep (faster st) =? oldIntervalStep (faster st)
                   then OCR1C (faster st) else newIntervalStep (faster st)).
    { rewrite timerTick_eq.
      destruct (newIntervalStep (faster st) =? oldIntervalStep (faster st));
        destruct (divider (faster st) =? 0); destruct s; reflexivity. }
    rewrite Ho.
    assert (Eold : oldIntervalStep (faster st) = newIntervalStep st)
      by (unfold faster; cbv zeta;
          cbn [postscaler set_oldIntervalStep];
          destruct (postscaler st <=? 4); reflexivity).
    assert (Eocr : OCR1C (faster st) = OCR1C st)
      by (unfold faster; cbv zeta;
          cbn [postscaler set_oldIntervalStep];
          destruct (postscaler st <=? 4); reflexivity).
    rewrite Eold, Eocr. reflexivity.
Qed.

(** ** A remote that is not the Apple Remote *)

Lemma digitalRead_blinkLED p st :
  p <> ledPin -> digitalRead p (blinkLED st) = digitalRead p st.
Proof.
  intros Hp. unfold digitalRead. cbn -[Z.testbit Z.setbit Z.clearbit].
  rewrite Z.clearbit_neq by (intro E; apply Hp; symmetry; exact E).
  rewrite Z.setbit_neq;
    [reflexivity | unfold ledPin; lia | intro E; apply Hp; symmetry; exact E].
Qed.

(** X15.  Sketch 1, a non-repeat frame from any other address than the
    Apple Remote's: every key but [0xFF] toggles the run (blink, then
    [startRunWithMetering] if the lightmeter line is low, [stopRun] if it
    is high, then the confirmation); key [0xFF] only blinks.  No such frame
    touches the intervalometer or the latch. *)
Theorem unknown_remote_toggles_run (st : state) :
  address st <> Sketch1.RC_CODE ->
  let st' := Sketch1.ReceivedCode false st in
  (command8 st <> 0xFF -> digitalRead lightmeterPin st = false ->
     st' = confirm (startRunWithMetering (blinkLED st)))
  /\ (command8 st <> 0xFF -> digitalRead lightmeterPin st = true ->
      st' = confirm (stopRun (blinkLED st)))
  /\ (command8 st = 0xFF -> st' = confirm (blinkLED st))
  /\ same_schedule st st'
  /\ aluRemote st' = aluRemote st.
Proof.
  intros Ha. cbv zeta. apply Z.eqb_neq in Ha.
  unfold Sketch1.ReceivedCode. cbv zeta. rewrite Ha. cbn [negb]. cbv iota.
  change (command8 (blinkLED st)) with (command8 st).
  rewrite (digitalRead_blinkLED lightmeterPin st)
    by (unfold lightmeterPin, ledPin; lia).
  split; [| split; [| split]].
  - intros Hk Hl. apply Z.eqb_neq in Hk. rewrite Hk, Hl. reflexivity.
  - intros Hk Hl. apply Z.eqb_neq in Hk. rewrite Hk, Hl. reflexivity.
  - intros Hk. rewrite Hk. reflexivity.
  - case_ifs; (split; [repeat split | reflexivity]).
Qed.

(** X17.  Repeat frames during a learn session: sketch 2 drops them (the
    state does not change at all), sketch 3 does not look at the repeat
    flag and treats them like fresh frames, so a key held down is learned
    again for the next slot. *)
Theorem repeat_frames_while_learning (st : state) :
  learnMode st = true ->
  Sketch2.ReceivedCode true st = st
  /\ Sketch3.ReceivedCode true st = Sketch3.ReceivedCode false st.
Proof.
  intros Hl. split.
  - unfold Sketch2.ReceivedCode. cbv zeta.
    rewrite Hl, !andb_false_r. cbv iota.
    destruct (Sketch2.notGarbage st); reflexivity.
  - unfold Sketch3.ReceivedCode. cbv zeta.
    rewrite Hl, !andb_false_r. cbv iota. reflexivity.
Qed.

(** X18.  Normal operation of sketches 2 and 3, a non-repeat frame from an
    address that is neither stored nor (in sketch 2) the Apple Remote's:
    it toggles the run.  Sketch 2 acts on every frame its garbage guard
    lets through, that is on every key but [0xFF] and [0x00], and ignores
    the rest completely; sketch 3 acts on every key but [0xFF], [0x00]
    included, and answers [0xFF] with blinks only. *)
Theorem unknown_remote_in_normal_operation (st : state) :
  normal_operation st ->
  let toggle st :=
    if digitalRead lightmeterPin st then stopRun (blinkLED st)
    else startRunWithMetering (blinkLED st) in
  (address st <> learnedIrRcCode st -> address st <> Sketch2.appleIrRcCode ->
   Sketch2.ReceivedCode false st
   = if Sketch2.notGarbage st then confirm (toggle st) else st)
  /\ (address st <> irRcCode st ->
      Sketch3.ReceivedCode false st
      = if command8 st =? 0xFF then confirm (blinkLED st)
        else confirm (toggle st)).
Proof.
  intros [Hj Hl]. cbv zeta. split.
  - intros Ha1 Ha2. apply Z.eqb_neq in Ha1, Ha2.
    unfold Sketch2.ReceivedCode. cbv zeta.
    destruct (Sketch2.notGarbage st) eqn:Hg; [| reflexivity].
    rewrite Hj, Hl, Ha1, Ha2. cbn [negb andb]. cbv iota.
    assert (Hk : (command8 st =? 0xFF) = false).
    { unfold Sketch2.notGarbage in Hg. apply andb_true_iff in Hg.
      destruct Hg as [Hg _]. apply negb_true_iff in Hg. exact Hg. }
    rewrite Hk. cbn [negb andb].
    destruct (digitalRead lightmeterPin st); reflexivity.
  - intros Ha. apply Z.eqb_neq in Ha.
    unfold Sketch3.ReceivedCode. cbv zeta.
    rewrite notGarbage3_true, Hj, Hl, Ha. cbn [negb andb]. cbv iota.
    change (command8 (blinkLED st)) with (command8 st).
    rewrite (digitalRead_blinkLED lightmeterPin st)
      by (unfold lightmeterPin, ledPin; lia).
    destruct (command8 st =? 0xFF); cbn [negb andb]; [reflexivity |].
    destruct (digitalRead lightmeterPin st); reflexivity.
Qed.

(** ** The further properties at concrete inputs *)

(** Sketch 1 after [setup] receives a frame whose gaps spell the value 5. *)
Lemma frame_is_decoded_at_boot :
  let gaps := [35; 17; 35] ++ repeat 17 29 in
  let st := boot S1 erased 0 in
  gaps_value 0 gaps = 5
  /\ run S1 (edges_of 0 211 gaps) st
     = set_irBits 32
         (ReceivedCode S1 false
            (set_irBits 31 (set_receivedData (gaps_value 0 gaps) st))).
Proof.
  cbv zeta. split; [vm_compute; reflexivity |].
  apply frame_is_decoded; [reflexivity | reflexivity | lia | reflexivity |].
  cbn [app repeat]. repeat (apply Forall_cons; [lia |]). apply Forall_nil.
Defined.

(** Sketch 2 in its boot window receives a first frame: a learn session
    opens, no relay routine runs. *)
Lemma no_camera_action_in_boot_window :
  let st := set_receivedData 0x00121234 (boot S2 erased 0) in
  justBooted st = true
  /\ no_relay_call st (Sketch2.ReceivedCode false st)
  /\ learnMode (Sketch2.ReceivedCode false st) = true.
Proof.
  cbv zeta. split; [reflexivity |].
  destruct (no_camera_action_while_learning false
              (set_receivedData 0x00121234 (boot S2 erased 0))
              (or_introl eq_refl)) as ((H & _) & _).
  split; [exact H | vm_compute; reflexivity].
Defined.

(** Sketch 2 past its boot window: the Play key of the Apple Remote runs
    the camera and leaves profile and EEPROM alone. *)
Lemma profile_is_frozen_after_boot_window :
  let st := run S2 [Poll 300] (boot S2 erased 0) in
  let st' := run S2 (frame_edges (appleFrame 0x2F)) st in
  normal_operation st
  /\ normal_operation st' /\ same_profile st st'
  /\ digitalRead lightmeterPin st' = true.
Proof.
  cbv zeta.
  assert (H : normal_operation (run S2 [Poll 300] (boot S2 erased 0)))
    by (split; vm_compute; reflexivity).
  split; [exact H |].
  destruct (profile_is_frozen_in_normal_operation S2
              (frame_edges (appleFrame 0x2F)) _ H) as [Hn Hp].
  split; [exact Hn |]. split; [exact Hp |]. vm_compute. reflexivity.
Defined.

(** A profile with the Apple Remote's address, which is negative as an
    [int], read back by [setup] of sketch 2. *)
Lemma apple_profile_survives_power_cycle :
  let st := boot S2 (mkRC (-30738) 1 2 3 4 5 6 7) 0 in
  let st' := Sketch2.setup 0 (power_on (Sketch2.learnedProfile st)) in
  learnedIrRcCode st = 0x87EE
  /\ RcCode (Sketch2.learnedProfile st) = -30738
  /\ learnedIrRcCode st' = 0x87EE
  /\ slots2 st' = [1; 2; 3; 4; 5; 6; 7].
Proof.
  cbv zeta.
  set (st := boot S2 (mkRC (-30738) 1 2 3 4 5 6 7) 0).
  assert (Ha : 0 <= learnedIrRcCode st < 65536)
    by (vm_compute; split; [discriminate | reflexivity]).
  assert (Hk : Forall (fun k => 0 <= k < 256) (slots2 st)).
  { change (slots2 st) with [1; 2; 3; 4; 5; 6; 7].
    repeat (apply Forall_cons; [lia |]). apply Forall_nil. }
  split; [reflexivity |]. split; [reflexivity |].
  destruct (profile_survives_power_cycle 0 st) as (H2 & _).
  destruct (H2 Ha Hk) as [E1 E2].
  split; [rewrite E1 | rewrite E2]; reflexivity.
Defined.

(** Sketch 1 after [setup]: the Menu key enables the timer interrupt. *)
Lemma menu_key_at_boot :
  let st := set_receivedData (appleFrame 0x01) (boot S1 erased 0) in
  Z.testbit (TIMSK st) OCIE1A = false
  /\ Z.testbit (TIMSK (Sketch1.ReceivedCode false st)) OCIE1A = true
  /\ TIMSK (Sketch1.ReceivedCode false (Sketch1.ReceivedCode false st)) = 0.
Proof.
  cbv zeta.
  destruct (menu_key_pauses_and_resumes
              (set_receivedData (appleFrame 0x01) (boot S1 erased 0))
              eq_refl eq_refl) as (Hb & _ & _ & _ & _ & _ & H2).
  split; [reflexivity |]. split.
  - rewrite (Hb OCIE1A) by (unfold OCIE1A; lia). reflexivity.
  - rewrite H2. reflexivity.
Defined.

(** Sketch 1 after [setup]: the first Center key meters, the second does
    not. *)
Lemma center_key_at_boot :
  let st := set_receivedData (appleFrame 0x2E) (boot S1 erased 0) in
  let st' := Sketch1.ReceivedCode false st in
  In (Call P_meterOnce) (new_events st st')
  /\ ~ In (Call P_meterOnce) (new_events st' (Sketch1.ReceivedCode false st')).
Proof.
  cbv zeta.
  destruct (center_key_meters_once
              (set_receivedData (appleFrame 0x2E) (boot S1 erased 0))
              eq_refl eq_refl) as (_ & Hm & _ & H2 & _).
  split; [apply Hm; reflexivity | exact H2].
Defined.

(** Sketch 1 after [setup]: Play, Play. *)
Lemma play_twice_at_boot :
  let st := set_receivedData (appleFrame 0x2F) (boot S1 erased 0) in
  let st1 := Sketch1.ReceivedCode false st in
  relays st1 = (true, true, false, true)
  /\ relays (Sketch1.ReceivedCode false st1) = (false, false, false, false).
Proof.
  cbv zeta.
  destruct (play_twice_starts_and_stops
              (set_receivedData (appleFrame 0x2F) (boot S1 erased 0))
              eq_refl eq_refl) as (_ & _ & H).
  apply H. reflexivity.
Defined.

(** Sketch 1 after [setup] (postscaler 2, step 31): a Faster key. *)
Lemma settings_stay_in_range_at_boot :
  let st := set_receivedData (appleFrame 0x05) (boot S1 erased 0) in
  schedule_ok st /\ postscaler st <= 8192
  /\ schedule_ok (ReceivedCode S1 false st).
Proof.
  cbv zeta.
  set (st := set_receivedData (appleFrame 0x05) (boot S1 erased 0)).
  assert (Hp : postscaler st = 2) by reflexivity.
  assert (Hn : newIntervalStep st = 31) by reflexivity.
  assert (Hok : schedule_ok st)
    by (unfold schedule_ok, interval_floor; rewrite Hp, Hn; lia).
  assert (H8 : postscaler st <= 8192) by (rewrite Hp; lia).
  split; [exact Hok |]. split; [exact H8 |].
  exact (settings_stay_in_range S1 false st Hok H8).
Defined.

(** Step 31 at power-up: Slower stages 41 and the next interrupt commits
    it. *)
Lemma step_press_then_timer_at_boot :
  let st := boot S1 erased 0 in
  0 <= newIntervalStep st <= 255
  /\ newIntervalStep (slower st) = 41
  /\ OCR1C (timerTick S1 (slower st)) = 41.
Proof.
  cbv zeta.
  assert (H : 0 <= newIntervalStep (boot S1 erased 0) <= 255)
    by (change (newIntervalStep (boot S1 erased 0)) with 31; lia).
  split; [exact H |].
  destruct (step_press_then_timer S1 (boot S1 erased 0) H) as ((E1 & E2) & _).
  split.
  - rewrite E1. reflexivity.
  - rewrite E2, E1. reflexivity.
Defined.

(** Sketch 1 after [setup]: key [0x12] of a remote with address
    [0x1234] starts the run. *)
Lemma unknown_remote_at_boot :
  let st := set_receivedData 0x00121234 (boot S1 erased 0) in
  address st <> Sketch1.RC_CODE
  /\ Sketch1.ReceivedCode false st
     = confirm (startRunWithMetering (blinkLED st)).
Proof.
  cbv zeta.
  assert (Ha : address (set_receivedData 0x00121234 (boot S1 erased 0))
               <> Sketch1.RC_CODE) by (vm_compute; discriminate).
  split; [exact Ha |].
  destruct (unknown_remote_toggles_run _ Ha) as (H & _).
  apply H; [vm_compute; discriminate | reflexivity].
Defined.

(** Postscaler 2 at power-up. *)
Lemma half_and_double_speed_cancel_at_boot :
  let st := boot S1 erased 0 in
  postscaler st = 2
  /\ postscaler (doubleSpeed (halfSpeed st)) = 2
  /\ postscaler (halfSpeed (doubleSpeed st)) = 2.
Proof.
  cbv zeta. split; [reflexivity |].
  destruct (half_and_double_speed_cancel (boot S1 erased 0)) as (H1 & H2 & _).
  split.
  - apply H1. change (postscaler (boot S1 erased 0)) with 2. lia.
  - apply H2; [change (postscaler (boot S1 erased 0)) with 2; lia | reflexivity].
Defined.

(** A learn session of sketches 2 and 3 with the captured address
    [0x1234]. *)
Lemma repeat_frame_in_a_learn_session :
  let st2 := run S2 (frame_edges 0x00121234) (boot S2 erased 0) in
  let st3 := run S3 (frame_edges 0x00121234) (boot S3 erased 0) in
  learnMode st2 = true /\ learnMode st3 = true
  /\ Sketch2.ReceivedCode true st2 = st2
  /\ irPlayKey (Sketch3.ReceivedCode true st3) = 0x12.
Proof.
  cbv zeta.
  set (st2 := run S2 (frame_edges 0x00121234) (boot S2 erased 0)).
  set (st3 := run S3 (frame_edges 0x00121234) (boot S3 erased 0)).
  assert (H2 : learnMode st2 = true) by (vm_compute; reflexivity).
  assert (H3 : learnMode st3 = true) by (vm_compute; reflexivity).
  split; [exact H2 |]. split; [exact H3 |].
  split.
  - exact (proj1 (repeat_frames_while_learning st2 H2)).
  - rewrite (proj2 (repeat_frames_while_learning st3 H3)).
    vm_compute. reflexivity.
Defined.

(** Sketches 2 and 3 past the boot window on an erased EEPROM: key [0x12]
    of a remote with address [0x1234] starts the run. *)
Lemma unknown_remote_after_boot_window :
  let st2 := set_receivedData 0x00121234 (run S2 [Poll 300] (boot S2 erased 0)) in
  let st3 := set_receivedData 0x00121234 (run S3 [Poll 300] (boot S3 erased 0)) in
  normal_operation st2 /\ normal_operation st3
  /\ digitalRead lightmeterPin (Sketch2.ReceivedCode false st2) = true
  /\ digitalRead lightmeterPin (Sketch3.ReceivedCode false st3) = true.
Proof.
  cbv zeta.
  set (st2 := set_receivedData 0x00121234 (run S2 [Poll 300] (boot S2 erased 0))).
  set (st3 := set_receivedData 0x00121234 (run S3 [Poll 300] (boot S3 erased 0))).
  assert (H2 : normal_operation st2) by (split; vm_compute; reflexivity).
  assert (H3 : normal_operation st3) by (split; vm_compute; reflexivity).
  split; [exact H2 |]. split; [exact H3 |].
  split.
  - destruct (unknown_remote_in_normal_operation st2 H2) as (E & _).
    rewrite E by (vm_compute; discriminate). vm_compute. reflexivity.
  - destruct (unknown_remote_in_normal_operation st3 H3) as (_ & E).
    rewrite E by (vm_compute; discriminate). vm_compute. reflexivity.
Defined.
